(** * Native tool-call adapter: the streaming reconstructor and the request
      rewrite of [app.py], with the process configuration of [config.py].

    The Python code is embedded function by function.  JSON documents are a
    Rocq inductive type; the generator [handle_stream_response] becomes a
    function from the upstream lines to the list of lines it yields, written
    in a small generator monad (state, yielded output, exceptions).  The
    event objects produced by [json.loads] live in a heap, because the code
    keeps a reference to an earlier event ([last_chunk]) and mutates it in
    place. *)

From Stdlib Require Import ZArith String Ascii List Bool Lia.
From stdpp Require Import base option list strings.
Import ListNotations.

Local Open Scope string_scope.
Local Open Scope list_scope.

(** ** JSON values as Python sees them after [json.loads] *)

(** Numbers are restricted to integers: the index fields the code compares
    are integers in the protocol.  An object is the insertion-ordered
    association list of a Python [dict] (keys are distinct). *)
#[warnings="-register-all"]
Inductive json : Type :=
| JNull
| JBool (b : bool)
| JNum (n : Z)
| JStr (s : string)
| JArr (xs : list json)
| JObj (kvs : list (string * json)).

Module Py.

(** Lookup in the association list of a dict. *)
Fixpoint assoc {A : Type} (k : string) (kvs : list (string * A)) : option A :=
  match kvs with
  | [] => None
  | (k', v) :: rest => if String.eqb k k' then Some v else assoc k rest
  end.

(** [d[k] = v] on a dict: an existing key keeps its position, a new key is
    appended. *)
Fixpoint assoc_set {A : Type} (k : string) (v : A) (kvs : list (string * A))
  : list (string * A) :=
  match kvs with
  | [] => [(k, v)]
  | (k', v') :: rest =>
      if String.eqb k k' then (k, v) :: rest else (k', v') :: assoc_set k v rest
  end.

(** Truth value of an object: [None], [False], [0], the empty string, list
    and dict are false. *)
Definition truthy (j : json) : bool :=
  match j with
  | JNull => false
  | JBool b => b
  | JNum n => negb (n =? 0)%Z
  | JStr s => negb (String.eqb s "")
  | JArr xs => match xs with [] => false | _ => true end
  | JObj kvs => match kvs with [] => false | _ => true end
  end.

(** Truth value of a [str]. *)
Definition nonempty (s : string) : bool := negb (String.eqb s "").

(** [a or b]. *)
Definition or_ (a b : json) : json := if truthy a then a else b.

(** [a == b] on decoded JSON: [True == 1], lists compare element-wise,
    dicts compare as mappings, whatever the order of their keys. *)
Fixpoint eq (a b : json) {struct a} : bool :=
  match a, b with
  | JNull, JNull => true
  | JBool x, JBool y => Bool.eqb x y
  | JBool x, JNum n => (Z.b2z x =? n)%Z
  | JNum n, JBool x => (n =? Z.b2z x)%Z
  | JNum m, JNum n => (m =? n)%Z
  | JStr s, JStr t => String.eqb s t
  | JArr xs, JArr ys =>
      (fix all2 (xs ys : list json) {struct xs} : bool :=
         match xs, ys with
         | [], [] => true
         | x :: xs', y :: ys' => eq x y && all2 xs' ys'
         | _, _ => false
         end) xs ys
  | JObj kvs, JObj kws =>
      Nat.eqb (length kvs) (length kws) &&
      (fix sub (kvs : list (string * json)) {struct kvs} : bool :=
         match kvs with
         | [] => true
         | (k, v) :: kvs' =>
             match assoc k kws with
             | Some w => eq v w
             | None => false
             end && sub kvs'
         end) kvs
  | _, _ => false
  end.

(** [a != b]. *)
Definition ne (a b : json) : bool := negb (eq a b).

(** [j.get(k, default)]: only a dict has [get]; anything else raises
    [AttributeError] ([None]). *)
Definition get (j : json) (k : string) (default : json) : option json :=
  match j with
  | JObj kvs => Some (match assoc k kvs with Some v => v | None => default end)
  | _ => None
  end.

(** [j[k]] with a string key: [KeyError] on a dict without the key,
    [TypeError] on everything else. *)
Definition getitem (j : json) (k : string) : option json :=
  match j with
  | JObj kvs => assoc k kvs
  | _ => None
  end.

(** [j[0]]: the first element of a non-empty list, the first character of a
    non-empty string (a [str], on which every later [get] or [[...]] with a
    string key raises); [IndexError], [KeyError] (a dict has string keys
    only) or [TypeError] otherwise. *)
Definition index0 (j : json) : option json :=
  match j with
  | JArr (x :: _) => Some x
  | JStr (String c _) => Some (JStr (String c ""))
  | _ => None
  end.

(** [s += j] for a [str] accumulator [s]: [TypeError] unless [j] is a
    [str]. *)
Definition str_add (s : string) (j : json) : option string :=
  match j with
  | JStr t => Some (s +:+ t)
  | _ => None
  end.

(** [j["choices"][0]["delta"]["content"] = text], the in-place update of
    [create_tool_call], as the new value of the object [j]. *)
Definition set_content (j : json) (text : string) : option json :=
  match j with
  | JObj top =>
      match assoc "choices" top with
      | Some (JArr (JObj ch :: more)) =>
          match assoc "delta" ch with
          | Some (JObj d) =>
              Some (JObj (assoc_set "choices"
                     (JArr (JObj (assoc_set "delta"
                              (JObj (assoc_set "content" (JStr text) d)) ch)
                            :: more)) top))
          | _ => None
          end
      | _ => None
      end
  | _ => None
  end.

(** [j[k] = v] on the top-level dict [j]. *)
Definition setitem (j : json) (k : string) (v : json) : option json :=
  match j with
  | JObj kvs => Some (JObj (assoc_set k v kvs))
  | _ => None
  end.

End Py.

(** ** The parser object *)

(** The interface of [parser_control.Parser] that [app.py] uses.  The module
    is not among the sources at hand, so the methods are fields here. *)
Record Parser : Type := MkParser {
  schemas : list json;
  modify_xml_messages_to_tool_calls : json -> option json;
  modify_tool_call_to_xml_message : string -> string -> string -> string -> string;
  modify_tool_calls_to_xml_messages : json -> (string -> string) -> option json
}.

(** ** Lines of the event stream *)

(** An upstream line, classified the way lines 148, 164 and 169 of
    [handle_stream_response] classify it.  The decoding of the payload by
    [json.loads] is a library call and is not modelled: a data line carries
    the decoded document. *)
Inductive line : Type :=
| LOther (text : string)      (* does not start with "data: " *)
| LDone (text : string)       (* [text.strip() == "data: [DONE]"] *)
| LData (payload : json)      (* "data: " followed by a JSON document *)
| LUndecodable (text : string). (* "data: " followed by text that
                                   [json.loads] rejects *)

(** The arguments of one call of [parser.modify_tool_call_to_xml_message]. *)
Record call_args : Type := CallArgs {
  ca_name : string;
  ca_arguments : string;
  ca_id : string;
  ca_reasoning : string
}.

(** A yielded item, one constructor per [yield] site.  [Flush] and [Data] are
    both the wire line ["data: " + json.dumps(obj) + "\n\n"]; [Flush] also
    records the arguments the codec was called with. *)
Inductive sse : Type :=
| ErrorBody (text : string)                 (* line 134 *)
| DoneLiteral                               (* line 135 *)
| Flush (call : call_args) (carrier : json) (* line 162, through 166/182/188/196 *)
| Sentinel (text : string)                  (* line 167: [line + "\n\n"] *)
| Data (data : json).                       (* line 199 *)

(** The JSON document on the wire, for the items that carry one. *)
Definition wire_json (o : sse) : option json :=
  match o with
  | Flush _ c => Some c
  | Data d => Some d
  | _ => None
  end.

Definition is_flush (o : sse) : bool :=
  match o with Flush _ _ => true | _ => false end.

(** ** The generator's local state *)

Record state : Type := State {
  heap : list json;            (* the event objects, by address *)
  buffer : string;
  last_chunk : option nat;     (* address of the carrier event, or [None] *)
  role : json;
  choice_index : json;
  tool_call_index : json;
  tool_call_id : string;
  tool_name : string;
  reasoning_content_buffer : string
}.

(** Lines 137-144. *)
Definition initial_state : state :=
  {| heap := []; buffer := ""; last_chunk := None; role := JNull;
     choice_index := JNum 0; tool_call_index := JNum 0;
     tool_call_id := ""; tool_name := ""; reasoning_content_buffer := "" |}.

(** ** The generator monad: state, yielded lines, exceptions *)

Definition gen (A : Type) : Type := state -> list sse * option (A * state).

Definition ret {A : Type} (a : A) : gen A := fun s => ([], Some (a, s)).

Definition bind {A B : Type} (m : gen A) (f : A -> gen B) : gen B :=
  fun s =>
    match m s with
    | (o1, Some (a, s1)) => let '(o2, r) := f a s1 in (o1 ++ o2, r)
    | (o1, None) => (o1, None)
    end.

Definition raise {A : Type} : gen A := fun _ => ([], None).

Definition yield (o : sse) : gen unit := fun s => ([o], Some (tt, s)).

Definition read : gen state := fun s => ([], Some (s, s)).

Definition write (s' : state) : gen unit := fun _ => ([], Some (tt, s')).

Definition lift {A : Type} (o : option A) : gen A :=
  match o with Some a => ret a | None => raise end.

Definition when (b : bool) (m : gen unit) : gen unit :=
  if b then m else ret tt.

Declare Scope gen_scope.
Delimit Scope gen_scope with gen.
Notation "x <- m ;; k" := (bind m (fun x => k))
  (at level 100, m at next level, right associativity) : gen_scope.
Notation "m ;;; k" := (bind m (fun _ => k))
  (at level 100, right associativity) : gen_scope.
Local Open Scope gen_scope.

(** Field updates of the state record. *)
Definition with_heap (h : list json) (s : state) : state :=
  {| heap := h; buffer := buffer s; last_chunk := last_chunk s;
     role := role s; choice_index := choice_index s;
     tool_call_index := tool_call_index s; tool_call_id := tool_call_id s;
     tool_name := tool_name s;
     reasoning_content_buffer := reasoning_content_buffer s |}.

Definition with_reasoning (r : string) (s : state) : state :=
  {| heap := heap s; buffer := buffer s; last_chunk := last_chunk s;
     role := role s; choice_index := choice_index s;
     tool_call_index := tool_call_index s; tool_call_id := tool_call_id s;
     tool_name := tool_name s; reasoning_content_buffer := r |}.

Definition with_choice_role (ci r : json) (s : state) : state :=
  {| heap := heap s; buffer := buffer s; last_chunk := last_chunk s;
     role := r; choice_index := ci;
     tool_call_index := tool_call_index s; tool_call_id := tool_call_id s;
     tool_name := tool_name s;
     reasoning_content_buffer := reasoning_content_buffer s |}.

(** Lines 190-194: the four accumulators and the carrier. *)
Definition with_fragment (name args id : string) (idx : json) (a : nat)
  (s : state) : state :=
  {| heap := heap s; buffer := args; last_chunk := Some a;
     role := role s; choice_index := choice_index s;
     tool_call_index := idx; tool_call_id := id; tool_name := name;
     reasoning_content_buffer := reasoning_content_buffer s |}.

(** Lines 157-161: the carrier is updated in place and the accumulators are
    reset. *)
Definition flushed (a : nat) (carrier : json) (s : state) : state :=
  {| heap := <[a := carrier]> (heap s); buffer := ""; last_chunk := last_chunk s;
     role := role s; choice_index := choice_index s;
     tool_call_index := tool_call_index s; tool_call_id := "";
     tool_name := ""; reasoning_content_buffer := "" |}.

(** What lines 170-175 read from an event: [choice_index_of_delta], [delta],
    [role_in_delta], [tool_calls_in_delta] and the text added to the
    reasoning buffer, [delta.get("reasoning_content") or ""]. *)
Record event_view : Type := View {
  v_choice_index : json;
  v_delta : json;
  v_role : json;
  v_tool_calls : json;
  v_reasoning : json
}.

(** Lines 170-175, the reads.  The defaults of the two [get] calls come from
    the state. *)
Definition read_event (s : state) (payload : json) : option event_view :=
  choices ← Py.get payload "choices" JNull;
  choice ← Py.index0 (Py.or_ choices (JArr [JObj []]));
  choice_index_of_delta ← Py.get choice "index" (choice_index s);
  d ← Py.get choice "delta" JNull;
  let delta := Py.or_ d (JObj []) in
  role_in_delta ← Py.get delta "role" (role s);
  tool_calls_in_delta ← Py.get delta "tool_calls" JNull;
  rc ← Py.get delta "reasoning_content" JNull;
  Some (View choice_index_of_delta delta role_in_delta tool_calls_in_delta
             (Py.or_ rc (JStr ""))).

Section Stream.

(** The two collaborators of the reconstructor: the parser bound to the
    request and the completion-side replacement returned by
    [apply_replacement_to_messages]. *)
Variable parser : Parser.
Variable apply_replacement_to_completion : string -> string.

(** The arguments a flush in state [s] passes to the codec. *)
Definition pending (s : state) : call_args :=
  CallArgs (tool_name s) (buffer s) (tool_call_id s)
           (reasoning_content_buffer s).

Definition render (c : call_args) : string :=
  apply_replacement_to_completion
    (modify_tool_call_to_xml_message parser
       (ca_name c) (ca_arguments c) (ca_id c) (ca_reasoning c)).

(** Lines 151-162, followed by the [yield] of the caller. *)
Definition create_tool_call : gen unit :=
  s <- read ;;
  let modified_data := render (pending s) in
  a <- lift (last_chunk s) ;;
  chunk <- lift (heap s !! a) ;;
  chunk' <- lift (Py.set_content chunk modified_data) ;;
  write (flushed a chunk' s) ;;;
  yield (Flush (pending s) chunk').

(** Lines 186-194, the body of [if role == "assistant"]. *)
Definition assistant_branch (a : nat) (tool_calls_in_delta : json) : gen unit :=
  tool_call <- lift (Py.index0 (Py.or_ tool_calls_in_delta (JArr [JObj []]))) ;;
  idx <- lift (Py.get tool_call "index" JNull) ;;
  s <- read ;;
  when (Py.ne idx (tool_call_index s) && Py.nonempty (buffer s))
       create_tool_call ;;;
  if Py.truthy tool_call then
    fn <- lift (Py.get tool_call "function" JNull) ;;
    name_piece <- lift (Py.get fn "name" (JStr "")) ;;
    s <- read ;;
    name <- lift (Py.str_add (tool_name s) name_piece) ;;
    args_piece <- lift (Py.get fn "arguments" (JStr "")) ;;
    args <- lift (Py.str_add (buffer s) args_piece) ;;
    id_piece <- lift (Py.get tool_call "id" (JStr "")) ;;
    id <- lift (Py.str_add (tool_call_id s) id_piece) ;;
    idx' <- lift (Py.get tool_call "index" (tool_call_index s)) ;;
    write (with_fragment name args id idx' a s)
  else ret tt.

(** Lines 195-196. *)
Definition flush_on_finish_reason (a : nat) : gen unit :=
  s <- read ;;
  data <- lift (heap s !! a) ;;
  fr <- lift (Py.get data "finish_reason" JNull) ;;
  when (Py.truthy fr && Py.nonempty (buffer s)) create_tool_call.

(** Lines 197-199. *)
Definition forward (a : nat) : gen unit :=
  s <- read ;;
  data <- lift (heap s !! a) ;;
  fr <- lift (Py.get data "finish_reason" JNull) ;;
  (if Py.eq fr (JStr "tool_calls") then
     data' <- lift (Py.setitem data "finish_reason" (JStr "stop")) ;;
     write (with_heap (<[a := data']> (heap s)) s)
   else ret tt) ;;;
  s <- read ;;
  data <- lift (heap s !! a) ;;
  yield (Data data).

(** Lines 195-199. *)
Definition finish (a : nat) : gen unit :=
  flush_on_finish_reason a ;;;
  forward a.

(** Lines 176-199, everything after the reasoning text has been added. *)
Definition after_reasoning (a : nat) (v : event_view) : gen unit :=
  s <- read ;;
  when ((Py.ne (v_choice_index v) (choice_index s)
         || negb (Py.truthy (v_delta v))
         || Py.ne (v_role v) (role s)
         || negb (Py.truthy (v_tool_calls v)))
        && Py.nonempty (buffer s))
       create_tool_call ;;;
  s <- read ;;
  write (with_choice_role (v_choice_index v) (v_role v) s) ;;;
  (if Py.eq (v_role v) (JStr "assistant")
   then assistant_branch a (v_tool_calls v)
   else ret tt) ;;;
  finish a.

(** Lines 169-199 for a decoded payload. *)
Definition on_data (payload : json) : gen unit :=
  s <- read ;;
  let a := length (heap s) in
  write (with_heap (heap s ++ [payload]) s) ;;;
  v <- lift (read_event s payload) ;;
  s <- read ;;
  r <- lift (Py.str_add (reasoning_content_buffer s) (v_reasoning v)) ;;
  write (with_reasoning r s) ;;;
  after_reasoning a v.

(** Lines 148-199: the body of the loop for one line, after the
    disconnection poll. *)
Definition on_line (l : line) : gen unit :=
  match l with
  | LOther _ => ret tt
  | LDone text =>
      s <- read ;;
      when (Py.nonempty (buffer s)) create_tool_call ;;;
      yield (Sentinel text)
  | LData payload => on_data payload
  | LUndecodable _ => raise
  end.

(** How the generator ended. *)
Inductive exit : Type :=
| Exhausted      (* the upstream iterator ended, or the error branch returned *)
| Cancelled      (* [is_disconnected()] answered true: line 147 *)
| Crashed.       (* an exception left the generator *)

(** Lines 145-199.  [is_disconnected k] is the answer of the [k]-th poll. *)
Fixpoint stream_loop (is_disconnected : nat -> bool) (k : nat)
  (lines : list line) (s : state) : list sse * exit * state :=
  match lines with
  | [] => ([], Exhausted, s)
  | l :: rest =>
      if is_disconnected k then ([], Cancelled, s)
      else
        match on_line l s with
        | (o, Some (_, s')) =>
            let '(o', e, s'') := stream_loop is_disconnected (S k) rest s' in
            (o ++ o', e, s'')
        | (o, None) => (o, Crashed, s)
        end
  end.

(** The backend's response as the reconstructor reads it. *)
Record response : Type := Response {
  is_error : bool;
  status_code : Z;
  text : string;
  body_json : option json;     (* [r.json()], [None] when it raises *)
  aiter_lines : list line
}.

(** Lines 126-199. *)
Definition handle_stream_response (r : response)
  (is_disconnected : nat -> bool) : list sse * exit :=
  if is_error r then ([ErrorBody (text r); DoneLiteral], Exhausted)
  else
    let '(o, e, _) := stream_loop is_disconnected 0 (aiter_lines r) initial_state in
    (o, e).

End Stream.

(** ** Process configuration ([config.py]) *)

Record RuntimeConfig : Type := MkConfig {
  target_base_url : string;
  message_dump_path : option string;
  tool_dump_path : option string;
  disable_strict_schemas : bool;
  force_tool_calling : bool
}.

(** The payload of [update_config]: the fields it names, with their new
    values. *)
Record ConfigUpdate : Type := MkUpdate {
  new_target_base_url : option string;
  new_message_dump_path : option (option string);
  new_tool_dump_path : option (option string);
  new_disable_strict_schemas : option bool;
  new_force_tool_calling : option bool
}.

(** [current.model_copy(update=data)]: a new object, [current] is left as it
    was. *)
Definition model_copy (current : RuntimeConfig) (data : ConfigUpdate)
  : RuntimeConfig :=
  {| target_base_url := default (target_base_url current) (new_target_base_url data);
     message_dump_path := default (message_dump_path current) (new_message_dump_path data);
     tool_dump_path := default (tool_dump_path current) (new_tool_dump_path data);
     disable_strict_schemas :=
       default (disable_strict_schemas current) (new_disable_strict_schemas data);
     force_tool_calling :=
       default (force_tool_calling current) (new_force_tool_calling data) |}.

Section Config.

(** [RuntimeConfig()]: the defaults taken from the process environment. *)
Variable environment : RuntimeConfig.

(** The module-level variable [_global_config]. *)
Definition global : Type := option RuntimeConfig.

(** Lines 16-20. *)
Definition get_config (g : global) : RuntimeConfig * global :=
  match g with
  | None => (environment, Some environment)
  | Some cfg => (cfg, g)
  end.

(** Lines 23-28. *)
Definition update_config (data : ConfigUpdate) (g : global)
  : RuntimeConfig * global :=
  let '(current, _) := get_config g in
  let merged := model_copy current data in
  (merged, Some merged).

(** The handlers of [POST /api/config] that run one after the other. *)
Definition api_update_configs (payloads : list ConfigUpdate) (g : global)
  : global :=
  fold_left (fun g data => snd (update_config data g)) payloads g.

End Config.

(** ** The collaborators of the request rewrite, from the specification *)

(** Modelled from the spec: the outbound Message Rewriter
    ([Parser.modify_xml_messages_to_tool_calls] of the module
    [parser_control], which is not among the sources).  Section 4.3: a
    message whose text contains embedded tags is split into the backend's
    messages; messages without embedded tags pass through unchanged; the
    order of messages is preserved. *)
Definition to_backend_messages (has_embedded_tags : json -> bool)
  (split : json -> list json) (messages : json) : option json :=
  match messages with
  | JArr ms =>
      Some (JArr (flat_map
                    (fun m => if has_embedded_tags m then split m else [m]) ms))
  | _ => None
  end.

(** Modelled from the spec: the outbound side of the Replacement Pipeline
    ([apply_replacement_to_messages] of the module [regex_replacement], which
    is not among the sources).  Section 4.5: each configured rule's forward
    substitution runs over the text in declaration order, later rules see the
    output of earlier ones; the result comes with the completion-side
    transform.  A rule is given by its forward substitution. *)
Definition apply_outbound (rules : list (string -> string)) (text : string)
  : string :=
  fold_left (fun t rule => rule t) rules text.

Definition replace_in_message (rules : list (string -> string)) (m : json)
  : json :=
  match m with
  | JObj kvs =>
      match Py.assoc "content" kvs with
      | Some (JStr t) =>
          JObj (Py.assoc_set "content" (JStr (apply_outbound rules t)) kvs)
      | _ => m
      end
  | _ => m
  end.

Definition replace_in_messages (rules : list (string -> string))
  (completion_transform : string -> string) (messages : json)
  : option (json * (string -> string)) :=
  match messages with
  | JArr ms => Some (JArr (map (replace_in_message rules) ms), completion_transform)
  | _ => None
  end.

(** ** The request rewrite and the endpoint ([app.py]) *)

Definition newline : string := String (ascii_of_nat 10) "".

(** A file written by one of the two dumps of [process_request]. *)
Record dump : Type := Dump { dump_path : string; dump_content : json }.

(** What [process_request] returns, with the files it wrote. *)
Record processed : Type := Processed {
  pr_request : json;
  pr_parser : Parser;
  pr_completion : string -> string;
  pr_dumps : list dump
}.

Section Request.

Variable environment : RuntimeConfig.

(** [parser_control.build_tool_parser] and
    [regex_replacement.apply_replacement_to_messages]; [None] when they
    raise.  [str] is Python's built-in. *)
Variable build_tool_parser : json -> bool -> option (Parser * string).
Variable apply_replacement_to_messages :
  json -> option (json * (string -> string)).
Variable str : json -> string.

(** The file system, as the dumps see it: whether [open(path, "w")]
    succeeds.  It raises on a path that cannot be written (a missing
    directory, no permission). *)
Variable writable : string -> bool.

(** Lines 94-100: the text parts of a multipart content, joined by
    newlines. *)
Definition text_parts (parts : list json) : list string :=
  flat_map
    (fun t =>
       match t with
       | JObj kvs =>
           match Py.assoc "text" kvs with
           | Some v => [str v]
           | None => []
           end
       | _ => []
       end) parts.

Definition system_prompt_of (content : json) : json :=
  match content with
  | JArr parts => JStr (String.concat newline (text_parts parts))
  | _ => content
  end.

(** [request["messages"][0][k] = v]. *)
Definition set_message0 (request : json) (k : string) (v : json)
  : option json :=
  match request with
  | JObj top =>
      match Py.assoc "messages" top with
      | Some (JArr (JObj m0 :: rest)) =>
          Some (JObj (Py.assoc_set "messages"
                        (JArr (JObj (Py.assoc_set k v m0) :: rest)) top))
      | _ => None
      end
  | _ => None
  end.

(** [a + b] for a list [b]: [TypeError] unless [a] is a list. *)
Definition list_add (a : json) (b : list json) : option json :=
  match a with
  | JArr xs => Some (JArr (xs ++ b))
  | _ => None
  end.

(** [x in ["system", "user"]]. *)
Definition system_or_user (x : json) : bool :=
  Py.eq x (JStr "system") || Py.eq x (JStr "user").

(** Lines 91-109.  The result is the request and the local [parser], which
    stays unbound ([None]) when the branch is not taken. *)
Definition rewrite_first_message (cfg : RuntimeConfig) (request : json)
  : option (json * option Parser) :=
  messages ← Py.getitem request "messages";
  eligible ←
    (if Py.truthy messages then
       m0 ← Py.index0 messages;
       r ← Py.getitem m0 "role";
       Some (system_or_user r)
     else Some false);
  if eligible : bool then
    m0 ← Py.index0 messages;
    content ← Py.getitem m0 "content";
    '(parser, processed_system_prompt) ←
      build_tool_parser (system_prompt_of content)
                        (negb (disable_strict_schemas cfg));
    request ← set_message0 request "role" (JStr "system");
    request ← set_message0 request "content" (JStr processed_system_prompt);
    request ←
      (match schemas parser with
       | [] => Some request
       | _ =>
           tools ← Py.get request "tools" JNull;
           sum ← list_add (Py.or_ tools (JArr [])) (schemas parser);
           Py.setitem request "tools" sum
       end);
    tools ← Py.get request "tools" JNull;
    request ←
      (if force_tool_calling cfg && Py.truthy tools
       then Py.setitem request "tool_choice" (JStr "required")
       else Some request);
    Some (request, Some parser)
  else Some (request, None).

(** [if path:] on an optional string: the file the dump is to write, if
    any. *)
Definition dump_to (path : option string) (content : json) : list dump :=
  match path with
  | Some p => if Py.nonempty p then [Dump p content] else []
  | None => []
  end.

(** The [with open(path, "w")] of lines 117 and 120: the files as written,
    [None] when one of them cannot be opened. *)
Definition written (files : list dump) : option (list dump) :=
  if forallb (fun d => writable (dump_path d)) files then Some files else None.

(** Lines 91-123, for the configuration [cfg] read on line 90. *)
Definition process_request_with (cfg : RuntimeConfig) (request : json)
  : option processed :=
  '(request, bound) ← rewrite_first_message cfg request;
  parser ← bound;                       (* line 111: [parser] may be unbound *)
  messages ← Py.getitem request "messages";
  messages ← modify_xml_messages_to_tool_calls parser messages;
  '(messages, apply_replacement_to_completion) ←
    apply_replacement_to_messages messages;
  request ← Py.setitem request "messages" messages;
  message_dump ← written (dump_to (message_dump_path cfg) messages);
  tools ← Py.get request "tools" JNull;
  tool_dump ←
    written (dump_to (tool_dump_path cfg) (Py.or_ tools (JStr "[]")));
  Some (Processed request parser apply_replacement_to_completion
          (message_dump ++ tool_dump)).

(** Lines 86-123. *)
Definition process_request (g : global) (request : json)
  : option processed * global :=
  let '(cfg, g) := get_config environment g in
  (process_request_with cfg request, g).

(** The POST the gateway sends to the backend. *)
Record backend_call : Type := BackendCall {
  call_url : string;
  call_json : json;
  call_headers : list (string * string)
}.

(** The backend, as a function from the call to its response. *)
Variable backend : backend_call -> response.

Inductive http_response : Type :=
| JSONResponse (status : Z) (content : json)
| StreamingResponse (events : list sse) (how : exit).

(** Lines 208-212. *)
Definition forwarded_headers (headers : list (string * string))
  : list (string * string) :=
  filter (fun kv => negb (String.eqb (fst kv) "host"
                          || String.eqb (fst kv) "content-length")) headers.

(** Lines 204-212: everything [create_completion] does before it issues the
    backend call. *)
Definition prepare_completion (g : global) (headers : list (string * string))
  (request : json) : option (processed * list (string * string)) * global :=
  let '(p, g) := process_request g request in
  (p ← p; Some (p, forwarded_headers headers), g).

(** Lines 213-247: the backend call and the response.  The configuration is
    read again for the URL (lines 220 and 237). *)
Definition complete (g : global) (p : processed)
  (headers : list (string * string)) (is_disconnected : nat -> bool)
  : option (backend_call * http_response) * global :=
  let modified_request := pr_request p in
  let '(cfg, g) := get_config environment g in
  let call := BackendCall (target_base_url cfg +:+ "/chat/completions")
                          modified_request headers in
  let r := backend call in
  (stream ← Py.get modified_request "stream" JNull;
   if Py.truthy stream then
     let '(events, how) :=
       handle_stream_response (pr_parser p) (pr_completion p) r
                              is_disconnected in
     Some (call, StreamingResponse events how)
   else if is_error r then
     content ← body_json r;
     Some (call, JSONResponse (status_code r) content)
   else
     content ← body_json r;
     modified_response ←
       modify_tool_calls_to_xml_messages (pr_parser p) content
                                         (pr_completion p);
     Some (call, JSONResponse (status_code r) modified_response),
   g).

(** Lines 202-247.  The handler is suspended between its two parts; the
    handlers of [POST /api/config] that run meanwhile are [payloads]. *)
Definition create_completion (payloads : list ConfigUpdate) (g : global)
  (headers : list (string * string)) (request : json)
  (is_disconnected : nat -> bool)
  : option (backend_call * http_response) * global :=
  match prepare_completion g headers request with
  | (Some (p, headers), g) =>
      complete (api_update_configs environment payloads g) p headers
               is_disconnected
  | (None, g) => (None, g)
  end.

End Request.

(** ** The legacy completion endpoint ([app.py], lines 270-365) *)

Module Legacy.

(** [j["choices"][0]["text"] = text], as the new value of the object [j]. *)
Definition set_text (j : json) (text : string) : option json :=
  match j with
  | JObj top =>
      match Py.assoc "choices" top with
      | Some (JArr (JObj ch :: more)) =>
          Some (JObj (Py.assoc_set "choices"
                        (JArr (JObj (Py.assoc_set "text" (JStr text) ch)
                               :: more)) top))
      | _ => None
      end
  | _ => None
  end.

(** Line 313, [choice["text"] = ""], on the event object: [choice] is the
    first element of [data["choices"]] when that list is not empty, and a
    fresh dict otherwise, in which case the event is not changed. *)
Definition clear_text (data : json) : json :=
  default data (set_text data "").

(** A yielded item, one constructor per [yield] site.  [Flush] records the
    text that was passed to the replacement. *)
Inductive item : Type :=
| ErrorBody (text : string)                 (* line 277 *)
| DoneLiteral                               (* line 278 *)
| Flush (text : string) (carrier : json)    (* line 294, through 298/306/312 *)
| Sentinel (text : string)                  (* line 299 *)
| Data (data : json).                       (* line 314 *)

(** Lines 280-282. *)
Record state : Type := State {
  heap : list json;
  buffer : string;
  last_chunk : option nat;
  choice_index : json
}.

Definition initial_state : state :=
  {| heap := []; buffer := ""; last_chunk := None; choice_index := JNum 0 |}.

Definition gen (A : Type) : Type := state -> list item * option (A * state).

Definition ret {A : Type} (a : A) : gen A := fun s => ([], Some (a, s)).

Definition bind {A B : Type} (m : gen A) (f : A -> gen B) : gen B :=
  fun s =>
    match m s with
    | (o1, Some (a, s1)) => let '(o2, r) := f a s1 in (o1 ++ o2, r)
    | (o1, None) => (o1, None)
    end.

Definition raise {A : Type} : gen A := fun _ => ([], None).

Definition yield (o : item) : gen unit := fun s => ([o], Some (tt, s)).

Definition read : gen state := fun s => ([], Some (s, s)).

Definition write (s' : state) : gen unit := fun _ => ([], Some (tt, s')).

Definition lift {A : Type} (o : option A) : gen A :=
  match o with Some a => ret a | None => raise end.

Definition when (b : bool) (m : gen unit) : gen unit :=
  if b then m else ret tt.

Declare Scope legacy_scope.
Delimit Scope legacy_scope with legacy.
Notation "x <- m ;; k" := (bind m (fun x => k))
  (at level 100, m at next level, right associativity) : legacy_scope.
Notation "m ;;; k" := (bind m (fun _ => k))
  (at level 100, right associativity) : legacy_scope.
Local Open Scope legacy_scope.

Section Stream.

Variable apply_replacement_to_completion : string -> string.

(** Lines 289-294, followed by the [yield] of the caller. *)
Definition create_tool_call : gen unit :=
  s <- read ;;
  let modified_data := apply_replacement_to_completion (buffer s) in
  a <- lift (last_chunk s) ;;
  chunk <- lift (heap s !! a) ;;
  chunk' <- lift (set_text chunk modified_data) ;;
  write {| heap := <[a := chunk']> (heap s); buffer := "";
           last_chunk := last_chunk s; choice_index := choice_index s |} ;;;
  yield (Flush (buffer s) chunk').

(** Lines 305-314, for the [text] and the [choice_index_of_delta] read on
    lines 302-304 from the event stored at address [a]. *)
Definition after_reads (a : nat) (text choice_index_of_delta : json)
  : gen unit :=
  s <- read ;;
  when ((negb (Py.truthy text)
         || Py.ne choice_index_of_delta (choice_index s))
        && Py.nonempty (buffer s))
       create_tool_call ;;;
  s <- read ;;
  write {| heap := heap s; buffer := buffer s; last_chunk := last_chunk s;
           choice_index := choice_index_of_delta |} ;;;
  (if Py.truthy text then
     s <- read ;;
     b <- lift (Py.str_add (buffer s) text) ;;
     write {| heap := heap s; buffer := b; last_chunk := Some a;
              choice_index := choice_index s |}
   else ret tt) ;;;
  s <- read ;;
  data <- lift (heap s !! a) ;;
  fr <- lift (Py.get data "finish_reason" JNull) ;;
  when (Py.truthy fr && Py.nonempty (buffer s)) create_tool_call ;;;
  s <- read ;;
  data <- lift (heap s !! a) ;;
  write {| heap := <[a := clear_text data]> (heap s); buffer := buffer s;
           last_chunk := last_chunk s; choice_index := choice_index s |} ;;;
  s <- read ;;
  data <- lift (heap s !! a) ;;
  yield (Data data).

(** Lines 301-314 for a decoded payload. *)
Definition on_data (payload : json) : gen unit :=
  s <- read ;;
  let a := length (heap s) in
  write {| heap := heap s ++ [payload]; buffer := buffer s;
           last_chunk := last_chunk s; choice_index := choice_index s |} ;;;
  choices <- lift (Py.get payload "choices" JNull) ;;
  choice <- lift (Py.index0 (Py.or_ choices (JArr [JObj []]))) ;;
  t <- lift (Py.get choice "text" JNull) ;;
  choice_index_of_delta <- lift (Py.get choice "index" (choice_index s)) ;;
  after_reads a (Py.or_ t (JStr "")) choice_index_of_delta.

(** Lines 286-314: the body of the loop for one line, after the
    disconnection poll. *)
Definition on_line (l : line) : gen unit :=
  match l with
  | LOther _ => ret tt
  | LDone text =>
      s <- read ;;
      when (Py.nonempty (buffer s)) create_tool_call ;;;
      yield (Sentinel text)
  | LData payload => on_data payload
  | LUndecodable _ => raise
  end.

(** Lines 283-314. *)
Fixpoint stream_loop (is_disconnected : nat -> bool) (k : nat)
  (lines : list line) (s : state) : list item * exit * state :=
  match lines with
  | [] => ([], Exhausted, s)
  | l :: rest =>
      if is_disconnected k then ([], Cancelled, s)
      else
        match on_line l s with
        | (o, Some (_, s')) =>
            let '(o', e, s'') := stream_loop is_disconnected (S k) rest s' in
            (o ++ o', e, s'')
        | (o, None) => (o, Crashed, s)
        end
  end.

(** Lines 270-314. *)
Definition handle_stream_response_for_legacy_completion (r : response)
  (is_disconnected : nat -> bool) : list item * exit :=
  if is_error r then ([ErrorBody (text r); DoneLiteral], Exhausted)
  else
    let '(o, e, _) :=
      stream_loop is_disconnected 0 (aiter_lines r) initial_state in
    (o, e).

End Stream.

Inductive http_response : Type :=
| JSONResponse (status : Z) (content : json)
| StreamingResponse (events : list item) (how : exit).

(** What the [for] loop of line 362 iterates over: the elements of a list;
    nothing for an empty dict or string; [None] where the iteration or the
    first [choice.get] raises. *)
Definition iterated (v : json) : option (list json) :=
  match v with
  | JArr xs => Some xs
  | JObj [] => Some []
  | JStr "" => Some []
  | _ => None
  end.

Section Endpoint.

Variable environment : RuntimeConfig.

(** [regex_replacement.apply_replacement_to_prompt], [None] when it
    raises. *)
Variable apply_replacement_to_prompt :
  json -> option (json * (string -> string)).
Variable backend : backend_call -> response.

(** Whether [open(path, "w")] succeeds, as in [process_request]. *)
Variable writable : string -> bool.

(** Lines 363-364 for one choice.  The transform works on text: a [text]
    that is not a string is outside the model ([None]). *)
Definition rewrite_choice (apply_replacement_to_completion : string -> string)
  (choice : json) : option json :=
  t ← Py.get choice "text" (JStr "");
  match t with
  | JStr text =>
      Py.setitem choice "text" (JStr (apply_replacement_to_completion text))
  | _ => None
  end.

(** Lines 361-364: the choices are rewritten in place. *)
Definition rewrite_choices (apply_replacement_to_completion : string -> string)
  (response : json) : option json :=
  v ← Py.get response "choices" (JArr []);
  choices ← iterated v;
  choices' ← mapM (rewrite_choice apply_replacement_to_completion) choices;
  match v with
  | JArr _ => Py.setitem response "choices" (JArr choices')
  | _ => Some response
  end.

(** What lines 319-333 produce: the request, the completion transform, the
    forwarded headers and the prompt written to the dump file, if any. *)
Record prepared : Type := Prepared {
  pp_request : json;
  pp_completion : string -> string;
  pp_headers : list (string * string);
  pp_dump : list (string * string)
}.

(** Lines 319-332. *)
Definition prepare_legacy (g : global) (headers : list (string * string))
  (req : json) : option prepared * global :=
  match
    (prompt ← Py.getitem req "prompt";
     '(prompt', f) ← apply_replacement_to_prompt prompt;
     req' ← Py.setitem req "prompt" prompt';
     Some (req', prompt', f))
  with
  | None => (None, g)
  | Some (req', prompt', f) =>
      let '(cfg, g) := get_config environment g in
      (match message_dump_path cfg with
       | Some path =>
           if Py.nonempty path then
             if writable path then
               match prompt' with
               | JStr text =>
                   Some (Prepared req' f (forwarded_headers headers)
                                  [(path, text)])
               | _ => None            (* [f.write] of something not a [str] *)
               end
             else None                (* [open] raises *)
           else Some (Prepared req' f (forwarded_headers headers) [])
       | None => Some (Prepared req' f (forwarded_headers headers) [])
       end, g)
  end.

(** Lines 333-365. *)
Definition complete_legacy (g : global) (p : prepared)
  (is_disconnected : nat -> bool)
  : option (backend_call * http_response) * global :=
  let req := pp_request p in
  let '(cfg, g) := get_config environment g in
  let call := BackendCall (target_base_url cfg +:+ "/completions") req
                          (pp_headers p) in
  let r := backend call in
  (stream ← Py.get req "stream" JNull;
   if Py.truthy stream then
     let '(events, how) :=
       handle_stream_response_for_legacy_completion (pp_completion p) r
                                                    is_disconnected in
     Some (call, StreamingResponse events how)
   else if is_error r then
     content ← body_json r;
     Some (call, JSONResponse (status_code r) content)
   else
     response ← body_json r;
     response' ← rewrite_choices (pp_completion p) response;
     Some (call, JSONResponse (status_code r) response'),
   g).

(** Lines 317-365.  As in [create_completion], the handler is suspended
    between its two parts; the handlers of [POST /api/config] that run
    meanwhile are [payloads]. *)
Definition create_legacy_completion (payloads : list ConfigUpdate)
  (g : global) (headers : list (string * string)) (req : json)
  (is_disconnected : nat -> bool)
  : option (backend_call * http_response) * global :=
  match prepare_legacy g headers req with
  | (Some p, g) =>
      complete_legacy (api_update_configs environment payloads g) p
                      is_disconnected
  | (None, g) => (None, g)
  end.

End Endpoint.

End Legacy.

(** ** Sample collaborators and inputs *)

(** A codec that writes the call as one tag around the arguments, after the
    reasoning text. *)
Definition tagged_text (name args id reasoning : string) : string :=
  reasoning +:+ "<" +:+ name +:+ ">" +:+ args +:+ "</" +:+ name +:+ ">".

(** The parser of a prompt that declares no tools: no schemas, no message
    carries embedded tags. *)
Definition plain_parser : Parser :=
  MkParser [] (to_backend_messages (fun _ => false) (fun m => [m]))
           tagged_text (fun response _ => Some response).

(** [build_tool_parser] on a prompt without tool definitions: the prompt
    comes back unchanged (section 4.1 of the specification). *)
Definition plain_build_tool_parser (prompt : json) (strict : bool)
  : option (Parser * string) :=
  match prompt with
  | JStr p => Some (plain_parser, p)
  | _ => None
  end.

(** The replacement pipeline with an empty rule set. *)
Definition no_rules : json -> option (json * (string -> string)) :=
  replace_in_messages [] (fun t => t).

Definition unchanged (t : string) : string := t.

(** A file system on which every path can be written. *)
Definition any_path (path : string) : bool := true.

(** Python's [str] on the text parts the examples use. *)
Definition str_of_text (j : json) : string :=
  match j with JStr s => s | _ => "" end.

Definition never : nat -> bool := fun _ => false.

Definition ok_stream (lines : list line) : response :=
  Response false 200 "" None lines.

(** One streamed tool-call fragment: [{"choices": [{"index": 0, "delta":
    {"role": "assistant", "tool_calls": [{"index": idx, "id": id,
    "function": {"name": name, "arguments": args}}]}}]}]. *)
Definition fragment_event (idx : Z) (id name args : string) : json :=
  JObj [("choices",
         JArr [JObj [("index", JNum 0);
                     ("delta",
                      JObj [("role", JStr "assistant");
                            ("tool_calls",
                             JArr [JObj [("index", JNum idx);
                                         ("id", JStr id);
                                         ("function",
                                          JObj [("name", JStr name);
                                                ("arguments", JStr args)])]])])]])].

(** The closing event of a chat-completion stream:
    [{"choices": [{"index": 0, "delta": {}, "finish_reason": reason}]}]. *)
Definition closing_event (reason : string) : json :=
  JObj [("choices",
         JArr [JObj [("index", JNum 0);
                     ("delta", JObj []);
                     ("finish_reason", JStr reason)]])].

(** A later fragment of the same call: only a piece of the arguments,
    [{"choices": [{"index": 0, "delta": {"tool_calls": [{"index": idx,
    "function": {"arguments": args}}]}}]}]. *)
Definition continuation_event (idx : Z) (args : string) : json :=
  JObj [("choices",
         JArr [JObj [("index", JNum 0);
                     ("delta",
                      JObj [("tool_calls",
                             JArr [JObj [("index", JNum idx);
                                         ("function",
                                          JObj [("arguments", JStr args)])]])])]])].

(** A fragment whose delta also carries reasoning text. *)
Definition reasoned_fragment : json :=
  JObj [("choices",
         JArr [JObj [("index", JNum 0);
                     ("delta",
                      JObj [("role", JStr "assistant");
                            ("reasoning_content", JStr "look at the file");
                            ("tool_calls",
                             JArr [JObj [("index", JNum 0);
                                         ("id", JStr "call_1");
                                         ("function",
                                          JObj [("name", JStr "read_file");
                                                ("arguments", JStr "{}")])]])])]])].

(** A fragment in an event that has a finish reason at the top level. *)
Definition finished_fragment_event (idx : Z) (id name args reason : string)
  : json :=
  match fragment_event idx id name args with
  | JObj kvs => JObj (kvs ++ [("finish_reason", JStr reason)])
  | j => j
  end.

Definition done_line : line := LDone "data: [DONE]".

(** A tool call followed by the closing event and the sentinel. *)
Definition leaking_lines : list line :=
  [LData reasoned_fragment; LData (closing_event "tool_calls"); done_line].

(** A call without arguments text, then the closing event. *)
Definition no_arguments_lines : list line :=
  [LData (fragment_event 0 "call_1" "list_files" "");
   LData (closing_event "tool_calls")].


(** A call in two fragments, the closing event and the sentinel. *)
Definition two_fragment_events : list json :=
  [fragment_event 0 "call_1" "read_file" "{"; continuation_event 0 "}"].

Definition two_fragment_lines : list line :=
  map LData two_fragment_events
  ++ [LData (closing_event "tool_calls"); done_line].

(** The state after one line, from the initial state. *)
Definition state_after (l : line) : state :=
  match on_line plain_parser unchanged l initial_state with
  | (_, Some (_, s)) => s
  | _ => initial_state
  end.

(** The first message of the request exists and its role is "system" or
    "user". *)
Definition first_message_eligible (request : json) : Prop :=
  exists m0 rest r,
    Py.getitem request "messages" = Some (JArr (JObj m0 :: rest))
    /\ Py.assoc "role" m0 = Some (JStr r)
    /\ (r = "system" \/ r = "user").

(** The first message after lines 104-105. *)
Definition rewritten_first (m0 : list (string * json)) (prompt : string)
  : json :=
  JObj (Py.assoc_set "content" (JStr prompt)
          (Py.assoc_set "role" (JStr "system") m0)).

(** The optional tool list of the request is a list (or empty, or absent). *)
Definition tool_list_ok (top : list (string * json)) : Prop :=
  match Py.assoc "tools" top with
  | Some t => Py.truthy t = false \/ exists xs, t = JArr xs
  | None => True
  end.

(** The dump to [path] raises nothing: the path is unset or empty, or the
    file can be written. *)
Definition can_dump (writable : string -> bool) (path : option string)
  : bool :=
  match path with
  | Some p => negb (Py.nonempty p) || writable p
  | None => true
  end.

(** ** Sample requests and backends *)

Definition sample_config : RuntimeConfig :=
  MkConfig "http://backend/v1" None None false false.

(** [{"messages": [{"role": "user", "content": "hello"}]}]. *)
Definition hello_request : json :=
  JObj [("messages",
         JArr [JObj [("role", JStr "user"); ("content", JStr "hello")]])].

(** The same request as [process_request] rewrites it when the prompt
    declares no tools and no replacement rule is configured. *)
Definition hello_rewritten : json :=
  JObj [("messages",
         JArr [JObj [("role", JStr "system"); ("content", JStr "hello")]])].

(** A conversation of two messages. *)
Definition conversation : json :=
  JObj [("messages",
         JArr [JObj [("role", JStr "user"); ("content", JStr "hello")];
               JObj [("role", JStr "assistant"); ("content", JStr "hi")]])].

Definition conversation_rewritten : json :=
  JObj [("messages",
         JArr [JObj [("role", JStr "system"); ("content", JStr "hello")];
               JObj [("role", JStr "assistant"); ("content", JStr "hi")]])].

(** A request whose first message comes from the assistant, and one without
    messages. *)
Definition assistant_first_request : json :=
  JObj [("messages",
         JArr [JObj [("role", JStr "assistant"); ("content", JStr "hi")]])].

Definition empty_request : json := JObj [("messages", JArr [])].

(** A proxy in front of the backend answers 502 with a body that is not
    JSON. *)
Definition bad_gateway (call : backend_call) : response :=
  Response true 502 "Bad Gateway" None [].

(** The backend answers 429 with a JSON error document. *)
Definition rate_limit_error : json :=
  JObj [("error", JObj [("message", JStr "rate limit reached")])].

Definition rate_limited (call : backend_call) : response :=
  Response true 429 "rate limit reached" (Some rate_limit_error) [].

(** A backend that answers 200 with the URL it was called at. *)
Definition echo_backend (call : backend_call) : response :=
  Response false 200 "" (Some (JObj [("url", JStr (call_url call))])) [].

(** The payload of [POST /api/config] that moves the backend. *)
Definition move_backend : ConfigUpdate :=
  MkUpdate (Some "http://other/v1") None None None None.

(** ** Reading fields of a forwarded event *)

(** [j["choices"][0]["delta"][k]], [None] where Python raises. *)
Definition delta_field (j : json) (k : string) : option json :=
  choices ← Py.getitem j "choices";
  choice ← Py.index0 choices;
  delta ← Py.getitem choice "delta";
  Py.getitem delta k.

(** [j["choices"][0]["finish_reason"]]. *)
Definition choice_finish_reason (j : json) : option json :=
  choices ← Py.getitem j "choices";
  choice ← Py.index0 choices;
  Py.getitem choice "finish_reason".

(** The delta field [k] of [d] is absent or empty. *)
Definition cleared (d : json) (k : string) : Prop :=
  match delta_field d k with
  | Some v => Py.truthy v = false
  | None => True
  end.

(** The response [r] cut after the lines [pre]. *)
Definition truncated (r : response) (pre : list line) : response :=
  Response (is_error r) (status_code r) (text r) (body_json r) pre.

(** ** Events that build one tool call *)

(** What one streamed fragment contributes. *)
Record piece : Type := Piece {
  p_role : bool;              (* the delta names the role "assistant" *)
  p_name : string;
  p_arguments : string;
  p_id : string;
  p_reasoning : string
}.

(** [x.get(k, "")] when it is a [str]. *)
Definition optional_text (x : json) (k : string) : option string :=
  v ← Py.get x k (JStr "");
  match v with JStr t => Some t | _ => None end.

(** The delta names the role "assistant", or no role at all. *)
Definition optional_role (delta : json) : option bool :=
  match Py.getitem delta "role" with
  | None => Some false
  | Some (JStr r) => if String.eqb r "assistant" then Some true else None
  | Some _ => None
  end.

(** [rc or ""] when it is a [str]. *)
Definition reasoning_text (rc : json) : option string :=
  match Py.or_ rc (JStr "") with JStr t => Some t | _ => None end.

(** [j] is an event of choice [c] that carries a fragment of the tool call
    with call index [k], and no top-level finish reason: its pieces. *)
Definition tool_call_piece (c k : Z) (j : json) : option piece :=
  choices ← Py.getitem j "choices";
  match choices with
  | JArr (choice :: _) =>
      ci ← Py.getitem choice "index";
      delta ← Py.getitem choice "delta";
      role ← optional_role delta;
      tcs ← Py.getitem delta "tool_calls";
      match tcs with
      | JArr (tool_call :: _) =>
          idx ← Py.getitem tool_call "index";
          fn ← Py.getitem tool_call "function";
          name ← optional_text fn "name";
          args ← optional_text fn "arguments";
          id ← optional_text tool_call "id";
          rc ← Py.get delta "reasoning_content" JNull;
          rd ← reasoning_text rc;
          fr ← Py.get j "finish_reason" JNull;
          match ci, idx with
          | JNum c', JNum k' =>
              if (c' =? c)%Z && (k' =? k)%Z && negb (Py.truthy fr)
              then Some (Piece role name args id rd)
              else None
          | _, _ => None
          end
      | _ => None
      end
  | _ => None
  end.

(** [j] is an event without a tool-call fragment, such as the one that
    carries the finish reason: the reasoning text of its delta. *)
Definition closing_piece (j : json) : option string :=
  choices ← Py.getitem j "choices";
  match choices with
  | JArr (JObj choice :: _) =>
      let d := default JNull (Py.assoc "delta" choice) in
      match Py.or_ d (JObj []) with
      | JObj delta =>
          let tcs := default JNull (Py.assoc "tool_calls" delta) in
          let rc := default JNull (Py.assoc "reasoning_content" delta) in
          rd ← reasoning_text rc;
          if Py.truthy tcs then None else Some rd
      | _ => None
      end
  | _ => None
  end.

(** The event as line 199 forwards it: a top-level finish reason
    "tool_calls" has become "stop". *)
Definition forwarded (j : json) : json :=
  match j with
  | JObj kvs =>
      match Py.assoc "finish_reason" kvs with
      | Some fr =>
          if Py.eq fr (JStr "tool_calls")
          then JObj (Py.assoc_set "finish_reason" (JStr "stop") kvs)
          else j
      | None => j
      end
  | _ => j
  end.

(** The concatenation of the pieces, in order. *)
Definition joined (l : list string) : string := fold_right String.append "" l.

(** The state after the fragment [p] of the event [j] has been added
    (lines 175, 183-184 and 190-194). *)
Definition absorb (c k : Z) (s : state) (jp : json * piece) : state :=
  {| heap := heap s ++ [fst jp];
     buffer := buffer s +:+ p_arguments (snd jp);
     last_chunk := Some (length (heap s));
     role := JStr "assistant";
     choice_index := JNum c;
     tool_call_index := JNum k;
     tool_call_id := tool_call_id s +:+ p_id (snd jp);
     tool_name := tool_name s +:+ p_name (snd jp);
     reasoning_content_buffer :=
       reasoning_content_buffer s +:+ p_reasoning (snd jp) |}.

(** The state [s] can take the fragment [p] without a flush. *)
Definition takes (c k : Z) (s : state) (p : piece) : Prop :=
  (p_role p = true \/ role s = JStr "assistant")
  /\ (buffer s = ""
      \/ (choice_index s = JNum c /\ role s = JStr "assistant"
          /\ tool_call_index s = JNum k)).

(** The shape on which the update of [create_tool_call] succeeds: a dict
    whose ["choices"] is a list that starts with a dict whose ["delta"] is a
    dict. *)
Definition carrier_shaped (d : json) : Prop :=
  exists top ch more dl,
    d = JObj top
    /\ Py.assoc "choices" top = Some (JArr (JObj ch :: more))
    /\ Py.assoc "delta" ch = Some (JObj dl).

(** When a fragment is open (the buffer is not empty), the role is
    "assistant" and [last_chunk] refers to an event that can carry the
    flush. *)
Definition open_ok (s : state) : Prop :=
  buffer s <> "" ->
  role s = JStr "assistant"
  /\ exists b chunk, last_chunk s = Some b /\ heap s !! b = Some chunk
                     /\ carrier_shaped chunk.

(** The states the loop of [handle_stream_response] passes through. *)
Inductive reachable (parser : Parser)
  (apply_replacement_to_completion : string -> string) : state -> Prop :=
| reachable_initial :
    reachable parser apply_replacement_to_completion initial_state
| reachable_next s l o s' :
    reachable parser apply_replacement_to_completion s ->
    on_line parser apply_replacement_to_completion l s = (o, Some (tt, s')) ->
    reachable parser apply_replacement_to_completion s'.

(** A generator result with one more item in front. *)
Definition prepend {A : Type} (o : sse) (x : list sse * option (A * state))
  : list sse * option (A * state) :=
  (o :: fst x, snd x).

(** Line 187, the test on the call index, for the fields [v] of an event. *)
Definition call_index_changed (s : state) (v : event_view) : bool :=
  match Py.index0 (Py.or_ (v_tool_calls v) (JArr [JObj []])) with
  | Some tool_call =>
      match Py.get tool_call "index" JNull with
      | Some idx => Py.ne idx (tool_call_index s)
      | None => false
      end
  | None => false
  end.

(** The event signals a different choice index, an empty delta, a changed
    role, no tool-call fragment, or a tool-call fragment with another call
    index. *)
Definition flush_trigger (s : state) (v : event_view) : bool :=
  Py.ne (v_choice_index v) (choice_index s)
  || negb (Py.truthy (v_delta v))
  || Py.ne (v_role v) (role s)
  || negb (Py.truthy (v_tool_calls v))
  || call_index_changed s v.

(** ** Invariants of the reconstructor *)

(** ** What a forwarded event keeps of the upstream event *)

(** [d] is the upstream event [j] up to the [content] of its delta: every
    other field of the delta and the finish reason of the choice are the
    same. *)
Definition keeps_choice (j d : json) : Prop :=
  (forall k, k <> "content" -> delta_field d k = delta_field j k)
  /\ choice_finish_reason d = choice_finish_reason j.

(** While the event [j], stored at address [a], is processed: the object at
    [a] can carry a flush if [j] could, and the open fragment has its
    carrier. *)
Definition keeps_carrier (j : json) (a : nat) (s : state) : Prop :=
  (exists d, heap s !! a = Some d /\ (carrier_shaped j -> carrier_shaped d))
  /\ open_ok s.

(** No condition on the yielded items. *)
Definition anything (o : sse) : Prop := True.

(** ** Reading the output of a stream *)

(** The events forwarded on line 199, in order. *)
Definition data_of (o : list sse) : list json :=
  flat_map (fun x => match x with Data d => [d] | _ => [] end) o.

(** The payloads of the data lines, in order. *)
Definition payloads (lines : list line) : list json :=
  flat_map (fun l => match l with LData j => [j] | _ => [] end) lines.

(** The line does not start with "data: ". *)
Definition is_other (l : line) : bool :=
  match l with LOther _ => true | _ => false end.

(** The item is a flush of a non-empty buffer whose carrier has the text of
    the codec, after the replacement, as the content of its delta. *)
Definition rendered (parser : Parser)
  (apply_replacement_to_completion : string -> string) (o : sse) : Prop :=
  match o with
  | Flush c carrier =>
      ca_arguments c <> ""
      /\ delta_field carrier "content"
         = Some (JStr (render parser apply_replacement_to_completion c))
  | _ => False
  end.

(** The same, for the flushes among all items. *)
Definition flushes_rendered (parser : Parser)
  (apply_replacement_to_completion : string -> string) (o : sse) : Prop :=
  match o with
  | Flush _ _ => rendered parser apply_replacement_to_completion o
  | _ => True
  end.

(** [d] is the event [j] as the flushes can leave it: [j] itself, or [j]
    with the content of its first choice's delta replaced (line 157, when
    the event was the carrier of a flush). *)
Definition content_replaced (j d : json) : Prop :=
  d = j \/ exists text, Py.set_content j text = Some d.

(** The forwarded event [d] is exactly the upstream event [j] after, at
    most, two writes: the content of its first choice's delta (line 157)
    and the top-level finish reason "tool_calls", which becomes "stop"
    (line 198).  Every other part of the event is as it arrived. *)
Definition forwards (j d : json) : Prop :=
  exists j', content_replaced j j' /\ d = forwarded j'.

(** While the event [j], stored at address [a], is processed: the object at
    [a] is [j], up to the content a flush has written. *)
Definition exact_cell (j : json) (a : nat) (s : state) : Prop :=
  exists d, heap s !! a = Some d /\ content_replaced j d.

(** What the lines 169-199 give for one event: flushes followed by the one
    forwarded event, which satisfies [P]; or, when they raise, flushes
    only. *)
Definition event_outcome (parser : Parser)
  (apply_replacement_to_completion : string -> string) (P : json -> Prop)
  (x : list sse * option (unit * state)) : Prop :=
  match snd x with
  | Some _ =>
      exists fl d,
        fst x = fl ++ [Data d]
        /\ Forall (rendered parser apply_replacement_to_completion) fl
        /\ P d
  | None => Forall (rendered parser apply_replacement_to_completion) (fst x)
  end.

(** ** Reading the output of the legacy stream *)

(** [j["choices"][0]["text"]], [None] where Python raises. *)
Definition text_field (j : json) : option json :=
  choices ← Py.getitem j "choices";
  choice ← Py.index0 choices;
  Py.getitem choice "text".

(** The text that lines 302-303 read from an event and line 309 adds to the
    buffer: [choice.get("text") or ""] when it is a [str]. *)
Definition legacy_text (payload : json) : string :=
  match
    (choices ← Py.get payload "choices" JNull;
     choice ← Py.index0 (Py.or_ choices (JArr [JObj []]));
     t ← Py.get choice "text" JNull;
     Some (Py.or_ t (JStr "")))
  with
  | Some (JStr t) => t
  | _ => ""
  end.

(** The events on which lines 302-314 raise nothing: a dict whose
    ["choices"] is absent, empty, or a list that starts with a dict whose
    ["text"] is absent, empty or a [str]. *)
Definition legacy_event (j : json) : bool :=
  match j with
  | JObj top =>
      match Py.assoc "choices" top with
      | None => true
      | Some v =>
          if Py.truthy v then
            match v with
            | JArr (JObj ch :: _) =>
                match Py.assoc "text" ch with
                | None => true
                | Some t =>
                    negb (Py.truthy t)
                    || match t with JStr _ => true | _ => false end
                end
            | _ => false
            end
          else true
      end
  | _ => false
  end.

(** The lines on which the legacy loop raises nothing. *)
Definition legacy_line (l : line) : bool :=
  match l with
  | LData j => legacy_event j
  | LUndecodable _ => false
  | _ => true
  end.

(** The texts passed to the replacement by the flushes, in order. *)
Definition legacy_flushed (o : list Legacy.item) : list string :=
  flat_map (fun x => match x with Legacy.Flush t _ => [t] | _ => [] end) o.

(** The events forwarded on line 314, in order. *)
Definition legacy_data_of (o : list Legacy.item) : list json :=
  flat_map (fun x => match x with Legacy.Data d => [d] | _ => [] end) o.

(** The item is a flush of a non-empty buffer whose carrier has the replaced
    text as the text of its first choice. *)
Definition legacy_rendered (apply_replacement_to_completion : string -> string)
  (o : Legacy.item) : Prop :=
  match o with
  | Legacy.Flush t carrier =>
      t <> ""
      /\ text_field carrier
         = Some (JStr (apply_replacement_to_completion t))
  | _ => False
  end.

(** The shape on which line 292 succeeds: a dict whose ["choices"] is a list
    that starts with a dict. *)
Definition text_shaped (d : json) : Prop :=
  exists top ch more,
    d = JObj top /\ Py.assoc "choices" top = Some (JArr (JObj ch :: more)).

(** When the buffer is not empty, [last_chunk] refers to an event that can
    carry the flush. *)
Definition legacy_open_ok (s : Legacy.state) : Prop :=
  Legacy.buffer s <> "" ->
  exists b chunk, Legacy.last_chunk s = Some b
                  /\ Legacy.heap s !! b = Some chunk /\ text_shaped chunk.

(** While the event [j], stored at address [a], is processed: the object at
    [a] is [j] up to the text of its first choice. *)
Definition legacy_cell (j : json) (a : nat) (s : Legacy.state) : Prop :=
  exists d, Legacy.heap s !! a = Some d
            /\ Legacy.clear_text d = Legacy.clear_text j
            /\ Py.get d "finish_reason" JNull = Py.get j "finish_reason" JNull
            /\ (text_shaped j -> text_shaped d).

(** What a run of a part of the legacy generator gives: the items yielded
    and the result, or [None] for an exception. *)
Definition legacy_run {A : Type} (m : Legacy.gen A) (s : Legacy.state)
  (Q : list Legacy.item -> option (A * Legacy.state) -> Prop) : Prop :=
  Q (fst (m s)) (snd (m s)).

(** The text of the event, as lines 308-309 add it to the buffer. *)
Definition added_text (text : json) : string :=
  match text with JStr t => t | _ => "" end.

(** Line 309 raises on a text that is neither empty nor a [str]. *)
Definition raises_on (text : json) : bool :=
  Py.truthy text && negb (match text with JStr _ => true | _ => false end).

(** What lines 305-314 give for the event [j] from the state [s0]: flushes,
    then the event with the text of its first choice emptied; the text
    flushed and the text left in the buffer are the buffer of [s0] followed
    by the text of the event. *)
Definition legacy_step (apply_replacement_to_completion : string -> string)
  (j : json) (text : json) (s0 : Legacy.state) (o : list Legacy.item)
  (r : option (unit * Legacy.state)) : Prop :=
  match r with
  | Some (_, s') =>
      (exists fl,
         o = fl ++ [Legacy.Data (Legacy.clear_text j)]
         /\ Forall (legacy_rendered apply_replacement_to_completion) fl
         /\ joined (legacy_flushed fl) +:+ Legacy.buffer s'
            = Legacy.buffer s0 +:+ added_text text
         /\ legacy_open_ok s')
      /\ raises_on text = false
  | None =>
      Forall (legacy_rendered apply_replacement_to_completion) o
      /\ raises_on text = true
  end.

(** The same, for the flushes among all items. *)
Definition legacy_flushes_rendered
  (apply_replacement_to_completion : string -> string) (o : Legacy.item)
  : Prop :=
  match o with
  | Legacy.Flush _ _ => legacy_rendered apply_replacement_to_completion o
  | _ => True
  end.

(** What the body of the legacy loop gives for the lines [lines] from the
    state [s0]. *)
Definition legacy_lines_step
  (apply_replacement_to_completion : string -> string)
  (lines : list line) (s0 : Legacy.state) (o : list Legacy.item)
  (r : option Legacy.state) : Prop :=
  Forall (legacy_flushes_rendered apply_replacement_to_completion) o
  /\ match r with
     | Some s' =>
         legacy_data_of o = map Legacy.clear_text (payloads lines)
         /\ joined (legacy_flushed o) +:+ Legacy.buffer s'
            = Legacy.buffer s0 +:+ joined (map legacy_text (payloads lines))
         /\ legacy_open_ok s'
         /\ forallb legacy_line lines = true
     | None => forallb legacy_line lines = false
     end.
(** ** Reading the rewritten request *)

(** The key is one of those [process_request] assigns in the request. *)
Definition assigned_key (k : string) : bool :=
  String.eqb k "messages" || String.eqb k "tools"
  || String.eqb k "tool_choice".

(** Two payloads of [update_config] as one: a field named by the later
    payload has the later value. *)
Definition overlay (first second : ConfigUpdate) : ConfigUpdate :=
  {| new_target_base_url :=
       match new_target_base_url second with
       | Some v => Some v | None => new_target_base_url first end;
     new_message_dump_path :=
       match new_message_dump_path second with
       | Some v => Some v | None => new_message_dump_path first end;
     new_tool_dump_path :=
       match new_tool_dump_path second with
       | Some v => Some v | None => new_tool_dump_path first end;
     new_disable_strict_schemas :=
       match new_disable_strict_schemas second with
       | Some v => Some v | None => new_disable_strict_schemas first end;
     new_force_tool_calling :=
       match new_force_tool_calling second with
       | Some v => Some v | None => new_force_tool_calling first end |}.

(** The choice [c'] is the choice [c] with its text, or the empty string
    when it has none, passed through the replacement. *)
Definition choice_rewritten (apply_replacement_to_completion : string -> string)
  (c c' : json) : Prop :=
  exists t, Py.get c "text" (JStr "") = Some (JStr t)
            /\ Py.setitem c "text" (JStr (apply_replacement_to_completion t))
               = Some c'.

(** The choice is a dict that has a text, which is a [str]. *)
Definition has_text (c : json) : Prop :=
  exists t, Py.getitem c "text" = Some (JStr t).
(** ** More samples *)

(** A tool-call fragment that names the call and has no [function]:
    [{"choices": [{"index": 0, "delta": {"role": "assistant",
    "tool_calls": [{"index": 0, "id": "call_1"}]}}]}]. *)
Definition bare_fragment : json :=
  JObj [("choices",
         JArr [JObj [("index", JNum 0);
                     ("delta",
                      JObj [("role", JStr "assistant");
                            ("tool_calls",
                             JArr [JObj [("index", JNum 0);
                                         ("id", JStr "call_1")]])])]])].

(** An event of a chat stream that carries text:
    [{"choices": [{"index": 0, "delta": {"content": t}}]}]. *)
Definition content_event (t : string) : json :=
  JObj [("choices",
         JArr [JObj [("index", JNum 0);
                     ("delta", JObj [("content", JStr t)])]])].

Definition content_events : list json :=
  [content_event "Hel"; content_event "lo"; closing_event "stop"].

(** A stream with a comment line and a blank line among its events. *)
Definition commented_lines : list line :=
  [LOther ": keep-alive"; LData (content_event "Hel"); LOther "";
   LData (content_event "lo"); done_line].

(** An event of a legacy completion stream:
    [{"choices": [{"index": 0, "text": t}]}]. *)
Definition text_event (t : string) : json :=
  JObj [("choices", JArr [JObj [("index", JNum 0); ("text", JStr t)]])].

Definition text_events : list json := [text_event "Hel"; text_event "lo"].

Definition text_lines : list line := map LData text_events ++ [done_line].

(** A completion-side replacement that changes the text. *)
Definition exclaim (t : string) : string := t +:+ "!".

(** A parser with one schema, for a prompt that declares one tool. *)
Definition listing_schema : json :=
  JObj [("type", JStr "function");
        ("function", JObj [("name", JStr "list_files")])].

Definition listing_parser : Parser :=
  MkParser [listing_schema]
           (to_backend_messages (fun _ => false) (fun m => [m]))
           tagged_text (fun response _ => Some response).

Definition listing_build_tool_parser (prompt : json) (strict : bool)
  : option (Parser * string) :=
  match prompt with
  | JStr p => Some (listing_parser, p)
  | _ => None
  end.

(** A request whose first message comes from the user and has no
    content: [{"messages": [{"role": "user"}]}]. *)
Definition contentless_request : json :=
  JObj [("messages", JArr [JObj [("role", JStr "user")]])].

(** A file system on which nothing can be written. *)
Definition read_only (path : string) : bool := false.


(** A configuration that forces tool calls and dumps what it sends. *)
Definition forcing_config : RuntimeConfig :=
  MkConfig "http://backend/v1" (Some "messages.json") (Some "tools.json")
           false true.

(** [{"model": "m", "messages": [{"role": "user", "content": "hello"}],
    "tool_choice": "auto"}]. *)
Definition model_request : json :=
  JObj [("model", JStr "m");
        ("messages",
         JArr [JObj [("role", JStr "user"); ("content", JStr "hello")]]);
        ("tool_choice", JStr "auto")].

(** What [process_request] returns for this request when the prompt declares
    one tool and no replacement rule is configured. *)
Definition model_processed : processed :=
  default (Processed JNull listing_parser unchanged [])
    (process_request_with listing_build_tool_parser no_rules str_of_text
                          any_path forcing_config model_request).

(** The headers of a client request, as [dict(request.headers)]. *)
Definition client_headers : list (string * string) :=
  [("host", "localhost:8000"); ("authorization", "Bearer k");
   ("content-length", "42"); ("accept", "*/*")].

(** A legacy request, the prompt replacement with an empty rule set, and a
    backend that answers with one completion. *)
Definition legacy_request : json :=
  JObj [("model", JStr "m"); ("prompt", JStr "say hi")].

Definition keep_prompt (prompt : json)
  : option (json * (string -> string)) :=
  Some (prompt, unchanged).

Definition completion_document : json :=
  JObj [("id", JStr "cmpl-1");
        ("choices", JArr [JObj [("index", JNum 0); ("text", JStr "hi")]])].

Definition completion_backend (call : backend_call) : response :=
  Response false 200 "" (Some completion_document) [].

(** The payload of [POST /api/config] that switches forced tool calls on. *)
Definition force_tools : ConfigUpdate :=
  MkUpdate None None None None (Some true).

(** ** Reasoning about generators *)

(** [sat m s O Q]: run from [s], the generator [m] yields only items that
    satisfy [O], and if it returns, its result and final state satisfy
    [Q]. *)
Definition sat {A : Type} (m : gen A) (s : state) (O : sse -> Prop)
  (Q : A -> state -> Prop) : Prop :=
  Forall O (fst (m s)) /\ forall a s', snd (m s) = Some (a, s') -> Q a s'.

Section SatRules.

Context {A B : Type}.
Implicit Types (O : sse -> Prop) (s : state).

Lemma sat_bind (m : gen A) (f : A -> gen B) s O (Q : A -> state -> Prop)
  (R : B -> state -> Prop) :
  sat m s O Q ->
  (forall a s1, Q a s1 -> sat (f a) s1 O R) ->
  sat (bind m f) s O R.
Proof.
  intros [Hout Hres] Hf. unfold sat, bind in *.
  destruct (m s) as [o1 [[a s1]|]]; simpl in *.
  - destruct (Hf a s1 (Hres a s1 eq_refl)) as [Hout2 Hres2].
    destruct (f a s1) as [o2 r]; simpl in *. split.
    + apply Forall_app; auto.
    + exact Hres2.
  - split; [assumption | discriminate].
Qed.

Lemma sat_ret (a : A) s O (Q : A -> state -> Prop) :
  Q a s -> sat (ret a) s O Q.
Proof. intros H; split; simpl; [constructor | intros ? ? [= <- <-]; exact H]. Qed.

Lemma sat_raise s O (Q : A -> state -> Prop) : sat raise s O Q.
Proof. split; simpl; [constructor | discriminate]. Qed.

Lemma sat_lift (o : option A) s O (Q : A -> state -> Prop) :
  (forall a, o = Some a -> Q a s) -> sat (lift o) s O Q.
Proof.
  intros H. destruct o as [a|]; [apply sat_ret; auto | apply sat_raise].
Qed.

Lemma sat_weaken (m : gen A) s O (Q Q' : A -> state -> Prop) :
  sat m s O Q -> (forall a s', Q a s' -> Q' a s') -> sat m s O Q'.
Proof. intros [H1 H2] H; split; auto. Qed.

End SatRules.

Lemma sat_read s O (Q : state -> state -> Prop) : Q s s -> sat read s O Q.
Proof. intros H; split; simpl; [constructor | intros ? ? [= <- <-]; exact H]. Qed.

Lemma sat_write s' s O (Q : unit -> state -> Prop) :
  Q tt s' -> sat (write s') s O Q.
Proof. intros H; split; simpl; [constructor | intros ? ? [= <- <-]; exact H]. Qed.

Lemma sat_yield o s (O : sse -> Prop) (Q : unit -> state -> Prop) :
  O o -> Q tt s -> sat (yield o) s O Q.
Proof.
  intros HO H; split; simpl; [repeat constructor; exact HO
                             | intros ? ? [= <- <-]; exact H].
Qed.

Lemma sat_when (b : bool) (m : gen unit) s O (Q : unit -> state -> Prop) :
  (b = true -> sat m s O Q) -> (b = false -> Q tt s) -> sat (when b m) s O Q.
Proof. destruct b; simpl; intros H1 H2; [auto | apply sat_ret; auto]. Qed.

Lemma sat_bind_read {B : Type} (f : state -> gen B) s O
  (R : B -> state -> Prop) :
  sat (f s) s O R -> sat (bind read f) s O R.
Proof.
  intros H. eapply sat_bind with (Q := fun a s1 => a = s /\ s1 = s).
  - by apply sat_read.
  - by intros ? ? [-> ->].
Qed.

Lemma sat_bind_write {B : Type} s' (f : unit -> gen B) s O
  (R : B -> state -> Prop) :
  sat (f tt) s' O R -> sat (bind (write s') f) s O R.
Proof.
  intros H. eapply sat_bind with (Q := fun _ s1 => s1 = s').
  - by apply sat_write.
  - by intros [] ? ->.
Qed.

Lemma sat_bind_ret {A B : Type} (a : A) (f : A -> gen B) s O
  (R : B -> state -> Prop) :
  sat (f a) s O R -> sat (bind (ret a) f) s O R.
Proof.
  intros H. eapply sat_bind with (Q := fun a' s1 => a' = a /\ s1 = s).
  - by apply sat_ret.
  - by intros ? ? [-> ->].
Qed.

Lemma sat_bind_lift {A B : Type} (o : option A) (f : A -> gen B) s O
  (R : B -> state -> Prop) :
  (forall a, o = Some a -> sat (f a) s O R) -> sat (bind (lift o) f) s O R.
Proof.
  intros H. eapply sat_bind with (Q := fun a s1 => o = Some a /\ s1 = s).
  - by apply sat_lift.
  - intros ? ? [Ho ->]. by apply H.
Qed.

(** The equations of [bind], for running a generator by rewriting. *)
Lemma pair_eta {A B : Type} (x : A * B) : (let '(a, b) := x in (a, b)) = x.
Proof. by destruct x. Qed.

Lemma bind_read_eq {B : Type} (f : state -> gen B) s : bind read f s = f s s.
Proof. unfold bind, read. by destruct (f s s). Qed.

Lemma bind_write_eq {B : Type} s' (f : unit -> gen B) s :
  bind (write s') f s = f tt s'.
Proof. unfold bind, write. by destruct (f tt s'). Qed.

Lemma bind_ret_eq {A B : Type} (a : A) (f : A -> gen B) s :
  bind (ret a) f s = f a s.
Proof. unfold bind, ret. by destruct (f a s). Qed.

Lemma bind_lift_eq {A B : Type} (o : option A) (a : A) (f : A -> gen B) s :
  o = Some a -> bind (lift o) f s = f a s.
Proof. intros ->. apply bind_ret_eq. Qed.

Lemma bind_assoc_eq {A B C : Type} (m : gen A) (f : A -> gen B)
  (g : B -> gen C) s :
  bind (bind m f) g s = bind m (fun a => bind (f a) g) s.
Proof.
  unfold bind. destruct (m s) as [o1 [[a s1]|]]; [|done].
  destruct (f a s1) as [o2 [[b s2]|]]; [|done].
  destruct (g b s2) as [o3 r]. by rewrite app_assoc.
Qed.

Lemma bind_step_eq {A B : Type} (m : gen A) (f : A -> gen B) s o a s1 :
  m s = ([o], Some (a, s1)) -> bind m f s = prepend o (f a s1).
Proof. unfold bind, prepend. intros ->. by destruct (f a s1). Qed.

(** One step of symbolic execution through a [bind]. *)
Ltac sat_step :=
  lazymatch goal with
  | |- sat (bind read _) _ _ _ => apply sat_bind_read
  | |- sat (bind (write _) _) _ _ _ => apply sat_bind_write
  | |- sat (bind (lift _) _) _ _ _ => apply sat_bind_lift; intros ? ?
  end.

(** ** Elementary facts about the Python operations *)

Lemma assoc_set_same {A : Type} (k : string) (v : A) kvs :
  Py.assoc k (Py.assoc_set k v kvs) = Some v.
Proof.
  induction kvs as [|[k' v'] kvs IH]; simpl.
  - by rewrite String.eqb_refl.
  - destruct (String.eqb k k') eqn:E; simpl.
    + by rewrite String.eqb_refl.
    + by rewrite E.
Qed.

Lemma assoc_set_other {A : Type} (k k' : string) (v : A) kvs :
  k' <> k -> Py.assoc k' (Py.assoc_set k v kvs) = Py.assoc k' kvs.
Proof.
  intros Hne. induction kvs as [|[k0 v0] kvs IH]; simpl.
  - destruct (String.eqb k' k) eqn:E; [|done].
    apply String.eqb_eq in E. contradiction.
  - destruct (String.eqb k k0) eqn:E; simpl.
    + apply String.eqb_eq in E. subst k0.
      destruct (String.eqb k' k) eqn:E'; [|done].
      apply String.eqb_eq in E'. contradiction.
    + by rewrite IH.
Qed.

Lemma assoc_set_twice {A : Type} (k : string) (v v' : A) kvs :
  Py.assoc_set k v (Py.assoc_set k v' kvs) = Py.assoc_set k v kvs.
Proof.
  induction kvs as [|[k0 v0] kvs IH]; cbn [Py.assoc_set].
  - by rewrite String.eqb_refl.
  - destruct (String.eqb k k0) eqn:E; cbn [Py.assoc_set].
    + by rewrite String.eqb_refl.
    + by rewrite E, IH.
Qed.

Lemma append_nil_r (x : string) : x +:+ "" = x.
Proof.
  induction x as [|c x IH]; [done|].
  change (String c x +:+ "") with (String c (x +:+ "")). by rewrite IH.
Qed.

Lemma append_assoc (x y z : string) : (x +:+ y) +:+ z = x +:+ y +:+ z.
Proof.
  induction x as [|c x IH]; [done|].
  change ((String c x +:+ y) +:+ z) with (String c ((x +:+ y) +:+ z)).
  by rewrite IH.
Qed.

Lemma eq_str_iff (x : json) (t : string) :
  Py.eq x (JStr t) = true <-> x = JStr t.
Proof.
  destruct x; simpl; try (split; [discriminate | intros [=]]).
  rewrite String.eqb_eq. split; [by intros -> | by intros [= ->]].
Qed.

Lemma nonempty_iff (t : string) : Py.nonempty t = true <-> t <> "".
Proof.
  unfold Py.nonempty. destruct (String.eqb t "") eqn:E; simpl.
  - apply String.eqb_eq in E. split; [discriminate | contradiction].
  - apply String.eqb_neq in E. split; auto.
Qed.

Lemma nonempty_false_iff (t : string) : Py.nonempty t = false <-> t = "".
Proof.
  unfold Py.nonempty. destruct (String.eqb t "") eqn:E; simpl.
  - apply String.eqb_eq in E. split; auto.
  - apply String.eqb_neq in E. split; [discriminate | contradiction].
Qed.


(** ** What a forwarded event keeps of the upstream event *)

Lemma keeps_choice_refl j : keeps_choice j j.
Proof. by split. Qed.

Lemma keeps_choice_trans j d d' :
  keeps_choice j d -> keeps_choice d d' -> keeps_choice j d'.
Proof.
  intros [H1 H2] [H3 H4]. split.
  - intros k Hk. by rewrite H3, H1.
  - by rewrite H4, H2.
Qed.

Lemma set_content_keeps d t d' :
  Py.set_content d t = Some d' ->
  keeps_choice d d'
  /\ Py.get d' "finish_reason" JNull = Py.get d "finish_reason" JNull.
Proof.
  unfold Py.set_content. intros H.
  destruct d as [| | | | |top]; try discriminate.
  destruct (Py.assoc "choices" top) as [[| | | |[|[| | | | |ch] more]|]|] eqn:Ech;
    try discriminate.
  destruct (Py.assoc "delta" ch) as [[| | | | |dl]|] eqn:Edl; try discriminate.
  injection H as <-. repeat split.
  - intros k Hk. unfold delta_field, Py.getitem. cbn [mbind option_bind].
    rewrite assoc_set_same, Ech. cbn [Py.index0 mbind option_bind].
    rewrite assoc_set_same, Edl. cbn [mbind option_bind].
    by rewrite assoc_set_other.
  - unfold choice_finish_reason, Py.getitem. cbn [mbind option_bind].
    rewrite assoc_set_same, Ech. cbn [Py.index0 mbind option_bind].
    by rewrite assoc_set_other.
  - unfold Py.get. by rewrite assoc_set_other.
Qed.

Lemma setitem_finish_keeps d v d' :
  Py.setitem d "finish_reason" v = Some d' ->
  keeps_choice d d' /\ Py.get d' "finish_reason" JNull = Some v.
Proof.
  unfold Py.setitem. destruct d as [| | | | |top]; try discriminate.
  intros [= <-]. repeat split.
  - intros k _. unfold delta_field, Py.getitem. cbn [mbind option_bind].
    by rewrite assoc_set_other.
  - unfold choice_finish_reason, Py.getitem. cbn [mbind option_bind].
    by rewrite assoc_set_other.
  - unfold Py.get. by rewrite assoc_set_same.
Qed.

(** Unfolding of the generator's parts, by name. *)
Ltac unfold_after_reasoning := unfold after_reasoning.
Ltac unfold_assistant_branch := unfold assistant_branch.
Ltac unfold_create_tool_call := unfold create_tool_call.
Ltac unfold_finish := unfold finish.
Ltac unfold_flush_on_finish_reason := unfold flush_on_finish_reason.
Ltac unfold_forward := unfold forward.
Ltac unfold_handle_stream_response := unfold handle_stream_response.
Ltac unfold_on_data := unfold on_data.

Section StreamFacts.

Variable parser : Parser.
Variable apply_replacement_to_completion : string -> string.

Local Abbreviation create_tool_call :=
  (create_tool_call parser apply_replacement_to_completion).
Local Abbreviation assistant_branch :=
  (assistant_branch parser apply_replacement_to_completion).
Local Abbreviation flush_on_finish_reason :=
  (flush_on_finish_reason parser apply_replacement_to_completion).
Local Abbreviation finish := (finish parser apply_replacement_to_completion).
Local Abbreviation after_reasoning :=
  (after_reasoning parser apply_replacement_to_completion).
Local Abbreviation on_data := (on_data parser apply_replacement_to_completion).
Local Abbreviation on_line := (on_line parser apply_replacement_to_completion).
Local Abbreviation stream_loop :=
  (stream_loop parser apply_replacement_to_completion).
Local Abbreviation handle_stream_response :=
  (handle_stream_response parser apply_replacement_to_completion).
Local Abbreviation render := (render parser apply_replacement_to_completion).

(** The exact behaviour of a flush. *)
Lemma create_tool_call_eq s :
  create_tool_call s =
  match last_chunk s with
  | Some a =>
      match heap s !! a with
      | Some chunk =>
          match Py.set_content chunk (render (pending s)) with
          | Some chunk' =>
              ([Flush (pending s) chunk'], Some (tt, flushed a chunk' s))
          | None => ([], None)
          end
      | None => ([], None)
      end
  | None => ([], None)
  end.
Proof.
  unfold_create_tool_call. unfold bind, read, lift, write, yield, ret, raise.
  destruct (last_chunk s) as [a|]; [|reflexivity].
  destruct (heap s !! a) as [chunk|]; [|reflexivity].
  destruct (Py.set_content chunk _); reflexivity.
Qed.

(** *** Cancellation *)

Lemma stream_loop_cancelled disc pre rest : forall k s,
  disc (k + length pre) = true ->
  fst (fst (stream_loop disc k (pre ++ rest) s))
  = fst (fst (stream_loop disc k pre s)).
Proof.
  induction pre as [|l pre IH]; intros k s Hd; simpl in *.
  - rewrite Nat.add_0_r in Hd. destruct rest; simpl; [done|by rewrite Hd].
  - destruct (disc k); [done|].
    destruct (on_line l s) as [o [[[] s1]|]]; [|done].
    specialize (IH (S k) s1). rewrite Nat.add_succ_comm in IH.
    specialize (IH Hd).
    destruct (stream_loop disc (S k) (pre ++ rest) s1) as [[o1 e1] s1'].
    destruct (stream_loop disc (S k) pre s1) as [[o2 e2] s2'].
    simpl in *. by rewrite IH.
Qed.

Lemma stream_loop_not_exhausted disc pre l rest : forall k s,
  disc (k + length pre) = true ->
  snd (fst (stream_loop disc k (pre ++ l :: rest) s)) <> Exhausted.
Proof.
  induction pre as [|l0 pre IH]; intros k s Hd; simpl in *.
  - rewrite Nat.add_0_r in Hd. by rewrite Hd.
  - destruct (disc k); [done|].
    destruct (on_line l0 s) as [o [[[] s1]|]]; [|done].
    specialize (IH (S k) s1). rewrite Nat.add_succ_comm in IH.
    specialize (IH Hd).
    by destruct (stream_loop disc (S k) (pre ++ l :: rest) s1) as [[o1 e1] s1'].
Qed.

(** *** Reachable states keep a carrier for the open fragment *)

Lemma carrier_shaped_settable d t :
  carrier_shaped d -> exists d', Py.set_content d t = Some d'.
Proof.
  intros (top & ch & more & dl & -> & Hc & Hd). unfold Py.set_content.
  rewrite Hc, Hd. eauto.
Qed.

Lemma set_content_shaped d t d' :
  Py.set_content d t = Some d' -> carrier_shaped d'.
Proof.
  unfold Py.set_content. intros H.
  destruct d as [| | | | |top]; try discriminate.
  destruct (Py.assoc "choices" top) as [[| | | |[|[| | | | |ch] more]|]|] eqn:Ech;
    try discriminate.
  destruct (Py.assoc "delta" ch) as [[| | | | |dl]|] eqn:Edl; try discriminate.
  injection H as <-. do 4 eexists. split; [reflexivity|].
  split; apply assoc_set_same.
Qed.

Lemma setitem_finish_shaped d v d' :
  Py.setitem d "finish_reason" v = Some d' ->
  carrier_shaped d -> carrier_shaped d'.
Proof.
  intros H (top & ch & more & dl & -> & Hc & Hd). injection H as <-.
  exists (Py.assoc_set "finish_reason" v top), ch, more, dl.
  split; [done|]. split; [|done]. by rewrite assoc_set_other.
Qed.

(** An event from which a non-empty tool call was read can carry a flush. *)
Lemma read_event_shaped s j v tc :
  read_event s j = Some v ->
  Py.index0 (Py.or_ (v_tool_calls v) (JArr [JObj []])) = Some tc ->
  Py.truthy tc = true ->
  carrier_shaped j.
Proof.
  unfold read_event. intros Hv Htc Ht.
  destruct j as [| | | | |top]; try discriminate. cbn [Py.get mbind option_bind] in Hv.
  destruct (Py.index0 _) as [choice|] eqn:Ech; [|discriminate].
  cbn [mbind option_bind] in Hv.
  destruct choice as [| | | | |ch]; try discriminate.
  cbn [Py.get mbind option_bind] in Hv.
  set (d0 := match Py.assoc "delta" ch with Some x => x | None => JNull end) in *.
  destruct (Py.or_ d0 (JObj [])) as [| | | | |dl] eqn:Edl; try discriminate.
  cbn [Py.get mbind option_bind] in Hv. injection Hv as <-.
  cbn [v_tool_calls] in Htc.
  destruct (Py.assoc "tool_calls" dl) as [tcs|] eqn:Etcs;
    [|by injection Htc as <-].
  assert (dl <> []) as Hdl by (by intros ->).
  assert (Py.assoc "delta" ch = Some (JObj dl)) as Hdelta.
  { unfold Py.or_ in Edl. destruct (Py.truthy d0) eqn:Ed0.
    - subst d0. by destruct (Py.assoc "delta" ch) as [x|]; [subst x|].
    - by injection Edl as <-. }
  assert (ch <> []) as Hch by (by intros ->).
  destruct (Py.assoc "choices" top) as [c0|] eqn:Hc0;
    [|by injection Ech as <-].
  unfold Py.or_ in Ech. destruct (Py.truthy c0) eqn:Ec0;
    [|by injection Ech as <-].
  destruct c0 as [| | |t|[|x xs]|]; try discriminate.
  - by destruct t.
  - injection Ech as ->. by exists top, ch, xs, dl.
Qed.

Section OpenFragment.

Variable j : json.
Variable a : nat.


Lemma flush_site_open (c : bool) s :
  keeps_carrier j a s ->
  sat (when (c && Py.nonempty (buffer s)) create_tool_call) s anything
      (fun _ s' => keeps_carrier j a s' /\ role s' = role s
                   /\ (buffer s' <> "" -> c = false /\ s' = s)).
Proof.
  intros Hk. apply sat_when.
  - intros [_ Hb%nonempty_iff]%andb_true_iff. split.
    + by apply Forall_forall.
    + intros [] s'. rewrite create_tool_call_eq.
      destruct (last_chunk s) as [b|]; [|discriminate].
      destruct (heap s !! b) as [chunk|] eqn:Hh; [|discriminate].
      destruct (Py.set_content chunk _) as [chunk'|] eqn:Hs; [|discriminate].
      intros [= <-]. split; [|by split].
      destruct Hk as [(d & Hd & Hsh) _]. split; [|by intros ?].
      simpl. destruct (decide (b = a)) as [->|Hne].
      * exists chunk'. split.
        -- apply list_lookup_insert_eq. by eapply lookup_lt_Some.
        -- intros _. by eapply set_content_shaped.
      * exists d. by rewrite list_lookup_insert_ne.
  - intros Hc. split; [done|]. split; [done|]. intros Hb%nonempty_iff.
    rewrite Hb, andb_true_r in Hc. by subst c.
Qed.

Lemma assistant_branch_open tcs s :
  keeps_carrier j a s -> role s = JStr "assistant" ->
  (forall tc, Py.index0 (Py.or_ tcs (JArr [JObj []])) = Some tc ->
              Py.truthy tc = true -> carrier_shaped j) ->
  sat (assistant_branch a tcs) s anything (fun _ s' => keeps_carrier j a s').
Proof.
  intros Hk Hr Hsh. unfold_assistant_branch.
  do 2 sat_step. sat_step.
  eapply sat_bind; [by apply flush_site_open|]. cbv beta.
  intros [] s1 (Hk1 & Hr1 & _).
  destruct (Py.truthy _) eqn:Ht; [|by apply sat_ret].
  do 2 sat_step. sat_step. do 6 sat_step.
  apply sat_write. destruct Hk1 as [(d & Hd & Hd') _].
  split; [by exists d|]. intros _. simpl. split; [congruence|].
  exists a, d. eauto.
Qed.

Lemma forward_open s :
  keeps_carrier j a s -> sat (forward a) s anything (fun _ s' => open_ok s').
Proof.
  intros [(d & Hd & Hsh) Ho]. unfold_forward.
  sat_step. sat_step. sat_step.
  match goal with H : heap s !! a = Some ?x |- _ =>
    rewrite Hd in H; injection H as <- end.
  eapply sat_bind with (Q := fun _ s' => open_ok s').
  - destruct (Py.eq _ _); [|by apply sat_ret].
    sat_step. apply sat_write. intros Hb. simpl in *.
    destruct (Ho Hb) as (Hr & b & chunk & Hl & Hh & Hc). split; [done|].
    destruct (decide (a = b)) as [->|Hne].
    + eexists b, _. split; [done|]. split.
      * apply list_lookup_insert_eq. by eapply lookup_lt_Some.
      * eapply setitem_finish_shaped; [eassumption|]. congruence.
    + exists b, chunk. by rewrite list_lookup_insert_ne.
  - cbv beta. intros [] s1 Ho1. sat_step. sat_step. by apply sat_yield.
Qed.

Lemma after_reasoning_open s0 v s :
  read_event s0 j = Some v ->
  keeps_carrier j a s ->
  sat (after_reasoning a v) s anything (fun _ s' => open_ok s').
Proof.
  intros Hv Hk. unfold_after_reasoning.
  sat_step.
  eapply sat_bind; [by apply flush_site_open|]. cbv beta.
  intros [] s1 (Hk1 & Hr1 & Hskip).
  sat_step. sat_step.
  assert (keeps_carrier j a (with_choice_role (v_choice_index v) (v_role v) s1))
    as Hk2.
  { destruct Hk1 as [Hcell Ho]. split; [done|]. intros Hb. simpl in *.
    destruct (Ho Hb) as (Hr & Hrest). split; [|done].
    destruct (Hskip Hb) as [Hc ->].
    apply orb_false_iff in Hc as [Hc _]. apply orb_false_iff in Hc as [_ Hc].
    apply negb_false_iff in Hc. rewrite Hr in Hc. by apply eq_str_iff. }
  eapply sat_bind with (Q := fun _ s' => keeps_carrier j a s').
  - destruct (Py.eq _ _) eqn:Er; [|by apply sat_ret].
    apply assistant_branch_open; [done|by apply eq_str_iff|].
    intros tc Htc Ht. by eapply read_event_shaped.
  - cbv beta. intros [] s2 Hk3. unfold_finish.
    eapply sat_bind with (Q := fun _ s' => keeps_carrier j a s').
    + unfold_flush_on_finish_reason. sat_step. do 2 sat_step.
      eapply sat_weaken; [by apply flush_site_open|]. by intros ? ? [? _].
    + cbv beta. intros [] s3 Hk4. by apply forward_open.
Qed.

End OpenFragment.

Lemma on_line_open l s :
  open_ok s -> sat (on_line l) s anything (fun _ s' => open_ok s').
Proof.
  intros Ho. destruct l as [t|t|j|t]; simpl.
  - by apply sat_ret.
  - sat_step. eapply sat_bind with (Q := fun _ s' => open_ok s').
    + apply sat_when; [|done]. intros Hb%nonempty_iff. split.
      * by apply Forall_forall.
      * intros [] s'. rewrite create_tool_call_eq.
        destruct (last_chunk s) as [b|]; [|discriminate].
        destruct (heap s !! b) as [chunk|]; [|discriminate].
        destruct (Py.set_content chunk _); [|discriminate].
        intros [= <-]. by intros ?.
    + cbv beta. intros [] s1 Ho1. by apply sat_yield.
  - unfold_on_data.
    sat_step. sat_step. sat_step. sat_step. sat_step. sat_step.
    eapply after_reasoning_open; [eassumption|].
    split.
    + exists j. simpl. split; [by apply list_lookup_middle|done].
    + intros Hb. simpl in *. destruct (Ho Hb) as (Hr & b & chunk & Hl & Hh & Hc).
      split; [done|]. exists b, chunk. split; [done|]. split; [|done].
      by apply lookup_app_l_Some.
  - apply sat_raise.
Qed.

Lemma reachable_open s :
  reachable parser apply_replacement_to_completion s -> open_ok s.
Proof.
  induction 1 as [|s l o s' _ IH Hstep].
  - by intros ?.
  - destruct (on_line_open l s IH) as [_ H]. apply (H tt). by rewrite Hstep.
Qed.

(** *** An open fragment is flushed before anything else *)

Lemma skip_flush_eq {B : Type} (c : bool) s (f : unit -> gen B) :
  c && Py.nonempty (buffer s) = false ->
  bind (when (c && Py.nonempty (buffer s)) create_tool_call) f s = f tt s.
Proof. intros ->. apply bind_ret_eq. Qed.

Lemma take_flush_eq {B : Type} (c : bool) s (f : unit -> gen B) b chunk chunk' :
  c = true -> buffer s <> "" ->
  last_chunk s = Some b -> heap s !! b = Some chunk ->
  Py.set_content chunk (render (pending s)) = Some chunk' ->
  bind (when (c && Py.nonempty (buffer s)) create_tool_call) f s
  = prepend (Flush (pending s) chunk') (f tt (flushed b chunk' s)).
Proof.
  intros -> Hb%nonempty_iff Hl Hh Hs. rewrite Hb. simpl.
  apply bind_step_eq. by rewrite create_tool_call_eq, Hl, Hh, Hs.
Qed.

Lemma after_reasoning_flushes_first a v s b chunk chunk' :
  buffer s <> "" -> role s = JStr "assistant" ->
  last_chunk s = Some b -> heap s !! b = Some chunk ->
  Py.set_content chunk (render (pending s)) = Some chunk' ->
  flush_trigger s v = true ->
  after_reasoning a v s
  = prepend (Flush (pending s) chunk')
            (after_reasoning a v (flushed b chunk' s)).
Proof.
  intros Hb Hrole Hl Hh Hs Ht. unfold_after_reasoning.
  rewrite !bind_read_eq.
  rewrite (skip_flush_eq _ (flushed b chunk' s)) by (simpl; apply andb_false_r).
  unfold flush_trigger in Ht.
  destruct (Py.ne (v_choice_index v) (choice_index s)
            || negb (Py.truthy (v_delta v))
            || Py.ne (v_role v) (role s)
            || negb (Py.truthy (v_tool_calls v))) eqn:E4.
  - erewrite take_flush_eq by eauto. reflexivity.
  - simpl in Ht.
    rewrite skip_flush_eq by reflexivity.
    rewrite !bind_read_eq, !bind_write_eq.
    apply orb_false_iff in E4 as [E4 _]. apply orb_false_iff in E4 as [_ E4].
    apply negb_false_iff in E4. rewrite Hrole in E4.
    rewrite E4.
    unfold call_index_changed in Ht.
    destruct (Py.index0 _) as [tc|] eqn:Etc; [|discriminate].
    destruct (Py.get tc "index" JNull) as [idx|] eqn:Eidx; [|discriminate].
    unfold_assistant_branch.
    rewrite !bind_assoc_eq. rewrite !(bind_lift_eq _ _ _ _ Etc).
    rewrite !bind_assoc_eq. rewrite !(bind_lift_eq _ _ _ _ Eidx).
    rewrite !bind_assoc_eq, !bind_read_eq. rewrite !bind_assoc_eq.
    erewrite take_flush_eq; [|exact Ht|exact Hb|exact Hl|exact Hh|exact Hs].
    rewrite skip_flush_eq by (simpl; apply andb_false_r).
    reflexivity.
Qed.

(** *** A stream that builds one tool call *)

Lemma truthy_obj k (kvs : list (string * json)) v :
  Py.assoc k kvs = Some v -> Py.truthy (JObj kvs) = true.
Proof. by destruct kvs. Qed.

Lemma optional_text_get x k t d :
  optional_text x k = Some t -> d = JStr "" -> Py.get x k d = Some (JStr t).
Proof.
  intros H ->. unfold optional_text in H.
  destruct (Py.get x k (JStr "")) as [[| | |t'| |]|]; try discriminate.
  by injection H as ->.
Qed.

Lemma falsy_not_tool_calls fr :
  Py.truthy fr = false -> Py.eq fr (JStr "tool_calls") = false.
Proof. by destruct fr as [| | |t| |]; try done; destruct t. Qed.

Ltac run_gen :=
  repeat (rewrite ?bind_assoc_eq;
          first [rewrite bind_ret_eq | rewrite bind_read_eq
                | rewrite bind_write_eq
                | progress cbn [Py.str_add lift]]).

Lemma on_data_piece c k j p s :
  tool_call_piece c k j = Some p ->
  takes c k s p ->
  on_data j s = ([Data j], Some (tt, absorb c k s (j, p))).
Proof.
  unfold tool_call_piece. intros H Htakes.
  destruct j as [| | | | |top]; try discriminate.
  cbn [Py.getitem mbind option_bind] in H.
  destruct (Py.assoc "choices" top) as [[| | | |[|choice more]|]|] eqn:Ech;
    try discriminate.
  cbn [mbind option_bind] in H.
  destruct choice as [| | | | |ch]; try discriminate.
  cbn [Py.getitem mbind option_bind] in H.
  destruct (Py.assoc "index" ch) as [ci|] eqn:Eci; [|discriminate].
  cbn [mbind option_bind] in H.
  destruct (Py.assoc "delta" ch) as [delta|] eqn:Edelta; [|discriminate].
  cbn [mbind option_bind] in H.
  destruct (optional_role delta) as [rl|] eqn:Erole; [|discriminate].
  cbn [mbind option_bind] in H.
  destruct delta as [| | | | |dl]; try discriminate.
  cbn [Py.getitem mbind option_bind] in H.
  destruct (Py.assoc "tool_calls" dl) as [[| | | |[|tc tcs']|]|] eqn:Etcs;
    try discriminate.
  cbn [mbind option_bind] in H.
  destruct tc as [| | | | |tkv]; try discriminate.
  cbn [Py.getitem mbind option_bind] in H.
  destruct (Py.assoc "index" tkv) as [idx|] eqn:Eidx; [|discriminate].
  cbn [mbind option_bind] in H.
  destruct (Py.assoc "function" tkv) as [fn|] eqn:Efn; [|discriminate].
  cbn [mbind option_bind] in H.
  destruct (optional_text fn "name") as [nm|] eqn:Enm; [|discriminate].
  cbn [mbind option_bind] in H.
  destruct (optional_text fn "arguments") as [ar|] eqn:Ear; [|discriminate].
  cbn [mbind option_bind] in H.
  destruct (optional_text (JObj tkv) "id") as [id|] eqn:Eid; [|discriminate].
  cbn [mbind option_bind] in H.
  destruct (Py.get (JObj dl) "reasoning_content" JNull) as [rc|] eqn:Erc;
    [|discriminate].
  cbn [mbind option_bind] in H.
  destruct (reasoning_text rc) as [rd|] eqn:Erd; [|discriminate].
  cbn [mbind option_bind] in H.
  destruct (Py.get (JObj top) "finish_reason" JNull) as [fr|] eqn:Efr;
    [|discriminate].
  cbn [mbind option_bind] in H.
  destruct ci as [| |c'| | |]; try discriminate.
  destruct idx as [| |k'| | |]; try discriminate.
  destruct (c' =? c)%Z eqn:Ec; [|discriminate].
  destruct (k' =? k)%Z eqn:Ek; [|discriminate].
  destruct (Py.truthy fr) eqn:Etr; [discriminate|].
  injection H as <-. apply Z.eqb_eq in Ec, Ek. subst c' k'.
  destruct Htakes as [Hrole Hopen]. cbn [p_role] in Hrole.
  assert (read_event s (JObj top)
          = Some (View (JNum c) (JObj dl) (JStr "assistant")
                    (JArr (JObj tkv :: tcs')) (JStr rd))) as Hre.
  { unfold read_event. cbn [Py.get mbind option_bind]. rewrite Ech.
    cbn [Py.or_ Py.truthy Py.index0 mbind option_bind Py.get].
    rewrite Eci, Edelta.
    assert (Py.or_ (JObj dl) (JObj []) = JObj dl) as Hor
      by (unfold Py.or_; by rewrite (truthy_obj _ _ _ Etcs)).
    rewrite !Hor. cbn [Py.get mbind option_bind].
    rewrite Etcs. cbn [mbind option_bind].
    unfold Py.get in Erc. injection Erc as Erc. rewrite Erc.
    unfold reasoning_text in Erd.
    destruct (Py.or_ rc (JStr "")) as [| | |t| |]; try discriminate.
    injection Erd as ->.
    unfold optional_role, Py.getitem in Erole.
    destruct (Py.assoc "role" dl) as [[| | |r| |]|]; try discriminate.
    - destruct (String.eqb r "assistant") eqn:Er; [|discriminate].
      apply String.eqb_eq in Er. by subst r.
    - injection Erole as <-. by destruct Hrole as [?| ->]. }
  unfold_on_data. rewrite bind_read_eq. cbv zeta. rewrite bind_write_eq.
  rewrite (bind_lift_eq _ _ _ _ Hre). rewrite bind_read_eq.
  cbn [v_reasoning Py.str_add with_heap reasoning_content_buffer lift].
  rewrite bind_ret_eq, bind_write_eq.
  unfold_after_reasoning. rewrite bind_read_eq.
  cbn [v_choice_index v_delta v_role v_tool_calls].
  set (s1 := with_reasoning _ _).
  assert (buffer s1 = buffer s) as Hb1 by reflexivity.
  rewrite skip_flush_eq.
  2:{ destruct Hopen as [Hb|(Hci & Hr & Hk)].
      - rewrite Hb1, Hb. apply andb_false_r.
      - subst s1. cbn [with_reasoning with_heap choice_index role].
        rewrite Hci, Hr. unfold Py.ne. cbn [Py.eq].
        rewrite Z.eqb_refl, String.eqb_refl, (truthy_obj _ _ _ Etcs).
        reflexivity. }
  rewrite bind_read_eq, bind_write_eq.
  change (Py.eq (JStr "assistant") (JStr "assistant")) with true. cbv iota.
  unfold_assistant_branch.
  cbn [Py.or_ Py.truthy Py.index0 lift].
  rewrite !bind_assoc_eq, bind_ret_eq.
  cbn [Py.get]. rewrite Eidx. cbn [lift].
  rewrite !bind_assoc_eq, bind_ret_eq.
  rewrite !bind_assoc_eq, bind_read_eq.
  set (s2 := with_choice_role _ _ _).
  assert (buffer s2 = buffer s) as Hb2 by reflexivity.
  rewrite !bind_assoc_eq, skip_flush_eq.
  2:{ destruct Hopen as [Hb|(Hci & Hr & Hk)].
      - rewrite Hb2, Hb. apply andb_false_r.
      - subst s2 s1. cbn [with_choice_role with_reasoning with_heap tool_call_index].
        rewrite Hk. unfold Py.ne. cbn [Py.eq]. by rewrite Z.eqb_refl. }
  rewrite (truthy_obj _ _ _ Eidx), Efn.
  assert (match Py.assoc "id" tkv with Some v => v | None => JStr "" end
          = JStr id) as Hid.
  { pose proof (optional_text_get _ _ _ _ Eid eq_refl) as X.
    unfold Py.get in X. by injection X. }
  rewrite Hid.
  pose proof (optional_text_get _ _ _ _ Enm eq_refl) as Hn.
  pose proof (optional_text_get _ _ _ _ Ear eq_refl) as Ha.
  run_gen. rewrite Hn. run_gen. rewrite Ha. run_gen.
  unfold_finish. unfold_flush_on_finish_reason. run_gen.
  set (s3 := with_fragment _ _ _ _ _ _).
  assert (heap s3 !! length (heap s) = Some (JObj top)) as Hcell
    by (by apply list_lookup_middle).
  rewrite Hcell. run_gen. rewrite Efr. run_gen. rewrite Etr.
  cbn [andb when]. run_gen.
  unfold_forward. run_gen. rewrite Hcell. run_gen. rewrite Efr. run_gen.
  rewrite (falsy_not_tool_calls _ Etr). run_gen. rewrite Hcell. run_gen.
  reflexivity.
Qed.

Lemma finish_without_flush a top s :
  heap s !! a = Some (JObj top) -> buffer s = "" ->
  exists s', finish a s = ([Data (forwarded (JObj top))], Some (tt, s')).
Proof.
  intros Hcell Hb. unfold_finish. unfold_flush_on_finish_reason.
  run_gen. rewrite Hcell. run_gen. cbn [Py.get lift]. run_gen.
  rewrite skip_flush_eq by (rewrite Hb; apply andb_false_r).
  unfold_forward. run_gen. rewrite Hcell. run_gen. cbn [Py.get lift]. run_gen.
  unfold forwarded.
  destruct (Py.assoc "finish_reason" top) as [fr|] eqn:Efr.
  - destruct (Py.eq fr (JStr "tool_calls")).
    + cbn [Py.setitem lift]. run_gen.
      cbn [with_heap heap].
      rewrite list_lookup_insert_eq by (by eapply lookup_lt_Some).
      run_gen. by eexists.
    + run_gen. rewrite Hcell. run_gen. by eexists.
  - cbn [Py.eq]. run_gen. rewrite Hcell. run_gen. by eexists.
Qed.

Lemma on_data_closing t rt s b chunk chunk' :
  closing_piece t = Some rt ->
  buffer s <> "" ->
  last_chunk s = Some b -> heap s !! b = Some chunk ->
  Py.set_content chunk
    (render (CallArgs (tool_name s) (buffer s) (tool_call_id s)
                      (reasoning_content_buffer s +:+ rt))) = Some chunk' ->
  exists s',
    on_data t s
    = ([Flush (CallArgs (tool_name s) (buffer s) (tool_call_id s)
                        (reasoning_content_buffer s +:+ rt)) chunk';
        Data (forwarded t)], Some (tt, s')).
Proof.
  unfold closing_piece. intros H Hb Hl Hh Hs.
  destruct t as [| | | | |top]; try discriminate.
  cbn [Py.getitem mbind option_bind] in H.
  destruct (Py.assoc "choices" top) as [[| | | |[|[| | | | |ch] more]|]|] eqn:Ech;
    try discriminate.
  cbn [mbind option_bind] in H. cbv zeta in H.
  destruct (Py.or_ (default JNull (Py.assoc "delta" ch)) (JObj []))
    as [| | | | |dl] eqn:Edl; try discriminate.
  destruct (reasoning_text _) as [rd|] eqn:Erd; [|discriminate].
  cbn [mbind option_bind] in H.
  destruct (Py.truthy _) eqn:Etcs; [discriminate|]. injection H as ->.
  unfold reasoning_text in Erd.
  destruct (Py.or_ (default JNull (Py.assoc "reasoning_content" dl)) (JStr ""))
    as [| | |t0| |] eqn:Erc; try discriminate. injection Erd as ->.
  assert (read_event s (JObj top)
          = Some (View (default (choice_index s) (Py.assoc "index" ch))
                    (JObj dl)
                    (default (role s) (Py.assoc "role" dl))
                    (default JNull (Py.assoc "tool_calls" dl))
                    (JStr rt))) as Hre.
  { unfold read_event. cbn [Py.get mbind option_bind]. rewrite Ech.
    cbn [Py.or_ Py.truthy Py.index0 mbind option_bind Py.get].
    change (match Py.assoc "delta" ch with Some v => v | None => JNull end)
      with (default JNull (Py.assoc "delta" ch)).
    fold (Py.or_ (default JNull (Py.assoc "delta" ch)) (JObj [])).
    rewrite Edl. cbn [Py.get mbind option_bind].
    change (match Py.assoc "reasoning_content" dl with
            | Some v => v | None => JNull end)
      with (default JNull (Py.assoc "reasoning_content" dl)).
    fold (Py.or_ (default JNull (Py.assoc "reasoning_content" dl)) (JStr "")).
    by rewrite Erc. }
  assert (b < length (heap s)) as Hlt by (by eapply lookup_lt_Some).
  unfold_on_data. run_gen. rewrite (bind_lift_eq _ _ _ _ Hre). run_gen.
  cbn [v_reasoning]. run_gen.
  unfold_after_reasoning. run_gen.
  cbn [v_choice_index v_delta v_role v_tool_calls].
  set (s1 := with_reasoning _ _).
  erewrite (take_flush_eq _ s1);
    [|by rewrite Etcs, orb_true_r|exact Hb|exact Hl
     |by apply lookup_app_l_Some|exact Hs].
  run_gen.
  set (s2 := with_choice_role _ _ _).
  assert (heap s2 !! length (heap s) = Some (JObj top)) as Hcell.
  { subst s2 s1. cbn [with_choice_role flushed with_reasoning with_heap heap].
    rewrite list_lookup_insert_ne by lia. by apply list_lookup_middle. }
  assert (buffer s2 = "") as Hb2 by reflexivity.
  destruct (Py.eq _ (JStr "assistant")).
  - unfold_assistant_branch. unfold Py.or_ at 1. rewrite Etcs.
    cbn [Py.index0 lift]. run_gen. cbn [Py.get Py.assoc lift]. run_gen.
    rewrite bind_assoc_eq.
    rewrite skip_flush_eq by (rewrite Hb2; apply andb_false_r).
    cbn [Py.truthy]. run_gen.
    destruct (finish_without_flush _ _ _ Hcell Hb2) as [s' ->].
    by exists s'.
  - run_gen. destruct (finish_without_flush _ _ _ Hcell Hb2) as [s' ->].
    by exists s'.
Qed.

Lemma takes_after_absorb c k s jp p : takes c k (absorb c k s jp) p.
Proof. split; right; by repeat split. Qed.

Lemma stream_loop_pieces c k evs ps :
  Forall2 (fun j p => tool_call_piece c k j = Some p) evs ps ->
  forall s n rest,
    match ps with p :: _ => takes c k s p | [] => True end ->
    stream_loop never n (map LData evs ++ rest) s
    = let '(o, e, s') :=
        stream_loop never (n + length evs) rest
                    (fold_left (absorb c k) (zip evs ps) s) in
      (map Data evs ++ o, e, s').
Proof.
  induction 1 as [|j p evs ps Hp Hrest IH]; intros s n rest Ht.
  - cbn [map app fold_left zip zip_with length]. rewrite Nat.add_0_r.
    by destruct (stream_loop never n rest s) as [[o e] s'].
  - cbn [map app stream_loop never on_line length].
    rewrite (on_data_piece _ _ _ _ _ Hp Ht).
    rewrite (IH (absorb c k s (j, p)) (S n) rest).
    + cbn [zip zip_with fold_left]. rewrite Nat.add_succ_comm.
      by destruct (stream_loop never _ rest _) as [[o e] s'].
    + destruct ps; [done|apply takes_after_absorb].
Qed.

Lemma pieces_reachable c k evs ps :
  Forall2 (fun j p => tool_call_piece c k j = Some p) evs ps ->
  forall s,
    reachable parser apply_replacement_to_completion s ->
    match ps with p :: _ => takes c k s p | [] => True end ->
    reachable parser apply_replacement_to_completion
              (fold_left (absorb c k) (zip evs ps) s).
Proof.
  induction 1 as [|j p evs ps Hp Hrest IH]; intros s Hs Ht; [done|].
  cbn [zip zip_with fold_left]. apply IH.
  - eapply (reachable_next _ _ s (LData j)); [exact Hs|].
    cbn [on_line]. by apply on_data_piece.
  - destruct ps; [done|apply takes_after_absorb].
Qed.

Lemma absorbed_fields c k evs ps :
  Forall2 (fun j p => tool_call_piece c k j = Some p) evs ps ->
  forall s,
    let s' := fold_left (absorb c k) (zip evs ps) s in
    heap s' = heap s ++ evs
    /\ buffer s' = buffer s +:+ joined (map p_arguments ps)
    /\ tool_name s' = tool_name s +:+ joined (map p_name ps)
    /\ tool_call_id s' = tool_call_id s +:+ joined (map p_id ps)
    /\ reasoning_content_buffer s'
       = reasoning_content_buffer s +:+ joined (map p_reasoning ps)
    /\ (evs <> [] -> last_chunk s' = Some (length (heap s) + length evs - 1)).
Proof.
  induction 1 as [|j p evs ps Hp Hrest IH]; intros s.
  - cbn. rewrite app_nil_r, !append_nil_r. by repeat split.
  - cbn [zip zip_with fold_left]. cbv zeta in *.
    destruct (IH (absorb c k s (j, p))) as (Hh & Hb & Hn & Hi & Hr & Hl).
    rewrite Hh, Hb, Hn, Hi, Hr. cbn [absorb heap buffer tool_name tool_call_id
      reasoning_content_buffer fst snd map joined fold_right].
    rewrite <- app_assoc, !append_assoc. repeat split; try done.
    intros _. destruct evs as [|j' evs].
    + inversion Hrest; subst. cbn. f_equal. lia.
    + rewrite Hl by done. cbn [absorb heap length]. rewrite length_app.
      cbn [length]. f_equal. lia.
Qed.


(** *** The claims about forwarded events *)

(** C6.  The disconnection signal is polled once before each upstream line;
    when the poll that precedes the line after [pre] answers true, the
    generator has yielded exactly what the lines [pre] produced, nothing is
    yielded for the rest and nothing is flushed, and it returns without
    reading further. *)
Theorem disconnection_stops_the_stream r disc pre rest :
  aiter_lines r = pre ++ rest ->
  disc (length pre) = true ->
  fst (handle_stream_response r disc)
  = fst (handle_stream_response (truncated r pre) disc)
  /\ (is_error r = false -> rest <> [] ->
      snd (handle_stream_response r disc) <> Exhausted).
Proof.
  intros Hl Hd. unfold_handle_stream_response. unfold truncated; simpl.
  rewrite Hl. destruct (is_error r); [split; [done|discriminate]|].
  pose proof (stream_loop_cancelled disc pre rest 0 initial_state Hd) as H.
  split.
  - destruct (stream_loop disc 0 (pre ++ rest) initial_state) as [[o e] s'].
    destruct (stream_loop disc 0 pre initial_state) as [[o2 e2] s2'].
    exact H.
  - intros _ Hr. destruct rest as [|l rest]; [done|].
    pose proof (stream_loop_not_exhausted disc pre l rest 0 initial_state Hd)
      as Hne.
    by destruct (stream_loop disc 0 (pre ++ l :: rest) initial_state)
      as [[o e] s'].
Qed.

(** C4 (amended).  Take a fragment to be open when the arguments buffer is
    not empty, which is what the code tests before every flush.  In every
    state the loop reaches with an open fragment, an event that signals a
    different choice index, an empty delta, a changed role, no tool-call
    fragment or a tool-call fragment with another call index first has its
    reasoning text added, then yields the flush of the open fragment, and
    only then is the rest of the event processed, from the state in which
    the accumulators are empty: nothing of the event is added to the
    fragment that was open. *)
Theorem open_fragment_is_flushed_first s j v r :
  reachable parser apply_replacement_to_completion s ->
  buffer s <> "" ->
  read_event s j = Some v ->
  Py.str_add (reasoning_content_buffer s) (v_reasoning v) = Some r ->
  flush_trigger s v = true ->
  exists b chunk',
    last_chunk s = Some b
    /\ on_data j s
       = prepend
           (Flush (CallArgs (tool_name s) (buffer s) (tool_call_id s) r) chunk')
           (after_reasoning (length (heap s)) v
              (flushed b chunk'
                 (with_reasoning r (with_heap (heap s ++ [j]) s)))).
Proof.
  intros Hreach Hb Hv Hr Ht.
  destruct (reachable_open s Hreach Hb) as (Hrole & b & chunk & Hl & Hh & Hsh).
  destruct (carrier_shaped_settable chunk
    (render (CallArgs (tool_name s) (buffer s) (tool_call_id s) r)) Hsh)
    as [chunk' Hset].
  exists b, chunk'. split; [exact Hl|].
  unfold_on_data. run_gen. rewrite (bind_lift_eq _ _ _ _ Hv). run_gen.
  cbn [with_heap reasoning_content_buffer]. rewrite Hr. run_gen.
  apply (after_reasoning_flushes_first (length (heap s)) v
           (with_reasoning r (with_heap (heap s ++ [j]) s)) b chunk chunk');
    try done.
  by apply lookup_app_l_Some.
Qed.

(** C3 (amended).  A stream of N >= 1 fragments of one tool call on one
    choice, the first of which names the role "assistant" and whose
    arguments pieces are not all empty, followed by an event without a
    tool-call fragment, yields the N events as they came, then
    exactly one flush, then the closing event.  The flush passes the
    concatenations of the name, arguments and id pieces (and of the
    reasoning text) to the codec, and its carrier is the last fragment's
    event with the rendered text as content. *)
Theorem one_call_one_flush c k evs ps t rt :
  Forall2 (fun j p => tool_call_piece c k j = Some p) evs ps ->
  (exists p ps', ps = p :: ps' /\ p_role p = true) ->
  closing_piece t = Some rt ->
  joined (map p_arguments ps) <> "" ->
  exists final carrier,
    last evs = Some final
    /\ Py.set_content final
         (render (CallArgs (joined (map p_name ps))
                           (joined (map p_arguments ps))
                           (joined (map p_id ps))
                           (joined (map p_reasoning ps) +:+ rt)))
       = Some carrier
    /\ handle_stream_response (ok_stream (map LData evs ++ [LData t])) never
       = (map Data evs
          ++ [Flush (CallArgs (joined (map p_name ps))
                              (joined (map p_arguments ps))
                              (joined (map p_id ps))
                              (joined (map p_reasoning ps) +:+ rt)) carrier;
              Data (forwarded t)],
          Exhausted).
Proof.
  intros HF (p & ps' & -> & Hrole) Ht Hargs.
  assert (takes c k initial_state p) as Htakes by (split; by left).
  pose proof (absorbed_fields c k _ _ HF initial_state)
    as (Hh & Hb & Hn & Hi & Hr & Hl).
  pose proof (pieces_reachable c k _ _ HF initial_state
                (reachable_initial _ _) Htakes) as Hreach.
  apply reachable_open in Hreach.
  set (sN := fold_left (absorb c k) (zip evs (p :: ps')) initial_state) in *.
  cbv zeta in *. change (buffer initial_state +:+ ?x) with x in Hb.
  change (tool_name initial_state +:+ ?x) with x in Hn.
  change (tool_call_id initial_state +:+ ?x) with x in Hi.
  change (reasoning_content_buffer initial_state +:+ ?x) with x in Hr.
  change (heap initial_state ++ evs) with evs in Hh.
  destruct Hreach as (_ & b & chunk & Hlast & Hcell & Hshape);
    [by rewrite Hb|].
  assert (evs <> []) as Hne by (by inversion HF).
  rewrite (Hl Hne) in Hlast. injection Hlast as <-.
  rewrite Hh in Hcell. cbn [initial_state heap length] in Hcell.
  destruct (carrier_shaped_settable chunk
    (render (CallArgs (joined (map p_name (p :: ps')))
                      (joined (map p_arguments (p :: ps')))
                      (joined (map p_id (p :: ps')))
                      (joined (map p_reasoning (p :: ps')) +:+ rt))) Hshape)
    as [carrier Hset].
  exists chunk, carrier. split; [|split; [exact Hset|]].
  - rewrite last_lookup. rewrite <- Hcell. f_equal. lia.
  - destruct (on_data_closing t rt sN (0 + length evs - 1) chunk carrier)
      as [s' Hclose]; try done.
    + by rewrite Hb.
    + by rewrite Hl.
    + by rewrite Hh.
    + by rewrite Hn, Hb, Hi, Hr.
    + unfold_handle_stream_response. cbn [ok_stream is_error aiter_lines].
      rewrite (stream_loop_pieces c k _ _ HF initial_state 0 [LData t] Htakes).
      fold sN. cbn [stream_loop never on_line]. rewrite Hclose.
      by rewrite Hn, Hb, Hi, Hr.
Qed.

End StreamFacts.

(** ** The request rewrite *)


Lemma system_or_user_iff x :
  system_or_user x = true <-> exists r, x = JStr r /\ (r = "system" \/ r = "user").
Proof.
  unfold system_or_user. rewrite orb_true_iff, !eq_str_iff. split.
  - intros [->| ->]; eauto.
  - intros (r & -> & [->| ->]); auto.
Qed.

Lemma system_or_user_str r :
  r = "system" \/ r = "user" -> system_or_user (JStr r) = true.
Proof. intros H. apply system_or_user_iff. eauto. Qed.

Section RequestFacts.

Variable environment : RuntimeConfig.
Variable build_tool_parser : json -> bool -> option (Parser * string).
Variable apply_replacement_to_messages :
  json -> option (json * (string -> string)).
Variable str : json -> string.
Variable writable : string -> bool.

Local Abbreviation rewrite_first :=
  (rewrite_first_message build_tool_parser str).
Local Abbreviation process_with :=
  (process_request_with build_tool_parser apply_replacement_to_messages str
                        writable).

Lemma rewrite_first_bound cfg request request' p :
  rewrite_first cfg request = Some (request', Some p) ->
  first_message_eligible request.
Proof.
  unfold rewrite_first_message. intros H.
  destruct (Py.getitem request "messages") as [messages|] eqn:Hm;
    [|discriminate].
  cbn [mbind option_bind] in H.
  destruct (Py.truthy messages) eqn:Ht.
  - destruct (Py.index0 messages) as [m0|] eqn:H0; [|discriminate].
    cbn [mbind option_bind] in H.
    destruct (Py.getitem m0 "role") as [r|] eqn:Hr; [|discriminate].
    cbn [mbind option_bind] in H.
    destruct (system_or_user r) eqn:Hsu; [|by injection H].
    apply system_or_user_iff in Hsu as (r' & -> & Hr').
    destruct m0 as [| | | | |kv0]; try discriminate.
    destruct messages as [| | |t|[|x xs]|]; try discriminate.
    + by destruct t.
    + injection H0 as ->. by exists kv0, xs, r'.
  - cbn [mbind option_bind] in H. by injection H.
Qed.

Lemma process_with_eligible cfg request pr :
  process_with cfg request = Some pr -> first_message_eligible request.
Proof.
  unfold process_request_with. intros H.
  destruct (rewrite_first cfg request) as [[request' [p|]]|] eqn:Hrw;
    try discriminate.
  by eapply rewrite_first_bound.
Qed.


Lemma set_message0_eq top m0 rest k v :
  Py.assoc "messages" top = Some (JArr (JObj m0 :: rest)) ->
  set_message0 (JObj top) k v
  = Some (JObj (Py.assoc_set "messages"
                  (JArr (JObj (Py.assoc_set k v m0) :: rest)) top)).
Proof. unfold set_message0. by intros ->. Qed.

Lemma rewrite_first_inv cfg request request' p :
  rewrite_first cfg request = Some (request', Some p) ->
  exists m0 rest content prompt,
    Py.getitem request "messages" = Some (JArr (JObj m0 :: rest))
    /\ Py.assoc "content" m0 = Some content
    /\ build_tool_parser (system_prompt_of str content)
                         (negb (disable_strict_schemas cfg))
       = Some (p, prompt)
    /\ Py.getitem request' "messages"
       = Some (JArr (rewritten_first m0 prompt :: rest))
    /\ exists top', request' = JObj top'.
Proof.
  intros H. pose proof (rewrite_first_bound _ _ _ _ H) as (m0 & rest & r & Hm & Hr & Hsu).
  unfold rewrite_first_message in H. rewrite Hm in H.
  cbn [mbind option_bind Py.truthy Py.index0 Py.getitem] in H.
  rewrite Hr in H. cbn [mbind option_bind] in H.
  rewrite (system_or_user_str r Hsu) in H.
  destruct (Py.assoc "content" m0) as [content|] eqn:Hc; [|discriminate].
  cbn [mbind option_bind] in H.
  destruct (build_tool_parser _ _) as [[p' prompt]|] eqn:Hb; [|discriminate].
  cbn [mbind option_bind] in H.
  destruct request as [| | | | |top]; try discriminate.
  cbn [Py.getitem] in Hm.
  rewrite (set_message0_eq _ _ _ _ _ Hm) in H. cbn [mbind option_bind] in H.
  erewrite set_message0_eq in H by apply assoc_set_same.
  cbn [mbind option_bind] in H.
  set (top2 := Py.assoc_set "messages" _ (Py.assoc_set "messages" _ top)) in H.
  assert (Py.assoc "messages" top2
          = Some (JArr (rewritten_first m0 prompt :: rest))) as Hm2
    by apply assoc_set_same.
  assert (forall req3, match schemas p' with
            | [] => Some (JObj top2)
            | _ :: _ =>
                tools ← Py.get (JObj top2) "tools" JNull;
                sum ← list_add (Py.or_ tools (JArr [])) (schemas p');
                Py.setitem (JObj top2) "tools" sum
            end = Some req3 ->
            exists top3, req3 = JObj top3
              /\ Py.assoc "messages" top3
                 = Some (JArr (rewritten_first m0 prompt :: rest))) as Htools.
  { intros req3 H3. destruct (schemas p'); [injection H3 as <-; eauto|].
    cbn [Py.get mbind option_bind] in H3.
    destruct (list_add _ _) as [sum|]; [|discriminate].
    cbn [mbind option_bind Py.setitem] in H3. injection H3 as <-.
    eexists. split; [reflexivity|]. by rewrite assoc_set_other. }
  destruct (match schemas p' with [] => _ | _ => _ end) as [req3|] eqn:H3;
    [|discriminate].
  destruct (Htools _ eq_refl) as (top3 & -> & Hm3).
  cbn [mbind option_bind Py.get] in H.
  destruct (force_tool_calling cfg && _) eqn:Hf;
    cbn [Py.setitem mbind option_bind] in H; injection H as <- <-.
  - exists m0, rest, content, prompt. repeat split; try done.
    + cbn [Py.getitem]. by rewrite assoc_set_other.
    + eauto.
  - exists m0, rest, content, prompt. repeat split; eauto.
Qed.

Lemma written_inv files files' :
  written writable files = Some files' -> files' = files.
Proof. unfold written. by destruct (forallb _ files); intros [= <-]. Qed.

Lemma process_with_inv cfg request pr :
  process_with cfg request = Some pr ->
  exists m0 rest content prompt msgs1 msgs2,
    Py.getitem request "messages" = Some (JArr (JObj m0 :: rest))
    /\ Py.assoc "content" m0 = Some content
    /\ build_tool_parser (system_prompt_of str content)
                         (negb (disable_strict_schemas cfg))
       = Some (pr_parser pr, prompt)
    /\ modify_xml_messages_to_tool_calls (pr_parser pr)
         (JArr (rewritten_first m0 prompt :: rest)) = Some msgs1
    /\ apply_replacement_to_messages msgs1 = Some (msgs2, pr_completion pr)
    /\ Py.getitem (pr_request pr) "messages" = Some msgs2.
Proof.
  unfold process_request_with. intros H.
  destruct (rewrite_first cfg request) as [[request' [p|]]|] eqn:Hrw;
    try discriminate.
  destruct (rewrite_first_inv _ _ _ _ Hrw)
    as (m0 & rest & content & prompt & Hm & Hc & Hb & Hm' & top' & ->).
  cbn [mbind option_bind] in H. rewrite Hm' in H.
  cbn [mbind option_bind] in H.
  destruct (modify_xml_messages_to_tool_calls p _) as [msgs1|] eqn:H1;
    [|discriminate].
  cbn [mbind option_bind] in H.
  destruct (apply_replacement_to_messages msgs1) as [[msgs2 f]|] eqn:H2;
    [|discriminate].
  cbn [mbind option_bind Py.setitem Py.get] in H.
  destruct (written writable (dump_to (message_dump_path cfg) msgs2))
    as [d1|]; [|discriminate].
  cbn [mbind option_bind] in H.
  destruct (written writable (dump_to (tool_dump_path cfg) _)) as [d2|];
    [|discriminate].
  cbn [mbind option_bind] in H. injection H as <-.
  exists m0, rest, content, prompt, msgs1, msgs2. cbn [pr_request pr_parser
    pr_completion Py.getitem]. repeat split; try done. apply assoc_set_same.
Qed.


Lemma rewrite_first_returns cfg top m0 rest r content p prompt :
  Py.assoc "messages" top = Some (JArr (JObj m0 :: rest)) ->
  Py.assoc "role" m0 = Some (JStr r) -> r = "system" \/ r = "user" ->
  Py.assoc "content" m0 = Some content ->
  build_tool_parser (system_prompt_of str content)
                    (negb (disable_strict_schemas cfg)) = Some (p, prompt) ->
  tool_list_ok top ->
  exists request', rewrite_first cfg (JObj top) = Some (request', Some p).
Proof.
  intros Hm Hr Hsu Hc Hb Ht. unfold rewrite_first_message.
  cbn [Py.getitem]. rewrite Hm.
  cbn [mbind option_bind Py.truthy Py.index0 Py.getitem].
  rewrite Hr. cbn [mbind option_bind]. rewrite (system_or_user_str r Hsu).
  rewrite Hc. cbn [mbind option_bind]. rewrite Hb. cbn [mbind option_bind].
  rewrite (set_message0_eq _ _ _ _ _ Hm). cbn [mbind option_bind].
  erewrite set_message0_eq by apply assoc_set_same. cbn [mbind option_bind].
  set (top2 := Py.assoc_set "messages" _ (Py.assoc_set "messages" _ top)).
  assert (Py.assoc "tools" top2 = Py.assoc "tools" top) as Ht2
    by (subst top2; by rewrite !assoc_set_other).
  assert (exists top3, match schemas p with
            | [] => Some (JObj top2)
            | _ :: _ =>
                tools ← Py.get (JObj top2) "tools" JNull;
                sum ← list_add (Py.or_ tools (JArr [])) (schemas p);
                Py.setitem (JObj top2) "tools" sum
            end = Some (JObj top3)) as [top3 ->].
  { destruct (schemas p) as [|x xs]; [eauto|].
    cbn [Py.get mbind option_bind]. rewrite Ht2. unfold tool_list_ok in Ht.
    destruct (Py.assoc "tools" top) as [t|].
    - destruct Ht as [Hf|[ys ->]].
      + unfold Py.or_. rewrite Hf. cbn. eauto.
      + unfold Py.or_. destruct (Py.truthy (JArr ys)); cbn; eauto.
    - cbn. eauto. }
  cbn [mbind option_bind Py.get].
  destruct (force_tool_calling cfg && _); cbn; eauto.
Qed.

Lemma written_dump_to path content :
  can_dump writable path = true ->
  written writable (dump_to path content) = Some (dump_to path content).
Proof.
  unfold can_dump, dump_to, written. destruct path as [p|]; [|done].
  destruct (Py.nonempty p); [|done]. cbn. by intros ->.
Qed.

Lemma unwritable_dump_to path content :
  can_dump writable path = false ->
  written writable (dump_to path content) = None.
Proof.
  unfold can_dump, dump_to, written. destruct path as [p|]; [|done].
  destruct (Py.nonempty p); [|done]. cbn. by intros ->.
Qed.

Lemma process_with_returns cfg top m0 rest r content p prompt msgs1 msgs2 f :
  Py.assoc "messages" top = Some (JArr (JObj m0 :: rest)) ->
  Py.assoc "role" m0 = Some (JStr r) -> r = "system" \/ r = "user" ->
  Py.assoc "content" m0 = Some content ->
  build_tool_parser (system_prompt_of str content)
                    (negb (disable_strict_schemas cfg)) = Some (p, prompt) ->
  tool_list_ok top ->
  modify_xml_messages_to_tool_calls p
    (JArr (rewritten_first m0 prompt :: rest)) = Some msgs1 ->
  apply_replacement_to_messages msgs1 = Some (msgs2, f) ->
  can_dump writable (message_dump_path cfg) = true ->
  can_dump writable (tool_dump_path cfg) = true ->
  exists request' dumps,
    process_with cfg (JObj top) = Some (Processed request' p f dumps)
    /\ Py.getitem request' "messages" = Some msgs2.
Proof.
  intros Hm Hr Hsu Hc Hb Ht H1 H2 Hd1 Hd2.
  destruct (rewrite_first_returns cfg top m0 rest r content p prompt)
    as [request' Hrw]; try done.
  destruct (rewrite_first_inv _ _ _ _ Hrw)
    as (m0' & rest' & content' & prompt' & Hm' & Hc' & Hb' & Hmsg & top' & ->).
  cbn [Py.getitem] in Hm'. rewrite Hm in Hm'. injection Hm' as <- <-.
  rewrite Hc in Hc'. injection Hc' as <-. rewrite Hb in Hb'.
  injection Hb' as <-.
  unfold process_request_with. rewrite Hrw. cbn [mbind option_bind].
  rewrite Hmsg. cbn [mbind option_bind]. rewrite H1.
  cbn [mbind option_bind]. rewrite H2.
  cbn [mbind option_bind Py.setitem Py.get].
  rewrite !written_dump_to by done. cbn [mbind option_bind].
  do 2 eexists.
  split; [reflexivity|]. cbn [Py.getitem]. apply assoc_set_same.
Qed.

Lemma process_with_unwritable cfg request :
  can_dump writable (message_dump_path cfg) = false
  \/ can_dump writable (tool_dump_path cfg) = false ->
  process_with cfg request = None.
Proof.
  intros Hd. unfold process_request_with.
  destruct (rewrite_first cfg request) as [[request' [p|]]|]; try done.
  cbn [mbind option_bind].
  destruct (Py.getitem request' "messages") as [msgs|]; [|done].
  cbn [mbind option_bind].
  destruct (modify_xml_messages_to_tool_calls p msgs) as [msgs1|]; [|done].
  cbn [mbind option_bind].
  destruct (apply_replacement_to_messages msgs1) as [[msgs2 f]|]; [|done].
  cbn [mbind option_bind].
  destruct (Py.setitem request' "messages" msgs2) as [request''|]; [|done].
  cbn [mbind option_bind].
  destruct (written writable (dump_to (message_dump_path cfg) msgs2))
    as [d1|] eqn:H1; [|done].
  cbn [mbind option_bind].
  destruct (Py.get request'' "tools" JNull) as [tools|]; [|done].
  cbn [mbind option_bind].
  destruct Hd as [Hd|Hd].
  - by rewrite unwritable_dump_to in H1.
  - by rewrite unwritable_dump_to.
Qed.

Lemma process_with_ineligible cfg request m0 rest r :
  Py.getitem request "messages" = Some (JArr [])
  \/ (Py.getitem request "messages" = Some (JArr (m0 :: rest))
      /\ Py.getitem m0 "role" = Some r /\ system_or_user r = false) ->
  rewrite_first cfg request = Some (request, None)
  /\ process_with cfg request = None.
Proof.
  intros Hcase.
  assert (rewrite_first cfg request = Some (request, None)) as Hrw.
  { unfold rewrite_first_message.
    destruct Hcase as [-> | (-> & Hr & Hsu)]; cbn [mbind option_bind
      Py.truthy Py.index0]; [done|].
    rewrite Hr. cbn [mbind option_bind]. by rewrite Hsu. }
  split; [exact Hrw|]. unfold process_request_with. by rewrite Hrw.
Qed.

End RequestFacts.

Section SpecModelledRewrite.

Variable build_tool_parser : json -> bool -> option (Parser * string).
Variable str : json -> string.
Variable writable : string -> bool.
Variable has_embedded_tags : json -> bool.
Variable split : json -> list json.
Variable rules : list (string -> string).
Variable completion_transform : string -> string.

(** The parsers that [build_tool_parser] returns rewrite messages as the
    specification says. *)
Hypothesis parser_follows_spec :
  forall prompt strict p prompt',
    build_tool_parser prompt strict = Some (p, prompt') ->
    modify_xml_messages_to_tool_calls p
    = to_backend_messages has_embedded_tags split.

(** C7 (amended).  [process_request] itself changes the first message only,
    and changes it always: its role becomes "system" and its content the
    prompt rewritten by the schema synthesis, also for a "user" message
    without tags.  The messages then go, in order, through the Message
    Rewriter and the Replacement Pipeline: a later message without embedded
    tags passes the rewriter unchanged and comes out with only the
    pipeline's substitutions applied to its text. *)
Theorem request_rewrite_changes_first_message cfg request pr :
  process_request_with build_tool_parser
    (replace_in_messages rules completion_transform) str writable cfg request
  = Some pr ->
  exists m0 rest r content prompt,
    Py.getitem request "messages" = Some (JArr (JObj m0 :: rest))
    /\ Py.assoc "role" m0 = Some (JStr r) /\ (r = "system" \/ r = "user")
    /\ Py.assoc "content" m0 = Some content
    /\ build_tool_parser (system_prompt_of str content)
                        (negb (disable_strict_schemas cfg))
       = Some (pr_parser pr, prompt)
    /\ Py.getitem (pr_request pr) "messages"
       = Some (JArr (map (replace_in_message rules)
                       (flat_map
                          (fun m => if has_embedded_tags m then split m
                                    else [m])
                          (rewritten_first m0 prompt :: rest))))
    /\ (forall m, In m rest -> has_embedded_tags m = false ->
          exists out,
            Py.getitem (pr_request pr) "messages" = Some (JArr out)
            /\ In (replace_in_message rules m) out).
Proof.
  intros H.
  destruct (process_with_eligible _ _ _ _ _ _ _ H) as (m0 & rest & r & Hm & Hr & Hsu).
  destruct (process_with_inv _ _ _ _ _ _ _ H)
    as (m0' & rest' & content & prompt & msgs1 & msgs2
        & Hm' & Hc & Hb & H1 & H2 & Hout).
  rewrite Hm in Hm'. injection Hm' as <- <-.
  rewrite (parser_follows_spec _ _ _ _ Hb) in H1.
  unfold to_backend_messages in H1. injection H1 as <-.
  unfold replace_in_messages in H2. injection H2 as <- _.
  exists m0, rest, r, content, prompt.
  refine (conj Hm (conj Hr (conj Hsu (conj Hc (conj Hb (conj Hout _)))))).
  intros m Hin Htag. eexists. split; [exact Hout|].
  apply in_map, in_or_app. right. apply in_flat_map. exists m.
  split; [exact Hin|]. rewrite Htag. by left.
Qed.

End SpecModelledRewrite.

(** ** The endpoint *)

Lemma get_config_stored environment g :
  snd (get_config environment g) = Some (fst (get_config environment g)).
Proof. by destruct g. Qed.

Lemma api_update_configs_stored environment payloads : forall cfg,
  api_update_configs environment payloads (Some cfg)
  = Some (fold_left model_copy payloads cfg).
Proof.
  unfold api_update_configs. induction payloads as [|data payloads IH];
    intros cfg; [done|]. cbn [fold_left]. apply IH.
Qed.

Ltac unfold_complete := unfold complete.
Ltac unfold_complete_in H := unfold complete in H.
Ltac unfold_create_completion := unfold create_completion.

Section EndpointFacts.

Variable environment : RuntimeConfig.
Variable build_tool_parser : json -> bool -> option (Parser * string).
Variable apply_replacement_to_messages :
  json -> option (json * (string -> string)).
Variable str : json -> string.
Variable writable : string -> bool.
Variable backend : backend_call -> response.

Local Abbreviation complete := (complete environment backend).
Local Abbreviation create_completion :=
  (create_completion environment build_tool_parser
     apply_replacement_to_messages str writable backend).

(** C5 (amended).  When the backend answers with an error status: a
    streaming request yields the error payload as one event line followed
    by the terminal sentinel, with no reconstruction and no flush; a
    non-streaming request whose error body is a JSON document gets the
    backend's status code and that document. *)
Theorem backend_error_is_surfaced g p headers is_disconnected stream :
  let cfg := fst (get_config environment g) in
  let call := BackendCall (target_base_url cfg +:+ "/chat/completions")
                          (pr_request p) headers in
  let r := backend call in
  is_error r = true ->
  Py.get (pr_request p) "stream" JNull = Some stream ->
  (Py.truthy stream = true ->
   fst (complete g p headers is_disconnected)
   = Some (call, StreamingResponse [ErrorBody (text r); DoneLiteral] Exhausted))
  /\ (Py.truthy stream = false ->
      forall content, body_json r = Some content ->
      fst (complete g p headers is_disconnected)
      = Some (call, JSONResponse (status_code r) content)).
Proof.
  cbv zeta. unfold_complete.
  destruct (get_config environment g) as [cfg g']. cbn [fst].
  intros He Hs. rewrite Hs. cbn [mbind option_bind]. split.
  - intros ->. unfold handle_stream_response. by rewrite He.
  - intros -> content Hc. by rewrite He, Hc.
Qed.

(** C8 (amended).  The configuration is a process-wide object that
    [update_config] replaces.  [process_request] reads it once (line 90)
    and rewrites the request with that value; the base URL is read again
    when the backend call is issued, and is that of the configuration after
    the updates that ran in between; the two reads agree when none did. *)
Theorem configuration_is_read_twice payloads g headers request
  is_disconnected call resp g' :
  create_completion payloads g headers request is_disconnected
  = (Some (call, resp), g') ->
  let cfg := fst (get_config environment g) in
  let cfg' := fold_left model_copy payloads cfg in
  (exists p,
     process_request_with build_tool_parser apply_replacement_to_messages
                          str writable cfg request = Some p
     /\ call_json call = pr_request p)
  /\ call_url call = target_base_url cfg' +:+ "/chat/completions"
  /\ g' = Some cfg'
  /\ (payloads = [] ->
      call_url call = target_base_url cfg +:+ "/chat/completions").
Proof.
  unfold_create_completion. unfold prepare_completion, process_request.
  intros H. cbv zeta.
  pose proof (get_config_stored environment g) as Hst.
  destruct (get_config environment g) as [c g1] eqn:Hg. cbn [fst snd] in *.
  subst g1.
  destruct (process_request_with _ _ _ _ c request) as [p|] eqn:Hp;
    cbn [mbind option_bind] in H; [|discriminate].
  rewrite api_update_configs_stored in H.
  set (cfg' := fold_left model_copy payloads c) in *.
  unfold_complete_in H. cbn [get_config] in H.
  destruct (Py.get (pr_request p) "stream" JNull) as [stream|];
    cbn [mbind option_bind] in H; [|discriminate].
  assert (call = BackendCall (target_base_url cfg' +:+ "/chat/completions")
                            (pr_request p) (forwarded_headers headers)
          /\ g' = Some cfg') as [-> ->].
  { destruct (Py.truthy stream).
    - destruct (handle_stream_response _ _ _ _). by injection H as <- _ <-.
    - destruct (is_error _).
      + destruct (body_json _); cbn in H; [|discriminate].
        by injection H as <- _ <-.
      + destruct (body_json _); cbn in H; [|discriminate].
        destruct (modify_tool_calls_to_xml_messages _ _ _); cbn in H;
          [|discriminate].
        by injection H as <- _ <-. }
  repeat split; [by exists p|]. by intros ->.
Qed.

End EndpointFacts.

(** ** The claims on sample streams *)

(** C1, as stated, fails: the event forwarded for a tool-call fragment still
    has its [tool_calls] array and its [reasoning_content]. *)
Lemma tool_call_fields_are_forwarded :
  ~ (forall o d,
       In o (fst (handle_stream_response plain_parser unchanged
                    (ok_stream leaking_lines) never)) ->
       wire_json o = Some d ->
       cleared d "tool_calls" /\ cleared d "reasoning_content").
Proof.
  intros H.
  destruct (H (Data reasoned_fragment) reasoned_fragment) as [H1 _].
  - vm_compute. left. reflexivity.
  - reflexivity.
  - vm_compute in H1. discriminate.
Qed.

(** C2, as stated, fails: a finish reason "tool_calls" inside the choice,
    where the chat-completion protocol puts it, is forwarded as it is. *)
Lemma nested_finish_reason_is_forwarded :
  ~ (forall o d,
       In o (fst (handle_stream_response plain_parser unchanged
                    (ok_stream leaking_lines) never)) ->
       wire_json o = Some d ->
       choice_finish_reason d <> Some (JStr "tool_calls")
       /\ Py.get d "finish_reason" JNull <> Some (JStr "tool_calls")).
Proof.
  intros H.
  destruct (H (Data (closing_event "tool_calls")) (closing_event "tool_calls"))
    as [H1 _].
  - vm_compute. right. right. left. reflexivity.
  - reflexivity.
  - apply H1. reflexivity.
Qed.

(** A top-level "tool_calls" is remapped on line 198 only: when the event is
    itself the carrier of the flush of line 196, the flushed line is yielded
    before the remap and still has it. *)
Remark flushed_carrier_keeps_top_level_reason :
  exists call carrier rest,
    fst (handle_stream_response plain_parser unchanged
           (ok_stream
              [LData (finished_fragment_event 0 "call_1" "read_file" "{}"
                                             "tool_calls")])
           never)
    = Flush call carrier :: rest
    /\ Py.get carrier "finish_reason" JNull = Some (JStr "tool_calls").
Proof. vm_compute. do 3 eexists. split; reflexivity. Qed.

Lemma one_call_one_flush_witness :
  exists final carrier,
    last two_fragment_events = Some final
    /\ Py.set_content final (tagged_text "read_file" "{}" "call_1" "")
       = Some carrier
    /\ handle_stream_response plain_parser unchanged
         (ok_stream (map LData two_fragment_events
                     ++ [LData (closing_event "tool_calls")])) never
       = (map Data two_fragment_events
          ++ [Flush (CallArgs "read_file" "{}" "call_1" "") carrier;
              Data (closing_event "tool_calls")],
          Exhausted).
Proof.
  apply (one_call_one_flush plain_parser unchanged 0 0 two_fragment_events
           [Piece true "read_file" "{" "call_1" "";
            Piece false "" "}" "" ""]
           (closing_event "tool_calls") "").
  - repeat constructor.
  - eexists _, _. split; reflexivity.
  - reflexivity.
  - vm_compute. discriminate.
Defined.

(** C3, as stated, fails: a tool call whose arguments text is empty yields
    no flush at all. *)
Lemma empty_arguments_yield_no_flush :
  Forall2 (fun j p => tool_call_piece 0 0 j = Some p)
          [fragment_event 0 "call_1" "list_files" ""]
          [Piece true "list_files" "" "call_1" ""]
  /\ closing_piece (closing_event "tool_calls") = Some ""
  /\ filter is_flush
        (fst (handle_stream_response plain_parser unchanged
                (ok_stream no_arguments_lines) never))
     = [].
Proof. split; [repeat constructor|]. split; reflexivity. Qed.

Lemma open_fragment_is_flushed_first_witness :
  let s := state_after (LData (fragment_event 0 "call_1" "read_file" "{}")) in
  let j := fragment_event 1 "call_2" "list_files" "{}" in
  exists v b chunk',
    read_event s j = Some v
    /\ last_chunk s = Some b
    /\ on_data plain_parser unchanged j s
       = prepend
           (Flush (CallArgs "read_file" "{}" "call_1" "") chunk')
           (after_reasoning plain_parser unchanged (length (heap s)) v
              (flushed b chunk'
                 (with_reasoning "" (with_heap (heap s ++ [j]) s)))).
Proof.
  intros s j.
  destruct (read_event s j) as [v|] eqn:Hv; [|vm_compute in Hv; discriminate].
  destruct (open_fragment_is_flushed_first plain_parser unchanged s j v "")
    as (b & chunk' & Hl & Hrun).
  - eapply (reachable_next _ _ initial_state
              (LData (fragment_event 0 "call_1" "read_file" "{}")));
      [apply reachable_initial | reflexivity].
  - vm_compute. discriminate.
  - exact Hv.
  - injection Hv as <-. reflexivity.
  - injection Hv as <-. reflexivity.
  - exists v, b, chunk'. repeat split; assumption.
Defined.

(** C4, as stated, fails when the open fragment has a name and an id but no
    arguments text yet: the event with the next call index yields no flush,
    and its pieces are appended to those of the first call. *)
Lemma name_only_fragment_is_not_flushed :
  let s := state_after (LData (fragment_event 0 "call_a" "alpha" "")) in
  let j := fragment_event 1 "call_b" "beta" "{}" in
  (tool_name s = "alpha" /\ tool_call_id s = "call_a")
  /\ (exists v, read_event s j = Some v /\ flush_trigger s v = true)
  /\ exists s',
       on_data plain_parser unchanged j s = ([Data j], Some (tt, s'))
       /\ tool_name s' = "alphabeta" /\ tool_call_id s' = "call_acall_b".
Proof.
  vm_compute. split; [by split|]. split; eexists; split; try reflexivity.
  by split.
Qed.

Lemma disconnection_stops_the_stream_witness :
  let r := ok_stream two_fragment_lines in
  let disc := fun n => (2 <=? n)%nat in
  fst (handle_stream_response plain_parser unchanged r disc)
  = fst (handle_stream_response plain_parser unchanged
           (truncated r (map LData two_fragment_events)) disc)
  /\ (is_error r = false ->
      [LData (closing_event "tool_calls"); done_line] <> [] ->
      snd (handle_stream_response plain_parser unchanged r disc) <> Exhausted).
Proof.
  intros r disc.
  apply (disconnection_stops_the_stream plain_parser unchanged r disc
           (map LData two_fragment_events)
           [LData (closing_event "tool_calls"); done_line]);
    reflexivity.
Defined.

(** The third end-to-end scenario: the client is found disconnected at the
    poll after the second event; the two events were forwarded, the open
    fragment is not flushed, nothing else is yielded. *)
Example disconnect_after_two_events :
  handle_stream_response plain_parser unchanged (ok_stream two_fragment_lines)
                         (fun n => (2 <=? n)%nat)
  = (map Data two_fragment_events, Cancelled).
Proof. reflexivity. Qed.


(** ** The claims on sample requests *)

Lemma plain_parser_follows_spec prompt strict p prompt' :
  plain_build_tool_parser prompt strict = Some (p, prompt') ->
  modify_xml_messages_to_tool_calls p
  = to_backend_messages (fun _ => false) (fun m => [m]).
Proof.
  destruct prompt; try discriminate. by intros [= <- _].
Defined.

Lemma request_rewrite_changes_first_message_witness :
  exists m0 rest r content prompt,
    Py.getitem conversation "messages" = Some (JArr (JObj m0 :: rest))
    /\ Py.assoc "role" m0 = Some (JStr r) /\ (r = "system" \/ r = "user")
    /\ Py.assoc "content" m0 = Some content
    /\ plain_build_tool_parser (system_prompt_of str_of_text content)
                              (negb (disable_strict_schemas sample_config))
       = Some (plain_parser, prompt)
    /\ Py.getitem conversation_rewritten "messages"
       = Some (JArr (map (replace_in_message [])
                       (flat_map (fun m => if false then [m] else [m])
                                 (rewritten_first m0 prompt :: rest))))
    /\ (forall m, In m rest -> false = false ->
          exists out,
            Py.getitem conversation_rewritten "messages" = Some (JArr out)
            /\ In (replace_in_message [] m) out).
Proof.
  apply (request_rewrite_changes_first_message plain_build_tool_parser
           str_of_text any_path (fun _ => false) (fun m => [m]) []
           (fun t => t)
           plain_parser_follows_spec sample_config conversation
           (Processed conversation_rewritten plain_parser (fun t => t) [])).
  reflexivity.
Defined.

(** C7, as stated, fails: a first message from the user, without any tag,
    does not keep its role. *)
Lemma first_user_message_becomes_system :
  process_request_with plain_build_tool_parser no_rules str_of_text any_path
                       sample_config hello_request
  = Some (Processed hello_rewritten plain_parser (fun t => t) [])
  /\ Py.getitem hello_request "messages"
     = Some (JArr [JObj [("role", JStr "user"); ("content", JStr "hello")]])
  /\ Py.getitem hello_rewritten "messages"
     = Some (JArr [JObj [("role", JStr "system"); ("content", JStr "hello")]])
  /\ JStr "user" <> JStr "system".
Proof. repeat split; try reflexivity. discriminate. Qed.

Lemma backend_error_is_surfaced_witness :
  let p := Processed hello_rewritten plain_parser unchanged [] in
  let call := BackendCall "http://backend/v1/chat/completions"
                          hello_rewritten [] in
  (Py.truthy JNull = true ->
   fst (complete sample_config rate_limited None p [] never)
   = Some (call, StreamingResponse
                   [ErrorBody "rate limit reached"; DoneLiteral] Exhausted))
  /\ (Py.truthy JNull = false ->
      forall content, Some rate_limit_error = Some content ->
      fst (complete sample_config rate_limited None p [] never)
      = Some (call, JSONResponse 429 content)).
Proof.
  intros p call.
  apply (backend_error_is_surfaced sample_config rate_limited None p [] never
           JNull); reflexivity.
Defined.

(** The streaming case on a sample: the error payload, the sentinel, and
    nothing else, whatever lines the response would have had. *)
Example streaming_error_bypasses_reconstruction :
  handle_stream_response plain_parser unchanged
    (Response true 429 "rate limit reached" None two_fragment_lines) never
  = ([ErrorBody "rate limit reached"; DoneLiteral], Exhausted).
Proof. reflexivity. Qed.

(** C5, as stated, fails for the non-streaming case: when the error body is
    not JSON, [r.json()] raises and neither the status nor the body reaches
    the client. *)
Lemma non_json_error_body_is_lost :
  let p := Processed hello_rewritten plain_parser unchanged [] in
  is_error (bad_gateway (BackendCall "http://backend/v1/chat/completions"
                                     hello_rewritten [])) = true
  /\ Py.get (pr_request p) "stream" JNull = Some JNull
  /\ fst (complete sample_config bad_gateway None p [] never) = None.
Proof. repeat split; reflexivity. Qed.

Lemma configuration_is_read_twice_witness :
  let cfg := fst (get_config sample_config None) in
  let cfg' := fold_left model_copy [move_backend] cfg in
  (exists p,
     process_request_with plain_build_tool_parser no_rules str_of_text any_path
                          cfg hello_request = Some p
     /\ hello_rewritten = pr_request p)
  /\ "http://other/v1/chat/completions"
     = target_base_url cfg' +:+ "/chat/completions"
  /\ Some (MkConfig "http://other/v1" None None false false) = Some cfg'
  /\ ([move_backend] = [] ->
      "http://other/v1/chat/completions"
      = target_base_url cfg +:+ "/chat/completions").
Proof.
  apply (configuration_is_read_twice sample_config plain_build_tool_parser
           no_rules str_of_text any_path echo_backend [move_backend] None []
           hello_request never
           (BackendCall "http://other/v1/chat/completions" hello_rewritten [])
           (JSONResponse 200
              (JObj [("url", JStr "http://other/v1/chat/completions")]))
           (Some (MkConfig "http://other/v1" None None false false))).
  reflexivity.
Defined.

(** C8, as stated, fails: [process_request] read a configuration whose base
    URL is the first one; after an update through [POST /api/config], the
    backend call of the same request goes to the new one. *)
Lemma update_between_the_two_reads :
  target_base_url (fst (get_config sample_config None)) = "http://backend/v1"
  /\ create_completion sample_config plain_build_tool_parser no_rules
       str_of_text any_path echo_backend [move_backend] None [] hello_request
       never
     = (Some (BackendCall "http://other/v1/chat/completions" hello_rewritten [],
              JSONResponse 200
                (JObj [("url", JStr "http://other/v1/chat/completions")])),
        Some (MkConfig "http://other/v1" None None false false)).
Proof. split; reflexivity. Qed.

(** ** More on the reconstructor *)

Lemma sat_outputs_impl {A : Type} (m : gen A) s (O O' : sse -> Prop)
  (Q : A -> state -> Prop) :
  (forall o, O o -> O' o) -> sat m s O Q -> sat m s O' Q.
Proof.
  intros H [H1 H2]. split; [|exact H2]. eapply Forall_impl; [exact H1|exact H].
Qed.

Lemma data_of_app o1 o2 : data_of (o1 ++ o2) = data_of o1 ++ data_of o2.
Proof. unfold data_of. by rewrite flat_map_app. Qed.

Lemma payloads_app l1 l2 : payloads (l1 ++ l2) = payloads l1 ++ payloads l2.
Proof. unfold payloads. by rewrite flat_map_app. Qed.

Lemma set_content_content d t d' :
  Py.set_content d t = Some d' -> delta_field d' "content" = Some (JStr t).
Proof.
  unfold Py.set_content. intros H.
  destruct d as [| | | | |top]; try discriminate.
  destruct (Py.assoc "choices" top) as [[| | | |[|[| | | | |ch] more]|]|] eqn:Ech;
    try discriminate.
  destruct (Py.assoc "delta" ch) as [[| | | | |dl]|] eqn:Edl; try discriminate.
  injection H as <-. unfold delta_field, Py.getitem. cbn [mbind option_bind].
  rewrite assoc_set_same. cbn [Py.index0 mbind option_bind].
  rewrite assoc_set_same. cbn [mbind option_bind]. apply assoc_set_same.
Qed.

Section StreamOrder.

Variable parser : Parser.
Variable apply_replacement_to_completion : string -> string.

Local Abbreviation create_tool_call :=
  (create_tool_call parser apply_replacement_to_completion).
Local Abbreviation assistant_branch :=
  (assistant_branch parser apply_replacement_to_completion).
Local Abbreviation flush_on_finish_reason :=
  (flush_on_finish_reason parser apply_replacement_to_completion).
Local Abbreviation finish := (finish parser apply_replacement_to_completion).
Local Abbreviation after_reasoning :=
  (after_reasoning parser apply_replacement_to_completion).
Local Abbreviation on_data := (on_data parser apply_replacement_to_completion).
Local Abbreviation on_line := (on_line parser apply_replacement_to_completion).
Local Abbreviation stream_loop :=
  (stream_loop parser apply_replacement_to_completion).
Local Abbreviation handle_stream_response :=
  (handle_stream_response parser apply_replacement_to_completion).
Local Abbreviation render := (render parser apply_replacement_to_completion).
Local Abbreviation rendered :=
  (rendered parser apply_replacement_to_completion).
Local Abbreviation flushes_rendered :=
  (flushes_rendered parser apply_replacement_to_completion).
Local Abbreviation reachable :=
  (reachable parser apply_replacement_to_completion).

(** *** Every flush carries the text of the codec *)

Lemma flush_site_rendered (c : bool) s :
  sat (when (c && Py.nonempty (buffer s)) create_tool_call) s rendered
      (fun _ _ => True).
Proof.
  apply sat_when; [|done].
  intros [_ Hb%nonempty_iff]%andb_true_iff. split; [|done].
  rewrite (create_tool_call_eq parser apply_replacement_to_completion).
  destruct (last_chunk s) as [b|]; [|constructor].
  destruct (heap s !! b) as [chunk|]; [|constructor].
  destruct (Py.set_content chunk _) as [chunk'|] eqn:Hs; [|constructor].
  repeat constructor; [exact Hb|]. by eapply set_content_content.
Qed.

Lemma assistant_branch_rendered a tcs s :
  sat (assistant_branch a tcs) s rendered (fun _ _ => True).
Proof.
  unfold_assistant_branch. do 2 sat_step. sat_step.
  eapply sat_bind; [apply (flush_site_rendered _ s)|]. cbv beta.
  intros [] s1 _. destruct (Py.truthy _); [|by apply sat_ret].
  do 2 sat_step. sat_step. do 6 sat_step. by apply sat_write.
Qed.

Lemma flush_on_finish_reason_rendered a s :
  sat (flush_on_finish_reason a) s rendered (fun _ _ => True).
Proof.
  unfold_flush_on_finish_reason. sat_step. do 2 sat_step.
  apply flush_site_rendered.
Qed.

Lemma set_content_again j d text d' :
  content_replaced j d -> Py.set_content d text = Some d' ->
  content_replaced j d'.
Proof.
  intros [->|[t0 H0]] H; right; exists text; [exact H|].
  unfold Py.set_content in *.
  destruct j as [| | | | |top]; try discriminate.
  destruct (Py.assoc "choices" top) as [[| | | |[|[| | | | |ch] more]|]|] eqn:Ech;
    try discriminate.
  destruct (Py.assoc "delta" ch) as [[| | | | |dl]|] eqn:Edl; try discriminate.
  injection H0 as <-. rewrite assoc_set_same in H.
  rewrite assoc_set_same in H. injection H as <-.
  by rewrite !assoc_set_twice.
Qed.

Lemma forwarded_keeps j : keeps_choice j (forwarded j).
Proof.
  unfold forwarded. destruct j as [| | | | |kvs]; try apply keeps_choice_refl.
  destruct (Py.assoc "finish_reason" kvs) as [fr|];
    [|apply keeps_choice_refl].
  destruct (Py.eq fr (JStr "tool_calls")); [|apply keeps_choice_refl].
  by apply (setitem_finish_keeps (JObj kvs) (JStr "stop")).
Qed.

Lemma forwards_keeps j d : forwards j d -> keeps_choice j d.
Proof.
  intros (j' & Hj' & ->). eapply keeps_choice_trans; [|apply forwarded_keeps].
  destruct Hj' as [->|[text Hs]]; [apply keeps_choice_refl|].
  by apply set_content_keeps in Hs as [? _].
Qed.

(** *** The event being processed is changed by the flushes only *)

Section ExactEvent.

Variable j : json.    (* the upstream payload *)
Variable a : nat.     (* its address *)

Lemma flush_site_exact (c : bool) s :
  exact_cell j a s ->
  sat (when (c && Py.nonempty (buffer s)) create_tool_call) s rendered
      (fun _ s' => exact_cell j a s').
Proof.
  intros Hc. apply sat_when; [|done].
  intros [_ Hb%nonempty_iff]%andb_true_iff. unfold sat.
  rewrite (create_tool_call_eq parser apply_replacement_to_completion).
  destruct (last_chunk s) as [b|]; [|split; [constructor|discriminate]].
  destruct (heap s !! b) as [chunk|] eqn:Hh;
    [|split; [constructor|discriminate]].
  destruct (Py.set_content chunk _) as [chunk'|] eqn:Hs;
    [|split; [constructor|discriminate]].
  split; cbn [fst snd].
  - repeat constructor; [exact Hb|]. by eapply set_content_content.
  - intros [] s' [= <-]. destruct Hc as (d & Hd & Hr).
    unfold exact_cell, flushed. cbn [heap].
    destruct (decide (b = a)) as [->|Hne].
    + rewrite Hd in Hh. injection Hh as ->. exists chunk'.
      split; [apply list_lookup_insert_eq; by eapply lookup_lt_Some|].
      by eapply set_content_again.
    + exists d. by rewrite list_lookup_insert_ne.
Qed.

Lemma assistant_branch_exact tcs s :
  exact_cell j a s ->
  sat (assistant_branch a tcs) s rendered (fun _ s' => exact_cell j a s').
Proof.
  intros Hc. unfold_assistant_branch. do 2 sat_step. sat_step.
  eapply sat_bind; [by apply flush_site_exact|]. cbv beta.
  intros [] s1 Hc1. destruct (Py.truthy _); [|by apply sat_ret].
  do 2 sat_step. sat_step. do 6 sat_step. by apply sat_write.
Qed.

Lemma flush_on_finish_reason_exact s :
  exact_cell j a s ->
  sat (flush_on_finish_reason a) s rendered (fun _ s' => exact_cell j a s').
Proof.
  intros Hc. unfold_flush_on_finish_reason. sat_step. do 2 sat_step.
  by apply flush_site_exact.
Qed.

(** What [forward] yields: the event, with its finish reason remapped, and
    nothing when it raises. *)
Lemma forward_outcome s :
  exact_cell j a s ->
  event_outcome parser apply_replacement_to_completion (forwards j)
                (forward a s).
Proof.
  intros (d & Hd & Hr). unfold event_outcome. unfold_forward.
  rewrite bind_read_eq, Hd. cbn [lift]. rewrite bind_ret_eq.
  destruct d as [| | | | |kvs]; try (cbn; constructor).
  cbn [Py.get lift]. rewrite bind_ret_eq.
  assert (forwards j (forwarded (JObj kvs))) as Hf by (by exists (JObj kvs)).
  unfold forwarded in Hf.
  destruct (Py.assoc "finish_reason" kvs) as [fr|].
  - destruct (Py.eq fr (JStr "tool_calls")).
    + cbn [Py.setitem lift]. rewrite bind_assoc_eq, bind_ret_eq.
      rewrite bind_write_eq, bind_read_eq. cbn [with_heap heap].
      rewrite list_lookup_insert_eq by (by eapply lookup_lt_Some).
      cbn [lift]. rewrite bind_ret_eq. cbn [yield fst snd].
      by exists [], (JObj (Py.assoc_set "finish_reason" (JStr "stop") kvs)).
    + rewrite bind_ret_eq, bind_read_eq, Hd. cbn [lift].
      rewrite bind_ret_eq. cbn [yield fst snd]. by exists [], (JObj kvs).
  - cbn [Py.eq]. rewrite bind_ret_eq, bind_read_eq, Hd. cbn [lift].
    rewrite bind_ret_eq. cbn [yield fst snd]. by exists [], (JObj kvs).
Qed.

(** A generator that yields only flushes, followed by one that ends with
    the event. *)
Lemma outcome_bind {A : Type} (m : gen A) (f : A -> gen unit) s
  (Q : A -> state -> Prop) (P : json -> Prop) :
  sat m s rendered Q ->
  (forall x s1, Q x s1 ->
     event_outcome parser apply_replacement_to_completion P (f x s1)) ->
  event_outcome parser apply_replacement_to_completion P (bind m f s).
Proof.
  intros [Hm HQ] Hf. unfold event_outcome, bind in *.
  destruct (m s) as [o1 [[x s1]|]]; cbn [fst snd] in *; [|exact Hm].
  specialize (Hf x s1 (HQ _ _ eq_refl)).
  destruct (f x s1) as [o2 [r2|]]; cbn [fst snd] in *.
  - destruct Hf as (fl & d & -> & Hfl & Hd).
    exists (o1 ++ fl), d. rewrite app_assoc. split; [done|].
    split; [by apply Forall_app|done].
  - by apply Forall_app.
Qed.

Lemma after_reasoning_outcome v s :
  exact_cell j a s ->
  event_outcome parser apply_replacement_to_completion (forwards j)
                (after_reasoning a v s).
Proof.
  intros Hc. unfold_after_reasoning. rewrite bind_read_eq.
  eapply outcome_bind; [by apply flush_site_exact|].
  intros [] s1 Hc1. rewrite bind_read_eq, bind_write_eq.
  eapply outcome_bind with (Q := fun _ s' => exact_cell j a s').
  { destruct (Py.eq _ _); [by apply assistant_branch_exact|by apply sat_ret]. }
  intros [] s2 Hc2. unfold_finish.
  eapply outcome_bind; [by apply flush_on_finish_reason_exact|].
  intros [] s3 Hc3. by apply forward_outcome.
Qed.

End ExactEvent.

Lemma on_data_outcome j s :
  event_outcome parser apply_replacement_to_completion (forwards j)
                (on_data j s).
Proof.
  unfold_on_data. rewrite bind_read_eq. cbv zeta. rewrite bind_write_eq.
  destruct (read_event s j) as [v|]; cbn [lift];
    [rewrite bind_ret_eq|constructor].
  rewrite bind_read_eq.
  destruct (Py.str_add _ _) as [rc|]; cbn [lift];
    [rewrite bind_ret_eq|constructor].
  rewrite bind_write_eq. apply after_reasoning_outcome.
  exists j. split; [by apply list_lookup_middle|by left].
Qed.

Lemma rendered_no_data fl : Forall rendered fl -> data_of fl = [].
Proof.
  induction 1 as [|x fl Hx _ IH]; [done|].
  by destruct x.
Qed.

(** What one line adds to the forwarded events: the event of a data line
    that is processed to its end, and nothing otherwise. *)
Lemma on_line_data_of l s :
  match snd (on_line l s) with
  | Some _ => Forall2 forwards (payloads [l]) (data_of (fst (on_line l s)))
  | None => data_of (fst (on_line l s)) = []
  end.
Proof.
  destruct l as [t|t|j|t]; cbn [on_line payloads flat_map app].
  - constructor.
  - rewrite bind_read_eq. unfold bind.
    destruct (Py.nonempty (buffer s)) eqn:Hb; cbn [when]; [|constructor].
    rewrite (create_tool_call_eq parser apply_replacement_to_completion).
    destruct (last_chunk s) as [b|]; [|done].
    destruct (heap s !! b) as [chunk|]; [|done].
    destruct (Py.set_content chunk _); [|done]. constructor.
  - pose proof (on_data_outcome j s) as H. unfold event_outcome in H.
    destruct (snd (on_data j s)).
    + destruct H as (fl & d & -> & Hfl & Hd).
      rewrite data_of_app, (rendered_no_data _ Hfl). by repeat constructor.
    + by apply rendered_no_data.
  - done.
Qed.

Lemma payloads_cons l lines :
  payloads (l :: lines) = payloads [l] ++ payloads lines.
Proof. change (l :: lines) with ([l] ++ lines). apply payloads_app. Qed.

(** The forwarded events are the payloads of the data lines that were
    processed to their end, in order: a prefix of all payloads, and all of
    them when the upstream iterator is exhausted. *)
Lemma stream_loop_forwarded disc lines : forall k s,
  exists js,
    js `prefix_of` payloads lines
    /\ Forall2 forwards js (data_of (fst (fst (stream_loop disc k lines s))))
    /\ (snd (fst (stream_loop disc k lines s)) = Exhausted ->
        js = payloads lines).
Proof.
  induction lines as [|l rest IH]; intros k s; cbn [stream_loop].
  - exists []. split; [done|]. split; [constructor|done].
  - destruct (disc k).
    { exists []. split; [apply prefix_nil|]. split; [constructor|done]. }
    pose proof (on_line_data_of l s) as Hl.
    destruct (on_line l s) as [o1 [[[] s1]|]]; cbn [fst snd] in *.
    + destruct (IH (S k) s1) as (js & Hpre & Hall & Hex).
      destruct (stream_loop disc (S k) rest s1) as [[o2 e] s2].
      cbn [fst snd] in *. exists (payloads [l] ++ js).
      rewrite (payloads_cons l rest), data_of_app.
      split; [by apply prefix_app|].
      split; [by apply Forall2_app|]. intros He. by rewrite Hex.
    + exists []. split; [apply prefix_nil|]. rewrite Hl.
      split; [constructor|done].
Qed.


(** C1 (amended).  The reconstructor clears nothing.  However the stream
    ends, the events forwarded on line 199 are upstream events in their
    order of arrival: the i-th forwarded event is the i-th upstream event,
    and its delta has the [tool_calls] and the [reasoning_content] that
    event arrived with, as it has every field of the delta other than
    [content]. *)
Theorem forwarded_event_keeps_delta_fields r disc i d :
  data_of (fst (handle_stream_response r disc)) !! i = Some d ->
  exists j,
    payloads (aiter_lines r) !! i = Some j
    /\ delta_field d "tool_calls" = delta_field j "tool_calls"
    /\ delta_field d "reasoning_content" = delta_field j "reasoning_content"
    /\ forall k, k <> "content" -> delta_field d k = delta_field j k.
Proof.
  unfold_handle_stream_response. destruct (is_error r); [done|].
  destruct (stream_loop_forwarded disc (aiter_lines r) 0 initial_state)
    as (js & Hpre & Hall & _).
  destruct (stream_loop _ _ _ _) as [[o' e] s']. cbn [fst snd] in *.
  intros Hd. destruct (Forall2_lookup_r _ _ _ _ _ Hall Hd) as (j & Hj & Hf).
  exists j. split; [by eapply prefix_lookup_Some|].
  destruct (forwards_keeps _ _ Hf) as [Hk _].
  split; [by apply Hk|]. split; [by apply Hk|]. exact Hk.
Qed.

(** C2.  The closing event of a chat-completion stream carries its finish
    reason inside the first choice.  Lines 197-198 test the top level of
    the payload only, so the event is forwarded as it arrived, with the
    finish reason "tool_calls", whatever the parser and the replacement. *)
Theorem choice_finish_reason_is_not_remapped :
  handle_stream_response
    (ok_stream [LData (closing_event "tool_calls"); done_line]) never
  = ([Data (closing_event "tool_calls"); Sentinel "data: [DONE]"], Exhausted)
  /\ choice_finish_reason (closing_event "tool_calls")
     = Some (JStr "tool_calls").
Proof. split; reflexivity. Qed.

Lemma on_line_rendered l s : Forall flushes_rendered (fst (on_line l s)).
Proof.
  destruct l as [t|t|j|t]; cbn [on_line]; try constructor.
  - rewrite bind_read_eq.
    pose proof (flush_site_rendered true s) as [H _]. cbn [andb] in H.
    unfold bind. destruct (when _ _ s) as [o1 [[[] s1]|]]; cbn [fst] in *.
    + apply Forall_app. split; [|by repeat constructor].
      eapply Forall_impl; [exact H|]. by intros [].
    + eapply Forall_impl; [exact H|]. by intros [].
  - unfold_on_data. rewrite bind_read_eq. cbv zeta. rewrite bind_write_eq.
    destruct (read_event s j) as [v|];
      [rewrite (bind_lift_eq _ v) by done|constructor].
    rewrite bind_read_eq.
    destruct (Py.str_add _ _) as [rc|];
      [rewrite (bind_lift_eq _ rc) by done|constructor].
    rewrite bind_write_eq.
    set (s1 := with_reasoning _ _).
    assert (sat (after_reasoning (length (heap s)) v) s1 flushes_rendered
              (fun _ _ => True)) as [H _]; [|exact H].
    unfold_after_reasoning. sat_step.
    eapply sat_bind.
    { eapply sat_outputs_impl; [|apply flush_site_rendered]. by intros []. }
    cbv beta. intros [] s2 _. sat_step. sat_step.
    eapply sat_bind with (Q := fun _ _ => True).
    { destruct (Py.eq _ _); [|by apply sat_ret].
      eapply sat_outputs_impl; [|apply assistant_branch_rendered]. by intros []. }
    cbv beta. intros [] s3 _. unfold_finish.
    eapply sat_bind.
    { eapply sat_outputs_impl; [|apply flush_on_finish_reason_rendered].
      by intros []. }
    cbv beta. intros [] s4 _.
    unfold_forward. sat_step. do 2 sat_step.
    eapply sat_bind with (Q := fun _ _ => True).
    + destruct (Py.eq _ _); [sat_step; by apply sat_write | by apply sat_ret].
    + cbv beta. intros [] s5 _. sat_step. sat_step. by apply sat_yield.
Qed.

Lemma stream_loop_rendered disc lines : forall k s,
  Forall flushes_rendered (fst (fst (stream_loop disc k lines s))).
Proof.
  induction lines as [|l rest IH]; intros k s; cbn [stream_loop];
    [constructor|].
  destruct (disc k); [constructor|].
  pose proof (on_line_rendered l s) as Hl.
  destruct (on_line l s) as [o [[[] s1]|]]; cbn [fst] in *; [|exact Hl].
  specialize (IH (S k) s1).
  destruct (stream_loop disc (S k) rest s1) as [[o' e] s2]; cbn [fst] in *.
  apply Forall_app. by split.
Qed.

(** X2.  Whatever the stream and however it ends, every flush the
    reconstructor yields was made from a non-empty arguments buffer, and
    the content of its carrier's delta is the text the codec returned for
    the recorded call, passed through the completion-side replacement. *)
Theorem flush_carries_rendered_call r disc c carrier :
  In (Flush c carrier) (fst (handle_stream_response r disc)) ->
  ca_arguments c <> ""
  /\ delta_field carrier "content" = Some (JStr (render c)).
Proof.
  unfold_handle_stream_response. destruct (is_error r).
  - intros [H|[H|[]]]; discriminate.
  - pose proof (stream_loop_rendered disc (aiter_lines r) 0 initial_state) as H.
    destruct (stream_loop _ _ _ _) as [[o e] s']. cbn [fst] in *.
    intros Hin. rewrite List.Forall_forall in H. exact (H _ Hin).
Qed.

(** *** Flushes in reachable states *)

Lemma open_flush_runs s :
  open_ok s -> buffer s <> "" ->
  exists b carrier,
    last_chunk s = Some b
    /\ create_tool_call s
       = ([Flush (pending s) carrier], Some (tt, flushed b carrier s)).
Proof.
  intros Ho Hb. destruct (Ho Hb) as (_ & b & chunk & Hl & Hh & Hc).
  destruct (carrier_shaped_settable _ (render (pending s)) Hc) as [car Hs].
  exists b, car. split; [done|].
  by rewrite (create_tool_call_eq parser apply_replacement_to_completion),
    Hl, Hh, Hs.
Qed.

(** X3.  In every state the loop of the reconstructor reaches, a flush of a
    non-empty buffer succeeds: [last_chunk] is bound to an event that has the
    shape the in-place update needs, so [create_tool_call] raises nothing,
    yields exactly one line and leaves the accumulators empty. *)
Theorem flush_succeeds_when_reachable s :
  reachable s -> buffer s <> "" ->
  exists carrier s',
    create_tool_call s = ([Flush (pending s) carrier], Some (tt, s'))
    /\ buffer s' = "" /\ tool_name s' = "" /\ tool_call_id s' = ""
    /\ reasoning_content_buffer s' = "".
Proof.
  intros Hr Hb.
  destruct (open_flush_runs s) as (b & car & _ & H);
    [by eapply reachable_open|done|].
  exists car, (flushed b car s). by rewrite H.
Qed.

(** X4.  The terminal sentinel is always forwarded: in every reachable state
    the line [data: [DONE]] is handled without an exception, the sentinel is
    the last item yielded for it, an open tool call is flushed just before
    it, and no tool call is open afterwards. *)
Theorem sentinel_is_forwarded s t :
  reachable s ->
  exists o s',
    on_line (LDone t) s = (o, Some (tt, s'))
    /\ buffer s' = ""
    /\ (buffer s = "" -> o = [Sentinel t])
    /\ (buffer s <> "" ->
        exists carrier, o = [Flush (pending s) carrier; Sentinel t]).
Proof.
  intros Hr. cbn [on_line]. rewrite bind_read_eq.
  destruct (Py.nonempty (buffer s)) eqn:Hb; cbn [when].
  - apply nonempty_iff in Hb.
    destruct (open_flush_runs s) as (b & car & _ & H);
      [by eapply reachable_open|done|].
    rewrite (bind_step_eq _ _ _ _ _ _ H). unfold prepend, yield. cbn.
    eexists _, _. split; [reflexivity|]. split; [done|].
    split; [done|]. intros _. by exists car.
  - apply nonempty_false_iff in Hb. rewrite bind_ret_eq. unfold yield.
    eexists _, _. split; [reflexivity|]. split; [done|].
    split; [done|]. by intros ?.
Qed.

(** *** Lines that are not events *)

(** X5.  Lines that do not start with "data: " (comments, blank keep-alive
    lines) have no effect: without a disconnection, the reconstructor yields
    the same items, ends the same way and in the same state as on the stream
    from which these lines are removed. *)
Theorem other_lines_are_ignored lines : forall k k' s,
  stream_loop never k lines s
  = stream_loop never k' (filter (fun l => negb (is_other l)) lines) s.
Proof.
  induction lines as [|l rest IH]; intros k k' s; [done|].
  destruct l as [t|t|j|t];
    [rewrite filter_cons_False by (by intros [])
    |rewrite filter_cons_True by done..];
    cbn [stream_loop never on_line ret].
  - rewrite (IH (S k) k' s).
    by destruct (stream_loop never k' _ s) as [[o e] s'].
  - destruct (bind _ _ s) as [o [[[] s1]|]]; [|done].
    by rewrite (IH (S k) (S k') s1).
  - destruct (on_data j s) as [o [[[] s1]|]]; [|done].
    by rewrite (IH (S k) (S k') s1).
  - done.
Qed.

(** X6.  A data line whose payload is not JSON ends the generator with the
    exception of [json.loads]: what was yielded for the lines before it
    stays as it is, nothing is yielded for it or for any later line (no
    flush of an open tool call, no sentinel), and the stream does not end
    normally. *)
Theorem undecodable_line_ends_the_stream disc pre t rest : forall k s,
  fst (fst (stream_loop disc k (pre ++ LUndecodable t :: rest) s))
  = fst (fst (stream_loop disc k pre s))
  /\ snd (fst (stream_loop disc k (pre ++ LUndecodable t :: rest) s))
     <> Exhausted.
Proof.
  induction pre as [|l pre IH]; intros k s; cbn [app stream_loop on_line].
  - destruct (disc k); by split.
  - destruct (disc k); [by split|].
    destruct (on_line l s) as [o [[[] s1]|]]; [|by split].
    destruct (IH (S k) s1) as [H1 H2].
    destruct (stream_loop disc (S k) (pre ++ _) s1) as [[o1 e1] s1'].
    destruct (stream_loop disc (S k) pre s1) as [[o2 e2] s2'].
    cbn [fst snd] in *. split; [by rewrite H1|done].
Qed.

End StreamOrder.
Section PlainStream.

Variable parser : Parser.
Variable apply_replacement_to_completion : string -> string.

Local Abbreviation on_data := (on_data parser apply_replacement_to_completion).
Local Abbreviation on_line := (on_line parser apply_replacement_to_completion).
Local Abbreviation finish := (finish parser apply_replacement_to_completion).
Local Abbreviation stream_loop :=
  (stream_loop parser apply_replacement_to_completion).
Local Abbreviation handle_stream_response :=
  (handle_stream_response parser apply_replacement_to_completion).

Ltac run_plain :=
  repeat (rewrite ?bind_assoc_eq;
          first [rewrite bind_ret_eq | rewrite bind_read_eq
                | rewrite bind_write_eq
                | progress cbn [Py.str_add lift]]).

Lemma finish_keeps_empty_buffer a top s :
  heap s !! a = Some (JObj top) -> buffer s = "" ->
  exists s', finish a s = ([Data (forwarded (JObj top))], Some (tt, s'))
             /\ buffer s' = "".
Proof.
  intros Hcell Hb. unfold_finish. unfold_flush_on_finish_reason.
  run_plain. rewrite Hcell. run_plain. cbn [Py.get lift]. run_plain.
  rewrite (skip_flush_eq parser apply_replacement_to_completion)
    by (rewrite Hb; apply andb_false_r).
  unfold_forward. run_plain. rewrite Hcell. run_plain. cbn [Py.get lift].
  run_plain. unfold forwarded.
  destruct (Py.assoc "finish_reason" top) as [fr|] eqn:Efr.
  - destruct (Py.eq fr (JStr "tool_calls")).
    + cbn [Py.setitem lift]. run_plain.
      cbn [with_heap heap].
      rewrite list_lookup_insert_eq by (by eapply lookup_lt_Some).
      run_plain. by eexists.
    + run_plain. rewrite Hcell. run_plain. by eexists.
  - cbn [Py.eq]. run_plain. rewrite Hcell. run_plain. by eexists.
Qed.

Lemma on_data_plain t rt s :
  closing_piece t = Some rt -> buffer s = "" ->
  exists s', on_data t s = ([Data (forwarded t)], Some (tt, s'))
             /\ buffer s' = "".
Proof.
  unfold closing_piece. intros H Hb.
  destruct t as [| | | | |top]; try discriminate.
  cbn [Py.getitem mbind option_bind] in H.
  destruct (Py.assoc "choices" top) as [[| | | |[|[| | | | |ch] more]|]|] eqn:Ech;
    try discriminate.
  cbn [mbind option_bind] in H. cbv zeta in H.
  destruct (Py.or_ (default JNull (Py.assoc "delta" ch)) (JObj []))
    as [| | | | |dl] eqn:Edl; try discriminate.
  destruct (reasoning_text _) as [rd|] eqn:Erd; [|discriminate].
  cbn [mbind option_bind] in H.
  destruct (Py.truthy _) eqn:Etcs; [discriminate|]. injection H as ->.
  unfold reasoning_text in Erd.
  destruct (Py.or_ (default JNull (Py.assoc "reasoning_content" dl)) (JStr ""))
    as [| | |t0| |] eqn:Erc; try discriminate. injection Erd as ->.
  assert (read_event s (JObj top)
          = Some (View (default (choice_index s) (Py.assoc "index" ch))
                    (JObj dl)
                    (default (role s) (Py.assoc "role" dl))
                    (default JNull (Py.assoc "tool_calls" dl))
                    (JStr rt))) as Hre.
  { unfold read_event. cbn [Py.get mbind option_bind]. rewrite Ech.
    cbn [Py.or_ Py.truthy Py.index0 mbind option_bind Py.get].
    change (match Py.assoc "delta" ch with Some v => v | None => JNull end)
      with (default JNull (Py.assoc "delta" ch)).
    fold (Py.or_ (default JNull (Py.assoc "delta" ch)) (JObj [])).
    rewrite Edl. cbn [Py.get mbind option_bind].
    change (match Py.assoc "reasoning_content" dl with
            | Some v => v | None => JNull end)
      with (default JNull (Py.assoc "reasoning_content" dl)).
    fold (Py.or_ (default JNull (Py.assoc "reasoning_content" dl)) (JStr "")).
    by rewrite Erc. }
  unfold_on_data. run_plain. rewrite (bind_lift_eq _ _ _ _ Hre). run_plain.
  cbn [v_reasoning]. run_plain.
  unfold_after_reasoning. run_plain.
  cbn [v_choice_index v_delta v_role v_tool_calls].
  set (s1 := with_reasoning _ _).
  assert (buffer s1 = "") as Hb1 by exact Hb.
  rewrite (skip_flush_eq parser apply_replacement_to_completion)
    by (rewrite Hb1; apply andb_false_r).
  run_plain.
  set (s2 := with_choice_role _ _ _).
  assert (heap s2 !! length (heap s) = Some (JObj top)) as Hcell
    by (by apply list_lookup_middle).
  assert (buffer s2 = "") as Hb2 by exact Hb.
  destruct (Py.eq _ (JStr "assistant")).
  - unfold_assistant_branch. unfold Py.or_ at 1. rewrite Etcs.
    cbn [Py.index0 lift]. run_plain. cbn [Py.get Py.assoc lift]. run_plain.
    rewrite bind_assoc_eq.
    rewrite (skip_flush_eq parser apply_replacement_to_completion)
      by (rewrite Hb2; apply andb_false_r).
    cbn [Py.truthy]. run_plain.
    destruct (finish_keeps_empty_buffer _ _ _ Hcell Hb2) as (s' & -> & Hs').
    by exists s'.
  - run_plain.
    destruct (finish_keeps_empty_buffer _ _ _ Hcell Hb2) as (s' & -> & Hs').
    by exists s'.
Qed.

(** X7.  A stream without tool calls passes through: when every event has a
    choice whose delta carries no tool-call fragment (and reasoning text, if
    any, that is a [str]), the reconstructor yields each event as it arrived
    (a top-level finish reason "tool_calls" apart), in order, then the
    sentinel, and never a flush. *)
Theorem plain_stream_passes_through r t evs :
  is_error r = false ->
  aiter_lines r = map LData evs ++ [LDone t] ->
  Forall (fun j => closing_piece j <> None) evs ->
  handle_stream_response r never
  = (map (fun j => Data (forwarded j)) evs ++ [Sentinel t], Exhausted).
Proof.
  intros Hok Hlines Hevs. unfold_handle_stream_response.
  rewrite Hok, Hlines.
  assert (forall k s, buffer s = "" ->
            exists s', stream_loop never k (map LData evs ++ [LDone t]) s
                       = (map (fun j => Data (forwarded j)) evs ++ [Sentinel t],
                          Exhausted, s')) as H.
  { clear Hlines. induction Hevs as [|j evs Hj _ IH]; intros k s Hb.
    - exists s. cbn [map app stream_loop never on_line].
      rewrite bind_read_eq, Hb. cbn [Py.nonempty String.eqb negb when].
      by rewrite bind_ret_eq.
    - destruct (closing_piece j) as [rt|] eqn:Hp; [|done].
      destruct (on_data_plain _ _ _ Hp Hb) as (s1 & H1 & Hb1).
      destruct (IH (S k) s1 Hb1) as (s' & H').
      exists s'. cbn [map app stream_loop never on_line]. by rewrite H1, H'. }
  by destruct (H 0 initial_state eq_refl) as (s' & ->).
Qed.


End PlainStream.
(** ** The legacy stream *)

Lemma legacy_bind_read_eq {B : Type} (f : Legacy.state -> Legacy.gen B) s :
  Legacy.bind Legacy.read f s = f s s.
Proof. unfold Legacy.bind, Legacy.read. by destruct (f s s). Qed.

Lemma legacy_bind_write_eq {B : Type} s' (f : unit -> Legacy.gen B) s :
  Legacy.bind (Legacy.write s') f s = f tt s'.
Proof. unfold Legacy.bind, Legacy.write. by destruct (f tt s'). Qed.

Lemma legacy_bind_ret_eq {A B : Type} (a : A) (f : A -> Legacy.gen B) s :
  Legacy.bind (Legacy.ret a) f s = f a s.
Proof. unfold Legacy.bind, Legacy.ret. by destruct (f a s). Qed.

Section LegacyRun.

Context {A B : Type}.
Implicit Types (s : Legacy.state).

Lemma legacy_run_bind (m : Legacy.gen A) (f : A -> Legacy.gen B) s
  (P : list Legacy.item -> option (A * Legacy.state) -> Prop)
  (Q : list Legacy.item -> option (B * Legacy.state) -> Prop) :
  legacy_run m s P ->
  (forall o a s1, P o (Some (a, s1)) ->
     legacy_run (f a) s1 (fun o2 r2 => Q (o ++ o2) r2)) ->
  (forall o, P o None -> Q o None) ->
  legacy_run (Legacy.bind m f) s Q.
Proof.
  unfold legacy_run, Legacy.bind. intros Hm Hf Hn.
  destruct (m s) as [o1 [[a s1]|]]; cbn [fst snd] in *.
  - specialize (Hf _ _ _ Hm). by destruct (f a s1) as [o2 r].
  - by apply Hn.
Qed.

Lemma legacy_run_read (f : Legacy.state -> Legacy.gen B) s Q :
  legacy_run (f s) s Q -> legacy_run (Legacy.bind Legacy.read f) s Q.
Proof. unfold legacy_run. by rewrite legacy_bind_read_eq. Qed.

Lemma legacy_run_write s' (f : unit -> Legacy.gen B) s Q :
  legacy_run (f tt) s' Q -> legacy_run (Legacy.bind (Legacy.write s') f) s Q.
Proof. unfold legacy_run. by rewrite legacy_bind_write_eq. Qed.

Lemma legacy_run_lift (x : option A) (f : A -> Legacy.gen B) s Q :
  match x with Some a => legacy_run (f a) s Q | None => Q [] None end ->
  legacy_run (Legacy.bind (Legacy.lift x) f) s Q.
Proof.
  unfold legacy_run. destruct x as [a|]; cbn [Legacy.lift].
  - by rewrite legacy_bind_ret_eq.
  - done.
Qed.

End LegacyRun.

Lemma joined_app l1 l2 : joined (l1 ++ l2) = joined l1 +:+ joined l2.
Proof.
  induction l1 as [|x l1 IH]; [done|].
  cbn [app joined fold_right] in *. fold (joined (l1 ++ l2)).
  fold (joined l1). by rewrite IH, append_assoc.
Qed.

Lemma legacy_flushed_app o1 o2 :
  legacy_flushed (o1 ++ o2) = legacy_flushed o1 ++ legacy_flushed o2.
Proof. unfold legacy_flushed. by rewrite flat_map_app. Qed.

Lemma legacy_data_of_app o1 o2 :
  legacy_data_of (o1 ++ o2) = legacy_data_of o1 ++ legacy_data_of o2.
Proof. unfold legacy_data_of. by rewrite flat_map_app. Qed.

Lemma set_text_inv d t d' :
  Legacy.set_text d t = Some d' ->
  exists top ch more,
    d = JObj top /\ Py.assoc "choices" top = Some (JArr (JObj ch :: more))
    /\ d' = JObj (Py.assoc_set "choices"
                    (JArr (JObj (Py.assoc_set "text" (JStr t) ch) :: more))
                    top).
Proof.
  unfold Legacy.set_text. intros H.
  destruct d as [| | | | |top]; try discriminate.
  destruct (Py.assoc "choices" top) as [[| | | |[|[| | | | |ch] more]|]|] eqn:Ech;
    try discriminate.
  injection H as <-. by exists top, ch, more.
Qed.

Lemma text_shaped_settable d t :
  text_shaped d -> exists d', Legacy.set_text d t = Some d'.
Proof.
  intros (top & ch & more & -> & Hc). unfold Legacy.set_text.
  rewrite Hc. eauto.
Qed.

Lemma set_text_shaped d t d' :
  Legacy.set_text d t = Some d' -> text_shaped d'.
Proof.
  intros (top & ch & more & -> & Hc & ->)%set_text_inv.
  do 3 eexists. split; [done|]. apply assoc_set_same.
Qed.

Lemma set_text_text d t d' :
  Legacy.set_text d t = Some d' -> text_field d' = Some (JStr t).
Proof.
  intros (top & ch & more & -> & Hc & ->)%set_text_inv.
  unfold text_field, Py.getitem. cbn [mbind option_bind].
  rewrite assoc_set_same. cbn [Py.index0 mbind option_bind].
  apply assoc_set_same.
Qed.

Lemma set_text_clear d t d' :
  Legacy.set_text d t = Some d' -> Legacy.clear_text d' = Legacy.clear_text d.
Proof.
  intros (top & ch & more & -> & Hc & ->)%set_text_inv.
  unfold Legacy.clear_text, Legacy.set_text.
  rewrite assoc_set_same, Hc. cbn [default].
  by rewrite !assoc_set_twice.
Qed.

Lemma set_text_finish d t d' :
  Legacy.set_text d t = Some d' ->
  Py.get d' "finish_reason" JNull = Py.get d "finish_reason" JNull.
Proof.
  intros (top & ch & more & -> & Hc & ->)%set_text_inv.
  unfold Py.get. by rewrite assoc_set_other.
Qed.

Lemma clear_text_shaped d : text_shaped d -> text_shaped (Legacy.clear_text d).
Proof.
  intros H. destruct (text_shaped_settable d "" H) as [d' Hd'].
  unfold Legacy.clear_text. rewrite Hd'. by eapply set_text_shaped.
Qed.

Lemma raises_on_falsy text : Py.truthy text = false -> added_text text = "".
Proof.
  destruct text as [| | |t| |]; try done. cbn.
  by intros ->%negb_false_iff%String.eqb_eq.
Qed.

Ltac unfold_legacy_after_reads := unfold Legacy.after_reads.
Ltac unfold_legacy_on_data := unfold Legacy.on_data.
Ltac unfold_legacy_create_tool_call := unfold Legacy.create_tool_call.
Ltac unfold_legacy_handle :=
  unfold Legacy.handle_stream_response_for_legacy_completion.

Section LegacyStream.

Variable apply_replacement_to_completion : string -> string.

Local Abbreviation create_tool_call :=
  (Legacy.create_tool_call apply_replacement_to_completion).
Local Abbreviation after_reads :=
  (Legacy.after_reads apply_replacement_to_completion).
Local Abbreviation on_data :=
  (Legacy.on_data apply_replacement_to_completion).
Local Abbreviation on_line :=
  (Legacy.on_line apply_replacement_to_completion).
Local Abbreviation stream_loop :=
  (Legacy.stream_loop apply_replacement_to_completion).
Local Abbreviation handle_stream_response_for_legacy_completion :=
  (Legacy.handle_stream_response_for_legacy_completion
     apply_replacement_to_completion).
Local Abbreviation rendered :=
  (legacy_rendered apply_replacement_to_completion).
Local Abbreviation flushes_rendered :=
  (legacy_flushes_rendered apply_replacement_to_completion).

Lemma legacy_create_tool_call_eq s :
  create_tool_call s =
  match Legacy.last_chunk s with
  | Some a =>
      match Legacy.heap s !! a with
      | Some chunk =>
          match Legacy.set_text chunk
                  (apply_replacement_to_completion (Legacy.buffer s)) with
          | Some chunk' =>
              ([Legacy.Flush (Legacy.buffer s) chunk'],
               Some (tt, {| Legacy.heap := <[a := chunk']> (Legacy.heap s);
                            Legacy.buffer := "";
                            Legacy.last_chunk := Legacy.last_chunk s;
                            Legacy.choice_index := Legacy.choice_index s |}))
          | None => ([], None)
          end
      | None => ([], None)
      end
  | None => ([], None)
  end.
Proof.
  unfold_legacy_create_tool_call.
  unfold Legacy.bind, Legacy.read, Legacy.lift, Legacy.write, Legacy.yield,
    Legacy.ret, Legacy.raise.
  destruct (Legacy.last_chunk s) as [a|]; [|reflexivity].
  destruct (Legacy.heap s !! a) as [chunk|]; [|reflexivity].
  destruct (Legacy.set_text chunk _); reflexivity.
Qed.

(** A guarded flush, as it appears at lines 297, 305 and 311. *)
Lemma legacy_flush_site (c : bool) s :
  legacy_open_ok s ->
  legacy_run
    (Legacy.when (c && Py.nonempty (Legacy.buffer s)) create_tool_call) s
    (fun o r =>
       match r with
       | Some (_, s1) =>
           Forall rendered o
           /\ joined (legacy_flushed o) +:+ Legacy.buffer s1 = Legacy.buffer s
           /\ legacy_open_ok s1
           /\ (forall j a, legacy_cell j a s -> legacy_cell j a s1)
       | None => False
       end).
Proof.
  intros Ho. unfold legacy_run.
  destruct (c && Py.nonempty (Legacy.buffer s)) eqn:Ec; cbn [Legacy.when].
  - apply andb_true_iff in Ec as [_ Hb%nonempty_iff].
    destruct (Ho Hb) as (b & chunk & Hl & Hh & Hsh).
    destruct (text_shaped_settable chunk
                (apply_replacement_to_completion (Legacy.buffer s)) Hsh)
      as [chunk' Hs].
    rewrite legacy_create_tool_call_eq, Hl, Hh, Hs. cbn [fst snd].
    split; [|split; [|split]].
    + repeat constructor; [done|]. by eapply set_text_text.
    + cbn. by rewrite !append_nil_r.
    + by intros ?.
    + intros j a (d & Hd & Hcl & Hfr & Hshape). unfold legacy_cell.
      cbn [Legacy.heap].
      destruct (decide (b = a)) as [->|Hne].
      * rewrite Hd in Hh. injection Hh as ->. exists chunk'.
        split; [apply list_lookup_insert_eq; by eapply lookup_lt_Some|].
        split; [by rewrite (set_text_clear _ _ _ Hs)|].
        split; [by rewrite (set_text_finish _ _ _ Hs)|].
        intros _. by eapply set_text_shaped.
      * exists d. by rewrite list_lookup_insert_ne.
  - cbn. split; [constructor|]. by repeat split.
Qed.

Lemma legacy_after_reads_run j a text ci s :
  legacy_open_ok s -> legacy_cell j a s ->
  (exists fr, Py.get j "finish_reason" JNull = Some fr) ->
  (Py.truthy text = true -> text_shaped j) ->
  legacy_run (after_reads a text ci) s
             (legacy_step apply_replacement_to_completion j text s).
Proof.
  intros Ho Hc [fr0 Hfr0] Htext. unfold_legacy_after_reads.
  apply legacy_run_read.
  eapply legacy_run_bind; [by apply legacy_flush_site| |by intros ? []].
  intros o1 [] s1 (Hr1 & Hb1 & Ho1 & Hc1). cbv beta.
  specialize (Hc1 _ _ Hc).
  apply legacy_run_read, legacy_run_write.
  eapply legacy_run_bind with
    (P := fun o r =>
            o = []
            /\ match r with
               | Some (_, s3) =>
                   Legacy.buffer s3 = Legacy.buffer s1 +:+ added_text text
                   /\ legacy_cell j a s3 /\ legacy_open_ok s3
                   /\ raises_on text = false
               | None => raises_on text = true
               end).
  { unfold raises_on. destruct (Py.truthy text) eqn:Et.
    - apply legacy_run_read. cbn [Legacy.buffer].
      destruct text as [| | |t| |]; cbn [Py.str_add];
        apply legacy_run_lift; try done.
      unfold legacy_run. cbn. split; [done|]. split; [done|].
      split; [exact Hc1|]. split; [|done]. intros _.
      destruct Hc1 as (d & Hd & _ & _ & Hsh).
      exists a, d. split; [done|]. split; [done|]. by apply Hsh, Htext.
    - unfold legacy_run. cbn. split; [done|].
      rewrite (raises_on_falsy _ Et), append_nil_r. by repeat split. }
  2:{ intros o [-> Hr]. cbn beta. rewrite app_nil_r. by split. }
  intros o2 [] s3 (-> & Hb3 & Hc3 & Ho3 & Hraise). cbv beta.
  apply legacy_run_read.
  destruct Hc3 as (d & Hd & Hcl & Hfr & Hsh).
  rewrite Hd. apply legacy_run_lift.
  rewrite Hfr, Hfr0. apply legacy_run_lift.
  eapply legacy_run_bind; [by apply legacy_flush_site| |by intros ? []].
  intros o3 [] s4 (Hr4 & Hb4 & Ho4 & Hc4). cbv beta.
  destruct (Hc4 j a) as (d4 & Hd4 & Hcl4 & Hfr4 & Hsh4);
    [by exists d|].
  apply legacy_run_read. rewrite Hd4. apply legacy_run_lift.
  apply legacy_run_write, legacy_run_read. cbn [Legacy.heap].
  rewrite list_lookup_insert_eq by (by eapply lookup_lt_Some).
  apply legacy_run_lift. unfold legacy_run. cbn [Legacy.yield fst snd].
  unfold legacy_step. split; [|done].
  exists (o1 ++ o3). rewrite Hcl4, app_nil_l, <- app_assoc.
  split; [done|]. split; [by apply Forall_app|].
  split.
  - cbn [Legacy.buffer]. rewrite legacy_flushed_app, joined_app, append_assoc.
    by rewrite Hb4, Hb3, <- append_assoc, Hb1.
  - intros Hb. cbn [Legacy.buffer Legacy.last_chunk Legacy.heap] in *.
    destruct (Ho4 Hb) as (b & chunk & Hl & Hh & Hshape).
    destruct (decide (b = a)) as [->|Hne].
    + rewrite Hd4 in Hh. injection Hh as ->.
      exists a, (Legacy.clear_text j). split; [done|].
      split; [apply list_lookup_insert_eq; by eapply lookup_lt_Some|].
      rewrite <- Hcl4. by apply clear_text_shaped.
    + exists b, chunk. by rewrite list_lookup_insert_ne.
Qed.

Lemma legacy_choice top :
  match Py.index0 (Py.or_ (default JNull (Py.assoc "choices" top))
                          (JArr [JObj []])) with
  | Some (JObj ch) =>
      let text := Py.or_ (default JNull (Py.assoc "text" ch)) (JStr "") in
      legacy_event (JObj top) = negb (raises_on text)
      /\ legacy_text (JObj top) = added_text text
      /\ (Py.truthy text = true -> text_shaped (JObj top))
  | _ => legacy_event (JObj top) = false
  end.
Proof.
  unfold legacy_event, legacy_text, raises_on. cbn [Py.get mbind option_bind].
  destruct (Py.assoc "choices" top) as [v|] eqn:Ech; cbn [default];
    [|by cbn].
  destruct v as [|[]|n|t|[|x more]|[|kv kvs]]; try (by cbn).
  - unfold Py.or_. cbn [Py.truthy id]. by destruct (n =? 0)%Z; cbn.
  - by destruct t; cbn.
  - destruct x as [| | | | |ch]; try (by cbn).
    cbn [Py.or_ Py.truthy Py.index0 mbind option_bind Py.get default id].
    destruct (Py.assoc "text" ch) as [t|] eqn:Et; cbn [default id]. 2: by cbn.
    split; [|split; [done|intros _; by exists top, ch, more]].
    unfold Py.or_. destruct (Py.truthy t) eqn:Ett; [|done].
    rewrite Ett. by destruct t.
Qed.

Lemma legacy_rendered_flushes fl :
  Forall rendered fl -> Forall flushes_rendered fl /\ legacy_data_of fl = [].
Proof.
  induction 1 as [|x fl Hx _ [IH1 IH2]]; [by split|].
  destruct x; try done. split; [by constructor|exact IH2].
Qed.

Lemma legacy_event_raises j s :
  legacy_event j = false ->
  legacy_lines_step apply_replacement_to_completion [LData j] s [] None.
Proof.
  intros H. split; [constructor|]. cbn [forallb legacy_line].
  by rewrite H.
Qed.

Lemma legacy_on_data_run j s :
  legacy_open_ok s ->
  legacy_run (on_data j) s
    (fun o r => legacy_lines_step apply_replacement_to_completion [LData j] s
                  o (snd <$> r)).
Proof.
  intros Ho. unfold_legacy_on_data. apply legacy_run_read. cbv zeta.
  apply legacy_run_write.
  destruct j as [| | | | |top];
    try (apply legacy_run_lift; by apply legacy_event_raises).
  cbn [Py.get]. apply legacy_run_lift.
  pose proof (legacy_choice top) as Hch.
  change (match Py.assoc "choices" top with Some v => v | None => JNull end)
    with (default JNull (Py.assoc "choices" top)).
  destruct (Py.index0 _) as [choice|]; apply legacy_run_lift.
  2:{ by apply legacy_event_raises. }
  destruct choice as [| | | | |ch];
    try (apply legacy_run_lift; by apply legacy_event_raises).
  cbn [Py.get]. do 2 apply legacy_run_lift.
  change (match Py.assoc "text" ch with Some v => v | None => JNull end)
    with (default JNull (Py.assoc "text" ch)).
  destruct Hch as (Hev & Htx & Hshape).
  set (s1 := Legacy.State _ _ _ _).
  pose proof (legacy_after_reads_run (JObj top) (length (Legacy.heap s))
                (Py.or_ (default JNull (Py.assoc "text" ch)) (JStr ""))
                (match Py.assoc "index" ch with
                 | Some v => v | None => Legacy.choice_index s end) s1) as H.
  unfold legacy_run in *.
  destruct (after_reads _ _ _ s1) as [o [[[] s']|]];
    cbn [fst snd fmap option_fmap option_map] in *.
  - destruct H as [(fl & -> & Hfl & Hb & Ho') Hraise]; try done.
    + intros Hb. destruct (Ho Hb) as (b & chunk & Hl & Hh & Hsh).
      exists b, chunk. split; [done|]. split; [|done].
      by apply lookup_app_l_Some.
    + exists (JObj top). split; [by apply list_lookup_middle|done].
    + by eexists.
    + destruct (legacy_rendered_flushes _ Hfl) as [Hfl' Hnd].
      split; [apply Forall_app; split; [done|by repeat constructor]|].
      split; [by rewrite legacy_data_of_app, Hnd|].
      split; [|split; [done|]].
      * rewrite legacy_flushed_app. cbn [legacy_flushed flat_map payloads map
          joined fold_right app]. fold (legacy_flushed fl).
        by rewrite app_nil_r, append_nil_r, Htx.
      * cbn [forallb legacy_line]. by rewrite Hev, Hraise.
  - destruct H as [Hfl Hraise]; try done.
    + intros Hb. destruct (Ho Hb) as (b & chunk & Hl & Hh & Hsh).
      exists b, chunk. split; [done|]. split; [|done].
      by apply lookup_app_l_Some.
    + exists (JObj top). split; [by apply list_lookup_middle|done].
    + by eexists.
    + split; [by apply legacy_rendered_flushes|].
      cbn [forallb legacy_line]. by rewrite Hev, Hraise.
Qed.

Lemma legacy_on_line_run l s :
  legacy_open_ok s ->
  legacy_run (on_line l) s
    (fun o r => legacy_lines_step apply_replacement_to_completion [l] s
                  o (snd <$> r)).
Proof.
  intros Ho. destruct l as [t|t|j|t]; cbn [Legacy.on_line].
  - unfold legacy_run, legacy_lines_step. cbn.
    rewrite append_nil_r. by repeat split.
  - apply legacy_run_read.
    eapply legacy_run_bind; [by apply (legacy_flush_site true)| |by intros ? []].
    intros o1 [] s1 (Hr1 & Hb1 & Ho1 & _). cbv beta.
    unfold legacy_run, legacy_lines_step.
    cbn [Legacy.yield fst snd fmap option_fmap option_map payloads flat_map
         map joined fold_right forallb legacy_line app].
    destruct (legacy_rendered_flushes _ Hr1) as [Hfl' Hnd].
    split; [apply Forall_app; split; [done|by repeat constructor]|].
    rewrite legacy_data_of_app, legacy_flushed_app, Hnd, append_nil_r.
    cbn [legacy_flushed flat_map app]. fold (legacy_flushed o1).
    by rewrite app_nil_r.
  - by apply legacy_on_data_run.
  - unfold legacy_run, legacy_lines_step. cbn. by split.
Qed.

Lemma legacy_stream_loop_run disc lines : forall k s,
  legacy_open_ok s ->
  let '(o, e, s') := stream_loop disc k lines s in
  match e with
  | Exhausted =>
      legacy_lines_step apply_replacement_to_completion lines s o (Some s')
  | Crashed =>
      legacy_lines_step apply_replacement_to_completion lines s o None
  | Cancelled => Forall flushes_rendered o
  end.
Proof.
  induction lines as [|l rest IH]; intros k s Ho; cbn [Legacy.stream_loop].
  - split; [constructor|]. cbn. rewrite append_nil_r. by repeat split.
  - destruct (disc k); [constructor|].
    pose proof (legacy_on_line_run l s Ho) as Hl. unfold legacy_run in Hl.
    destruct (on_line l s) as [o1 [[[] s1]|]];
      cbn [fst snd fmap option_fmap option_map] in Hl.
    + destruct Hl as (Hf1 & Hd1 & Hb1 & Ho1 & Hl1).
      specialize (IH (S k) s1 Ho1).
      destruct (stream_loop disc (S k) rest s1) as [[o2 e] s2].
      cbn [forallb] in Hl1. rewrite andb_true_r in Hl1.
      destruct e.
      * destruct IH as (Hf2 & Hd2 & Hb2 & Ho2 & Hl2).
        split; [by apply Forall_app|].
        rewrite legacy_data_of_app, legacy_flushed_app, joined_app,
          payloads_cons, !map_app, joined_app, Hd1, Hd2.
        split; [done|]. split; [|split; [done|]].
        -- by rewrite append_assoc, Hb2, <- append_assoc, Hb1, append_assoc.
        -- cbn [forallb]. by rewrite Hl1, Hl2.
      * by apply Forall_app.
      * destruct IH as (Hf2 & Hl2). split; [by apply Forall_app|].
        cbn [forallb]. by rewrite Hl1, Hl2.
    + destruct Hl as [Hf1 Hl1]. split; [done|].
      cbn [forallb] in Hl1. rewrite andb_true_r in Hl1.
      cbn [forallb]. by rewrite Hl1.
Qed.

Lemma legacy_initial_open : legacy_open_ok Legacy.initial_state.
Proof. by intros ?. Qed.

(** X8.  When the backend answered without an error and the upstream
    iterator is read to its end, the legacy reconstructor forwards every
    upstream event, one for one and in order, with the text of its first
    choice replaced by the empty string and everything else as it arrived:
    the text travels only in the flushes. *)
Theorem legacy_events_are_emptied r disc o :
  is_error r = false ->
  handle_stream_response_for_legacy_completion r disc = (o, Exhausted) ->
  legacy_data_of o = map Legacy.clear_text (payloads (aiter_lines r)).
Proof.
  unfold_legacy_handle. intros ->.
  pose proof (legacy_stream_loop_run disc (aiter_lines r) 0 _
                legacy_initial_open) as H.
  destruct (stream_loop _ _ _ _) as [[o' e] s']. intros [= <- ->].
  by destruct H as (_ & H & _).
Qed.

(** X9.  The legacy reconstructor neither drops, repeats nor reorders text
    while the stream lasts: when the loop has read all the lines, the texts
    passed to the replacement by the flushes, followed by what is still in
    the buffer, are the texts of the upstream events in the order of
    arrival. *)
Theorem legacy_text_is_conserved disc lines o s' :
  stream_loop disc 0 lines Legacy.initial_state = (o, Exhausted, s') ->
  joined (legacy_flushed o) +:+ Legacy.buffer s'
  = joined (map legacy_text (payloads lines)).
Proof.
  intros Hrun.
  pose proof (legacy_stream_loop_run disc lines 0 _ legacy_initial_open) as H.
  rewrite Hrun in H. by destruct H as (_ & _ & H & _).
Qed.

(** X10.  Whatever the stream and however it ends, every flush of the
    legacy reconstructor was made from a non-empty buffer, and the text of
    its carrier's first choice is that buffer passed through the
    completion-side replacement. *)
Theorem legacy_flush_carries_replaced_text r disc t carrier :
  In (Legacy.Flush t carrier)
     (fst (handle_stream_response_for_legacy_completion r disc)) ->
  t <> ""
  /\ text_field carrier = Some (JStr (apply_replacement_to_completion t)).
Proof.
  unfold_legacy_handle. destruct (is_error r).
  - intros [H|[H|[]]]; discriminate.
  - pose proof (legacy_stream_loop_run disc (aiter_lines r) 0 _
                  legacy_initial_open) as H.
    destruct (stream_loop _ _ _ _) as [[o e] s']. cbn [fst].
    assert (Forall flushes_rendered o) as Hf
      by (destruct e; [by destruct H|done|by destruct H]).
    intros Hin. rewrite List.Forall_forall in Hf. exact (Hf _ Hin).
Qed.

(** X11.  The legacy reconstructor raises only on a malformed line: when
    every data line decodes to a dict whose ["choices"] is absent, empty or
    a list that starts with a dict, whose ["text"] is absent, empty or a
    [str], the generator ends without an exception; in particular no flush
    ever finds [last_chunk] unbound. *)
Theorem legacy_stream_raises_nothing r disc :
  forallb legacy_line (aiter_lines r) = true ->
  snd (handle_stream_response_for_legacy_completion r disc) <> Crashed.
Proof.
  intros Hok. unfold_legacy_handle. destruct (is_error r); [done|].
  pose proof (legacy_stream_loop_run disc (aiter_lines r) 0 _
                legacy_initial_open) as H.
  destruct (stream_loop _ _ _ _) as [[o e] s']. cbn [snd].
  intros ->. destruct H as [_ H]. by rewrite Hok in H.
Qed.

End LegacyStream.
(** ** More on the request rewrite *)

Lemma assigned_key_false k :
  assigned_key k = false ->
  k <> "messages" /\ k <> "tools" /\ k <> "tool_choice".
Proof.
  unfold assigned_key. intros H.
  apply orb_false_iff in H as [H H3]. apply orb_false_iff in H as [H1 H2].
  by apply String.eqb_neq in H1, H2, H3.
Qed.

Section RequestFields.

Variable build_tool_parser : json -> bool -> option (Parser * string).
Variable apply_replacement_to_messages :
  json -> option (json * (string -> string)).
Variable str : json -> string.
Variable writable : string -> bool.

Local Abbreviation rewrite_first :=
  (rewrite_first_message build_tool_parser str).
Local Abbreviation process_with :=
  (process_request_with build_tool_parser apply_replacement_to_messages str
                        writable).

Lemma rewrite_first_fields cfg request request' p :
  rewrite_first cfg request = Some (request', Some p) ->
  exists top top',
    request = JObj top /\ request' = JObj top'
    /\ (forall k, assigned_key k = false ->
          Py.assoc k top' = Py.assoc k top)
    /\ match schemas p with
       | [] => Py.assoc "tools" top' = Py.assoc "tools" top
       | _ =>
           exists xs,
             Py.or_ (default JNull (Py.assoc "tools" top)) (JArr [])
             = JArr xs
             /\ Py.assoc "tools" top' = Some (JArr (xs ++ schemas p))
       end
    /\ Py.assoc "tool_choice" top'
       = if force_tool_calling cfg
            && Py.truthy (default JNull (Py.assoc "tools" top'))
         then Some (JStr "required")
         else Py.assoc "tool_choice" top.
Proof.
  intros H.
  pose proof (rewrite_first_bound _ _ _ _ _ _ H) as (m0 & rest & r & Hm & Hr & Hsu).
  unfold rewrite_first_message in H. rewrite Hm in H.
  cbn [mbind option_bind Py.truthy Py.index0 Py.getitem] in H.
  rewrite Hr in H. cbn [mbind option_bind] in H.
  rewrite (system_or_user_str r Hsu) in H.
  destruct (Py.assoc "content" m0) as [content|] eqn:Hc; [|discriminate].
  cbn [mbind option_bind] in H.
  destruct (build_tool_parser _ _) as [[p' prompt]|] eqn:Hb; [|discriminate].
  cbn [mbind option_bind] in H.
  destruct request as [| | | | |top]; try discriminate.
  cbn [Py.getitem] in Hm.
  rewrite (set_message0_eq _ _ _ _ _ Hm) in H. cbn [mbind option_bind] in H.
  erewrite set_message0_eq in H by apply assoc_set_same.
  cbn [mbind option_bind] in H.
  set (top2 := Py.assoc_set "messages" _ (Py.assoc_set "messages" _ top)) in H.
  assert (forall k, k <> "messages" -> Py.assoc k top2 = Py.assoc k top) as H2
    by (intros k Hk; subst top2; by rewrite !assoc_set_other).
  destruct (schemas p') as [|x xs] eqn:Hsch.
  - cbn [mbind option_bind Py.get] in H.
    destruct (force_tool_calling cfg && _) eqn:Hf;
      cbn [Py.setitem mbind option_bind] in H; injection H as <- <-.
    + exists top, (Py.assoc_set "tool_choice" (JStr "required") top2).
      rewrite Hsch. split; [done|]. split; [done|]. split; [|split].
      * intros k (Hk1 & Hk2 & Hk3)%assigned_key_false.
        rewrite assoc_set_other by done. by apply H2.
      * rewrite assoc_set_other by done. by apply H2.
      * rewrite assoc_set_same, assoc_set_other by done.
        change (default JNull (Py.assoc "tools" top2))
          with (match Py.assoc "tools" top2 with
                | Some v => v | None => JNull end).
        by rewrite Hf.
    + exists top, top2. rewrite Hsch.
      split; [done|]. split; [done|]. split; [|split].
      * intros k (Hk1 & Hk2 & Hk3)%assigned_key_false. by apply H2.
      * by apply H2.
      * change (default JNull (Py.assoc "tools" top2))
          with (match Py.assoc "tools" top2 with
                | Some v => v | None => JNull end).
        rewrite Hf. by apply H2.
  - cbn [Py.get mbind option_bind] in H.
    change (match Py.assoc "tools" top2 with Some v => v | None => JNull end)
      with (default JNull (Py.assoc "tools" top2)) in H.
    rewrite (H2 "tools") in H by done.
    destruct (Py.or_ (default JNull (Py.assoc "tools" top)) (JArr []))
      as [| | | |ys|] eqn:Hor; try discriminate.
    cbn [list_add mbind option_bind Py.setitem Py.get] in H.
    rewrite assoc_set_same in H.
    destruct (force_tool_calling cfg && _) eqn:Hf;
      cbn [Py.setitem mbind option_bind] in H; injection H as <- <-.
    + eexists top, _. rewrite Hsch. split; [done|]. split; [done|].
      split; [|split].
      * intros k (Hk1 & Hk2 & Hk3)%assigned_key_false.
        rewrite !assoc_set_other by done. by apply H2.
      * exists ys. split; [done|].
        rewrite assoc_set_other by done. apply assoc_set_same.
      * rewrite assoc_set_same, assoc_set_other, assoc_set_same by done.
        cbn [default id]. by rewrite Hf.
    + eexists top, _. rewrite Hsch. split; [done|]. split; [done|].
      split; [|split].
      * intros k (Hk1 & Hk2 & Hk3)%assigned_key_false.
        rewrite !assoc_set_other by done. by apply H2.
      * exists ys. split; [done|]. apply assoc_set_same.
      * rewrite assoc_set_same. cbn [default id]. rewrite Hf.
        rewrite assoc_set_other by done. by apply H2.
Qed.

Lemma process_with_fields cfg request pr :
  process_with cfg request = Some pr ->
  exists request' msgs,
    rewrite_first cfg request = Some (request', Some (pr_parser pr))
    /\ Py.setitem request' "messages" msgs = Some (pr_request pr)
    /\ pr_dumps pr
       = dump_to (message_dump_path cfg) msgs
         ++ dump_to (tool_dump_path cfg)
              (Py.or_ (default JNull (Py.getitem (pr_request pr) "tools"))
                      (JStr "[]")).
Proof.
  unfold process_request_with. intros H.
  destruct (rewrite_first cfg request) as [[request' [p|]]|] eqn:Hrw;
    try discriminate.
  destruct (rewrite_first_inv _ _ _ _ _ _ Hrw)
    as (m0 & rest & content & prompt & Hm & Hc & Hb & Hm' & top' & ->).
  cbn [mbind option_bind] in H. rewrite Hm' in H.
  cbn [mbind option_bind] in H.
  destruct (modify_xml_messages_to_tool_calls p _) as [msgs1|] eqn:H1;
    [|discriminate].
  cbn [mbind option_bind] in H.
  destruct (apply_replacement_to_messages msgs1) as [[msgs2 f]|] eqn:H2;
    [|discriminate].
  cbn [mbind option_bind Py.setitem Py.get] in H.
  destruct (written writable (dump_to (message_dump_path cfg) msgs2))
    as [d1|] eqn:Hd1; [|discriminate].
  cbn [mbind option_bind] in H.
  destruct (written writable (dump_to (tool_dump_path cfg) _)) as [d2|]
    eqn:Hd2; [|discriminate].
  cbn [mbind option_bind] in H. injection H as <-.
  apply written_inv in Hd1, Hd2. subst d1 d2.
  exists (JObj top'), msgs2. cbn [pr_parser pr_request pr_dumps Py.getitem].
  split; [done|]. split; [done|].
  by rewrite !assoc_set_other.
Qed.

(** C10 (amended).  [process_request] needs a first message whose role is
    "system" or "user" and which has a content.  With one, in a request
    whose tool list, if any, is a list, when the schema synthesis, the
    message rewriter and the replacement pipeline return and the configured
    dump files can be written, it returns the parser, the completion
    transform and the rewritten request: its messages are what the rewriter
    and the pipeline made of the message list whose first message has the
    role "system" and the synthesized prompt as content; its tools are the
    client's followed by the schemas; [tool_choice] is forced as the
    configuration says; every other key is the client's.  Without an
    eligible first message, and in particular with an empty message list or
    a first message of another role, lines 92-109 are skipped, [parser]
    stays unbound, and line 111 raises.  It also raises when a dump file
    cannot be written. *)
Theorem process_request_needs_first_message cfg request :
  (forall top m0 rest r content p prompt msgs1 msgs2 f,
     request = JObj top ->
     Py.assoc "messages" top = Some (JArr (JObj m0 :: rest)) ->
     Py.assoc "role" m0 = Some (JStr r) -> r = "system" \/ r = "user" ->
     Py.assoc "content" m0 = Some content ->
     build_tool_parser (system_prompt_of str content)
                       (negb (disable_strict_schemas cfg)) = Some (p, prompt) ->
     tool_list_ok top ->
     modify_xml_messages_to_tool_calls p
       (JArr (rewritten_first m0 prompt :: rest)) = Some msgs1 ->
     apply_replacement_to_messages msgs1 = Some (msgs2, f) ->
     can_dump writable (message_dump_path cfg) = true ->
     can_dump writable (tool_dump_path cfg) = true ->
     exists request' dumps,
       process_with cfg request = Some (Processed request' p f dumps)
       /\ Py.getitem request' "messages" = Some msgs2
       /\ match schemas p with
          | [] => Py.getitem request' "tools" = Py.assoc "tools" top
          | _ =>
              exists xs,
                Py.or_ (default JNull (Py.assoc "tools" top)) (JArr [])
                = JArr xs
                /\ Py.getitem request' "tools"
                   = Some (JArr (xs ++ schemas p))
          end
       /\ Py.getitem request' "tool_choice"
          = (if force_tool_calling cfg
                && Py.truthy (default JNull (Py.getitem request' "tools"))
             then Some (JStr "required")
             else Py.assoc "tool_choice" top)
       /\ (forall k, assigned_key k = false ->
             Py.getitem request' k = Py.assoc k top)
       /\ dumps
          = dump_to (message_dump_path cfg) msgs2
            ++ dump_to (tool_dump_path cfg)
                 (Py.or_ (default JNull (Py.getitem request' "tools"))
                         (JStr "[]")))
  /\ (~ first_message_eligible request -> process_with cfg request = None)
  /\ (forall m0 rest r,
        Py.getitem request "messages" = Some (JArr [])
        \/ (Py.getitem request "messages" = Some (JArr (m0 :: rest))
            /\ Py.getitem m0 "role" = Some r /\ system_or_user r = false) ->
        rewrite_first cfg request = Some (request, None)
        /\ process_with cfg request = None)
  /\ (can_dump writable (message_dump_path cfg) = false
      \/ can_dump writable (tool_dump_path cfg) = false ->
      process_with cfg request = None).
Proof.
  split; [|split; [|split]].
  - intros top m0 rest r content p prompt msgs1 msgs2 f -> Hm Hr Hsu Hc Hb Ht
      H1 H2 Hd1 Hd2.
    destruct (process_with_returns build_tool_parser
                apply_replacement_to_messages str writable cfg top m0 rest r
                content p prompt msgs1 msgs2 f)
      as (request' & dumps & H & Hmsgs); try done.
    exists request', dumps. split; [exact H|]. split; [exact Hmsgs|].
    destruct (process_with_fields _ _ _ H)
      as (request'' & msgs & Hrw & Hset & Hd).
    cbn [pr_parser pr_request pr_dumps] in *.
    destruct (rewrite_first_fields _ _ _ _ Hrw)
      as (top0 & top' & [= <-] & -> & Hframe & Htools & Hchoice).
    injection Hset as <-. cbn [Py.getitem] in *.
    rewrite assoc_set_same in Hmsgs. injection Hmsgs as ->.
    rewrite !assoc_set_other by done.
    split; [exact Htools|]. split; [exact Hchoice|].
    split; [|by rewrite assoc_set_other in Hd].
    intros k Hk. destruct (assigned_key_false _ Hk) as (Hk1 & _).
    rewrite assoc_set_other by done. by apply Hframe.
  - intros Hne. destruct (process_with cfg request) as [pr|] eqn:H; [|done].
    destruct Hne. by eapply process_with_eligible.
  - intros m0 rest r. apply process_with_ineligible.
  - apply process_with_unwritable.
Qed.

(** X12.  [process_request] assigns three keys of the request and no other:
    whatever else the client sent ([model], [stream], sampling options and
    so on) reaches the rewritten request with the value it had. *)
Theorem other_request_fields_are_kept cfg request pr k :
  process_with cfg request = Some pr ->
  assigned_key k = false ->
  Py.getitem (pr_request pr) k = Py.getitem request k.
Proof.
  intros H Hk.
  destruct (process_with_fields _ _ _ H) as (request' & msgs & Hrw & Hset & _).
  destruct (rewrite_first_fields _ _ _ _ Hrw)
    as (top & top' & -> & -> & Hframe & _).
  injection Hset as <-. cbn [Py.getitem].
  destruct (assigned_key_false _ Hk) as (Hk1 & _).
  rewrite assoc_set_other by done. by apply Hframe.
Qed.

(** X13.  The tool list of the rewritten request: when the parser extracted
    no schema, the list is the client's, untouched (also when it is absent);
    otherwise it is the client's list, or the empty list when the client
    sent none or an empty value, followed by the schemas of the parser in
    their order. *)
Theorem tools_are_appended cfg request pr :
  process_with cfg request = Some pr ->
  match schemas (pr_parser pr) with
  | [] => Py.getitem (pr_request pr) "tools" = Py.getitem request "tools"
  | _ =>
      exists xs,
        Py.or_ (default JNull (Py.getitem request "tools")) (JArr []) = JArr xs
        /\ Py.getitem (pr_request pr) "tools"
           = Some (JArr (xs ++ schemas (pr_parser pr)))
  end.
Proof.
  intros H.
  destruct (process_with_fields _ _ _ H) as (request' & msgs & Hrw & Hset & _).
  destruct (rewrite_first_fields _ _ _ _ Hrw)
    as (top & top' & -> & -> & _ & Htools & _).
  injection Hset as <-. cbn [Py.getitem].
  rewrite assoc_set_other by done. exact Htools.
Qed.

(** X14.  [tool_choice] is forced exactly when the configuration asks for it
    and the rewritten request has a non-empty tool list: then it is
    "required", whatever the client sent; in every other case it is what the
    client sent, or absent. *)
Theorem tool_choice_is_forced cfg request pr :
  process_with cfg request = Some pr ->
  Py.getitem (pr_request pr) "tool_choice"
  = if force_tool_calling cfg
       && Py.truthy (default JNull (Py.getitem (pr_request pr) "tools"))
    then Some (JStr "required")
    else Py.getitem request "tool_choice".
Proof.
  intros H.
  destruct (process_with_fields _ _ _ H) as (request' & msgs & Hrw & Hset & _).
  destruct (rewrite_first_fields _ _ _ _ Hrw)
    as (top & top' & -> & -> & _ & _ & Hchoice).
  injection Hset as <-. cbn [Py.getitem].
  by rewrite !assoc_set_other.
Qed.

(** X15.  What [process_request] writes to the dump files is what it
    returns: the message dump holds the messages of the rewritten request
    and the tool dump its tool list, or the string "[]" when the list is
    absent or empty; a path that is unset or empty writes no file. *)
Theorem dumps_show_the_rewritten_request cfg request pr :
  process_with cfg request = Some pr ->
  exists msgs,
    Py.getitem (pr_request pr) "messages" = Some msgs
    /\ pr_dumps pr
       = dump_to (message_dump_path cfg) msgs
         ++ dump_to (tool_dump_path cfg)
              (Py.or_ (default JNull (Py.getitem (pr_request pr) "tools"))
                      (JStr "[]"))
    /\ (default "" (message_dump_path cfg) = "" ->
        default "" (tool_dump_path cfg) = "" -> pr_dumps pr = []).
Proof.
  intros H.
  destruct (process_with_fields _ _ _ H) as (request' & msgs & Hrw & Hset & Hd).
  exists msgs. split; [|split; [done|]].
  - destruct request' as [| | | | |top']; try discriminate.
    injection Hset as <-. apply assoc_set_same.
  - rewrite Hd. unfold dump_to.
    destruct (message_dump_path cfg) as [p1|], (tool_dump_path cfg) as [p2|];
      cbn [default id]; intros; subst; done.
Qed.

End RequestFields.

(** ** More on the configuration *)

(** X16.  The defaults are taken from the environment once: after the first
    [get_config], every later call returns the same configuration and
    leaves the stored object alone, whatever the environment holds by
    then. *)
Theorem environment_is_read_once environment environment' g :
  get_config environment' (snd (get_config environment g))
  = get_config environment g.
Proof. by destruct g. Qed.

(** X17.  [update_config] returns the configuration it stores: a later
    [get_config] returns that very object, with the fields the payload
    names at their new value and every other field as it was. *)
Theorem update_is_read_back environment environment' data g :
  let current := fst (get_config environment g) in
  let '(merged, g') := update_config environment data g in
  get_config environment' g' = (merged, g')
  /\ target_base_url merged
     = default (target_base_url current) (new_target_base_url data)
  /\ message_dump_path merged
     = default (message_dump_path current) (new_message_dump_path data)
  /\ tool_dump_path merged
     = default (tool_dump_path current) (new_tool_dump_path data)
  /\ disable_strict_schemas merged
     = default (disable_strict_schemas current)
               (new_disable_strict_schemas data)
  /\ force_tool_calling merged
     = default (force_tool_calling current) (new_force_tool_calling data).
Proof. by destruct g. Qed.

Lemma model_copy_overlay cfg first second :
  model_copy (model_copy cfg first) second = model_copy cfg (overlay first second).
Proof.
  destruct first as [a1 b1 c1 d1 e1], second as [a2 b2 c2 d2 e2].
  unfold model_copy, overlay. cbn.
  by destruct a2, b2, c2, d2, e2.
Qed.

(** X18.  Updates compose, the later one winning: two calls of
    [update_config] leave the configuration that one call leaves with the
    two payloads laid over each other, and the second call returns it. *)
Theorem updates_compose environment environment' first second g :
  update_config environment' second
    (snd (update_config environment first g))
  = update_config environment (overlay first second) g.
Proof.
  unfold update_config. destruct g as [cfg|]; cbn -[model_copy overlay];
    by rewrite model_copy_overlay.
Qed.
(** ** More on the endpoints *)

Lemma forwarded_headers_spec headers k v :
  In (k, v) (forwarded_headers headers)
  <-> In (k, v) headers /\ k <> "host" /\ k <> "content-length".
Proof.
  unfold forwarded_headers. rewrite <- !list_elem_of_In, list_elem_of_filter.
  cbn [fst]. rewrite negb_True, orb_True, !Is_true_true, !String.eqb_eq.
  tauto.
Qed.

Ltac unfold_legacy_complete_in H := unfold Legacy.complete_legacy in H.
Ltac unfold_legacy_create := unfold Legacy.create_legacy_completion.
Ltac unfold_legacy_prepare := unfold Legacy.prepare_legacy.

Section EndpointCalls.

Variable environment : RuntimeConfig.
Variable build_tool_parser : json -> bool -> option (Parser * string).
Variable apply_replacement_to_messages :
  json -> option (json * (string -> string)).
Variable apply_replacement_to_prompt :
  json -> option (json * (string -> string)).
Variable str : json -> string.
Variable writable : string -> bool.
Variable backend : backend_call -> response.

Local Abbreviation complete := (complete environment backend).
Local Abbreviation create_completion :=
  (create_completion environment build_tool_parser
     apply_replacement_to_messages str writable backend).
Local Abbreviation prepare_legacy :=
  (Legacy.prepare_legacy environment apply_replacement_to_prompt writable).
Local Abbreviation complete_legacy :=
  (Legacy.complete_legacy environment backend).
Local Abbreviation create_legacy_completion :=
  (Legacy.create_legacy_completion environment apply_replacement_to_prompt
     backend writable).

Lemma complete_call g p headers is_disconnected call resp g' :
  complete g p headers is_disconnected = (Some (call, resp), g') ->
  call = BackendCall
           (target_base_url (fst (get_config environment g))
            +:+ "/chat/completions")
           (pr_request p) headers.
Proof.
  unfold_complete. destruct (get_config environment g) as [cfg g1].
  cbn [fst]. intros H.
  destruct (Py.get (pr_request p) "stream" JNull) as [stream|];
    cbn [mbind option_bind] in H; [|discriminate].
  destruct (Py.truthy stream).
  - destruct (handle_stream_response _ _ _ _). by injection H as <- _ _.
  - destruct (is_error _).
    + destruct (body_json _); cbn in H; [|discriminate].
      by injection H as <- _ _.
    + destruct (body_json _); cbn in H; [|discriminate].
      destruct (modify_tool_calls_to_xml_messages _ _ _); cbn in H;
        [|discriminate].
      by injection H as <- _ _.
Qed.

(** X19.  The headers of the backend call are the headers of the client's
    request without [host] and [content-length]: every other header is
    passed on with its value, and nothing is added. *)
Theorem client_headers_are_forwarded payloads g headers request
  is_disconnected call resp g' k v :
  create_completion payloads g headers request is_disconnected
  = (Some (call, resp), g') ->
  In (k, v) (call_headers call)
  <-> In (k, v) headers /\ k <> "host" /\ k <> "content-length".
Proof.
  unfold_create_completion. unfold prepare_completion, process_request.
  destruct (get_config environment g) as [c g1].
  destruct (process_request_with _ _ _ _ c request) as [p|];
    cbn [mbind option_bind]; [|discriminate].
  intros H%complete_call. subst call. cbn [call_headers].
  apply forwarded_headers_spec.
Qed.

Lemma complete_legacy_call g p is_disconnected call resp g' :
  complete_legacy g p is_disconnected = (Some (call, resp), g') ->
  call = BackendCall
           (target_base_url (fst (get_config environment g))
            +:+ "/completions")
           (Legacy.pp_request p) (Legacy.pp_headers p)
  /\ g' = snd (get_config environment g).
Proof.
  intros H. unfold_legacy_complete_in H.
  destruct (get_config environment g) as [cfg g1]. cbn [fst snd].
  destruct (Py.get (Legacy.pp_request p) "stream" JNull) as [stream|];
    cbn [mbind option_bind] in H; [|discriminate].
  destruct (Py.truthy stream).
  - destruct (Legacy.handle_stream_response_for_legacy_completion _ _ _).
    by injection H as <- _ <-.
  - destruct (is_error _).
    + destruct (body_json _); cbn in H; [|discriminate].
      by injection H as <- _ <-.
    + destruct (body_json _); cbn in H; [|discriminate].
      destruct (Legacy.rewrite_choices _ _); cbn in H; [|discriminate].
      by injection H as <- _ <-.
Qed.

Lemma prepare_legacy_inv g headers req p g1 :
  prepare_legacy g headers req = (Some p, g1) ->
  exists prompt prompt',
    Py.getitem req "prompt" = Some prompt
    /\ apply_replacement_to_prompt prompt
       = Some (prompt', Legacy.pp_completion p)
    /\ Py.setitem req "prompt" prompt' = Some (Legacy.pp_request p)
    /\ Legacy.pp_headers p = forwarded_headers headers
    /\ g1 = Some (fst (get_config environment g)).
Proof.
  unfold_legacy_prepare.
  destruct (Py.getitem req "prompt") as [prompt|] eqn:Hp;
    cbn [mbind option_bind]; [|discriminate].
  destruct (apply_replacement_to_prompt prompt) as [[prompt' f]|] eqn:Hf;
    cbn [mbind option_bind]; [|discriminate].
  destruct (Py.setitem req "prompt" prompt') as [req'|] eqn:Hs;
    cbn [mbind option_bind]; [|discriminate].
  pose proof (get_config_stored environment g) as Hst.
  destruct (get_config environment g) as [cfg g2]. cbn [fst snd] in *.
  subst g2. intros H. exists prompt, prompt'.
  destruct (message_dump_path cfg) as [path|];
    [destruct (Py.nonempty path);
       [destruct (writable path); [|discriminate];
        destruct prompt'; try discriminate|]|];
    by injection H as <- <-.
Qed.

(** X20.  The legacy endpoint sends the backend the client's request with
    the prompt replaced and nothing else changed, to the [/completions]
    path of the base URL configured when the call is issued, with the
    client's headers except [host] and [content-length]. *)
Theorem legacy_request_is_forwarded payloads g headers req is_disconnected
  call resp g' :
  create_legacy_completion payloads g headers req is_disconnected
  = (Some (call, resp), g') ->
  exists prompt prompt' f,
    Py.getitem req "prompt" = Some prompt
    /\ apply_replacement_to_prompt prompt = Some (prompt', f)
    /\ Py.setitem req "prompt" prompt' = Some (call_json call)
    /\ (forall k, k <> "prompt" ->
          Py.getitem (call_json call) k = Py.getitem req k)
    /\ call_url call
       = target_base_url
           (fold_left model_copy payloads (fst (get_config environment g)))
         +:+ "/completions"
    /\ call_headers call = forwarded_headers headers.
Proof.
  unfold_legacy_create.
  destruct (prepare_legacy g headers req) as [[p|] g1] eqn:Hprep;
    [|discriminate].
  destruct (prepare_legacy_inv _ _ _ _ _ Hprep)
    as (prompt & prompt' & Hp & Hf & Hs & Hh & ->).
  rewrite api_update_configs_stored.
  intros [-> _]%complete_legacy_call.
  exists prompt, prompt', (Legacy.pp_completion p).
  cbn [call_json call_url call_headers get_config fst].
  repeat split; try done.
  intros k Hk. destruct req as [| | | | |top]; try discriminate.
  injection Hs as <-. cbn [Py.getitem]. by rewrite assoc_set_other.
Qed.

(** X21.  A legacy request without a prompt (or one that is not a JSON
    object) fails on line 321, before the configuration is read and before
    any backend call: the handler raises and the stored configuration is
    what it was, uninitialised if it was so. *)
Theorem legacy_request_needs_a_prompt payloads g headers req
  is_disconnected :
  Py.getitem req "prompt" = None ->
  create_legacy_completion payloads g headers req is_disconnected = (None, g).
Proof.
  intros H. unfold_legacy_create. unfold_legacy_prepare. by rewrite H.
Qed.

End EndpointCalls.
(** ** The non-streaming legacy response *)

Lemma assoc_set_id {A : Type} (k : string) (v : A) kvs :
  Py.assoc k kvs = Some v -> Py.assoc_set k v kvs = kvs.
Proof.
  induction kvs as [|[k0 v0] kvs IH]; cbn [Py.assoc Py.assoc_set]; [done|].
  destruct (String.eqb k k0) eqn:E.
  - apply String.eqb_eq in E. subst k0. by intros [= ->].
  - intros H. by rewrite IH.
Qed.

Lemma rewrite_choice_rewritten f c c' :
  Legacy.rewrite_choice f c = Some c' -> choice_rewritten f c c'.
Proof.
  unfold Legacy.rewrite_choice. intros H.
  destruct (Py.get c "text" (JStr "")) as [t|] eqn:Ht; [|discriminate].
  cbn [mbind option_bind] in H.
  destruct t as [| | |t| |]; try discriminate. by exists t.
Qed.

Lemma rewrite_choices_inv f response response' chs :
  Legacy.rewrite_choices f response = Some response' ->
  Py.getitem response "choices" = Some (JArr chs) ->
  exists chs',
    Py.getitem response' "choices" = Some (JArr chs')
    /\ Forall2 (choice_rewritten f) chs chs'
    /\ forall k, k <> "choices" ->
         Py.getitem response' k = Py.getitem response k.
Proof.
  unfold Legacy.rewrite_choices. intros H Hc.
  destruct response as [| | | | |top]; try discriminate.
  cbn [Py.getitem] in Hc. cbn [Py.get mbind option_bind] in H.
  rewrite Hc in H. cbn [Legacy.iterated mbind option_bind] in H.
  destruct (mapM _ chs) as [chs'|] eqn:Hm; [|discriminate].
  cbn [mbind option_bind Py.setitem] in H. injection H as <-.
  exists chs'. cbn [Py.getitem]. split; [apply assoc_set_same|]. split.
  - apply mapM_Some_1 in Hm. eapply Forall2_impl; [exact Hm|].
    intros c c'. apply rewrite_choice_rewritten.
  - intros k Hk. by rewrite assoc_set_other.
Qed.

Section LegacyResponse.

Variable environment : RuntimeConfig.
Variable backend : backend_call -> response.

Local Abbreviation complete_legacy :=
  (Legacy.complete_legacy environment backend).

(** X22.  A successful non-streaming legacy response is the backend's
    document with the text of every choice passed through the completion
    transform (the empty string for a choice without text): the choices
    keep their number, their order and their other fields, every other
    field of the document is as the backend sent it, and so is the status
    code. *)
Theorem legacy_choices_are_rewritten g p is_disconnected call resp g' stream
  document chs :
  let cfg := fst (get_config environment g) in
  let r := backend (BackendCall (target_base_url cfg +:+ "/completions")
                                (Legacy.pp_request p) (Legacy.pp_headers p)) in
  complete_legacy g p is_disconnected = (Some (call, resp), g') ->
  Py.get (Legacy.pp_request p) "stream" JNull = Some stream ->
  Py.truthy stream = false ->
  is_error r = false ->
  body_json r = Some document ->
  Py.getitem document "choices" = Some (JArr chs) ->
  exists document' chs',
    resp = Legacy.JSONResponse (status_code r) document'
    /\ Py.getitem document' "choices" = Some (JArr chs')
    /\ Forall2 (choice_rewritten (Legacy.pp_completion p)) chs chs'
    /\ forall k, k <> "choices" ->
         Py.getitem document' k = Py.getitem document k.
Proof.
  cbv zeta. intros H Hs Ht He Hb Hc. unfold_legacy_complete_in H.
  destruct (get_config environment g) as [cfg g1]. cbn [fst] in *.
  rewrite Hs in H. cbn [mbind option_bind] in H.
  rewrite Ht, He, Hb in H. cbn [mbind option_bind] in H.
  destruct (Legacy.rewrite_choices _ _) as [document'|] eqn:Hr;
    cbn [mbind option_bind] in H; [|discriminate].
  injection H as <- <- <-.
  destruct (rewrite_choices_inv _ _ _ _ Hr Hc) as (chs' & H1 & H2 & H3).
  by exists document', chs'.
Qed.

End LegacyResponse.

Lemma rewrite_choice_unchanged c :
  has_text c -> Legacy.rewrite_choice (fun t => t) c = Some c.
Proof.
  intros [t Ht]. destruct c as [| | | | |kvs]; try discriminate.
  cbn [Py.getitem] in Ht. unfold Legacy.rewrite_choice.
  cbn [Py.get]. rewrite Ht. cbn [mbind option_bind Py.setitem].
  by rewrite (assoc_set_id _ _ _ Ht).
Qed.

(** X23.  With a completion transform that changes nothing, the rewrite of
    lines 362-364 is the identity on a document whose choices all have a
    text: the response goes back to the client as the backend sent it, key
    order included. *)
Theorem unchanged_text_keeps_the_document document chs :
  Py.getitem document "choices" = Some (JArr chs) ->
  Forall has_text chs ->
  Legacy.rewrite_choices (fun t => t) document = Some document.
Proof.
  intros Hc Hall. destruct document as [| | | | |top]; try discriminate.
  cbn [Py.getitem] in Hc. unfold Legacy.rewrite_choices.
  cbn [Py.get mbind option_bind]. rewrite Hc.
  cbn [Legacy.iterated mbind option_bind].
  assert (mapM (Legacy.rewrite_choice (fun t => t)) chs = Some chs) as ->.
  { apply mapM_Some_2. clear Hc.
    induction Hall as [|c chs Hc _ IH]; constructor;
      [by apply rewrite_choice_unchanged|exact IH]. }
  cbn [mbind option_bind Py.setitem]. by rewrite (assoc_set_id _ _ _ Hc).
Qed.

(** ** A tool-call fragment without a function *)

Section MissingFunction.

Variable parser : Parser.
Variable apply_replacement_to_completion : string -> string.

Local Abbreviation create_tool_call :=
  (create_tool_call parser apply_replacement_to_completion).
Local Abbreviation assistant_branch :=
  (assistant_branch parser apply_replacement_to_completion).
Local Abbreviation after_reasoning :=
  (after_reasoning parser apply_replacement_to_completion).
Local Abbreviation on_data := (on_data parser apply_replacement_to_completion).

(** X24.  Line 190 reads [tool_call.get("function").get("name", "")]: when
    the event of an assistant carries a non-empty tool-call fragment whose
    [function] is absent, null or anything else than a dict, the generator
    raises there.  The event is not forwarded and the stream ends with the
    exception. *)
Theorem fragment_without_function_raises j s v tc fn :
  read_event s j = Some v ->
  Py.eq (v_role v) (JStr "assistant") = true ->
  Py.index0 (Py.or_ (v_tool_calls v) (JArr [JObj []])) = Some tc ->
  Py.truthy tc = true ->
  Py.get tc "function" JNull = Some fn ->
  Py.get fn "name" (JStr "") = None ->
  snd (on_data j s) = None
  /\ Forall (fun o => is_flush o = true) (fst (on_data j s)).
Proof.
  intros Hv Hrole Htc Htruthy Hfn Hname.
  assert (sat (on_data j) s (fun o => is_flush o = true) (fun _ _ => False))
    as [Hout Hres].
  { unfold_on_data. sat_step. sat_step. rewrite Hv. sat_step.
    match goal with H : Some _ = Some _ |- _ => injection H as <- end.
    sat_step. sat_step. sat_step.
    unfold_after_reasoning. sat_step.
    eapply sat_bind with (Q := fun _ _ => True).
    { eapply sat_outputs_impl; [|apply flush_site_rendered]. by intros []. }
    cbv beta. intros [] s1 _. sat_step. sat_step.
    rewrite Hrole.
    eapply sat_bind with (Q := fun _ _ => False); [|by intros ? ? []].
    unfold_assistant_branch. rewrite Htc. sat_step.
    match goal with H : Some _ = Some _ |- _ => injection H as <- end.
    sat_step. sat_step.
    eapply sat_bind with (Q := fun _ _ => True).
    { eapply sat_outputs_impl; [|apply flush_site_rendered]. by intros []. }
    cbv beta. intros [] s2 _. rewrite Htruthy, Hfn. sat_step.
    match goal with H : Some _ = Some _ |- _ => injection H as <- end.
    rewrite Hname. sat_step. discriminate. }
  split; [|exact Hout].
  destruct (snd (on_data j s)) as [[[] s']|]; [|done].
  destruct (Hres _ _ eq_refl).
Qed.

End MissingFunction.

(** ** The end of a legacy stream *)

Section LegacyEnd.

Variable apply_replacement_to_completion : string -> string.

Local Abbreviation on_line :=
  (Legacy.on_line apply_replacement_to_completion).
Local Abbreviation stream_loop :=
  (Legacy.stream_loop apply_replacement_to_completion).
Local Abbreviation handle_stream_response_for_legacy_completion :=
  (Legacy.handle_stream_response_for_legacy_completion
     apply_replacement_to_completion).

Lemma legacy_done_empties t s o s' :
  legacy_open_ok s ->
  on_line (LDone t) s = (o, Some (tt, s')) ->
  Legacy.buffer s' = "" /\ last o = Some (Legacy.Sentinel t).
Proof.
  intros Ho. cbn [Legacy.on_line]. rewrite legacy_bind_read_eq.
  destruct (Py.nonempty (Legacy.buffer s)) eqn:Hb; cbn [Legacy.when].
  - apply nonempty_iff in Hb.
    destruct (Ho Hb) as (b & chunk & Hl & Hh & Hsh).
    destruct (text_shaped_settable chunk
                (apply_replacement_to_completion (Legacy.buffer s)) Hsh)
      as [chunk' Hs].
    unfold Legacy.bind.
    rewrite (legacy_create_tool_call_eq apply_replacement_to_completion),
      Hl, Hh, Hs.
    cbn. by intros [= <- <-].
  - apply nonempty_false_iff in Hb. rewrite legacy_bind_ret_eq.
    cbn. by intros [= <- <-].
Qed.

Lemma legacy_stream_loop_done disc t lines : forall k s o s',
  legacy_open_ok s ->
  stream_loop disc k (lines ++ [LDone t]) s = (o, Exhausted, s') ->
  Legacy.buffer s' = "" /\ last o = Some (Legacy.Sentinel t).
Proof.
  induction lines as [|l rest IH]; intros k s o s' Ho;
    cbn [app Legacy.stream_loop].
  - destruct (disc k); [discriminate|].
    destruct (on_line (LDone t) s) as [o1 [[[] s1]|]] eqn:Hl; [|discriminate].
    intros [= <- <-].
    rewrite app_nil_r. by eapply legacy_done_empties.
  - destruct (disc k); [discriminate|].
    pose proof (legacy_on_line_run apply_replacement_to_completion l s Ho)
      as Hl.
    unfold legacy_run in Hl.
    destruct (on_line l s) as [o1 [[[] s1]|]]; [|discriminate].
    cbn [fst snd fmap option_fmap option_map] in Hl.
    destruct Hl as (_ & _ & _ & Ho1 & _).
    destruct (stream_loop disc (S k) (rest ++ [LDone t]) s1)
      as [[o2 e] s2] eqn:Hrest.
    intros [= <- -> <-].
    destruct (IH _ _ _ _ Ho1 Hrest) as [Hb Hlast]. split; [done|].
    rewrite last_app, Hlast. done.
Qed.

(** X25.  A legacy stream that ends with the sentinel delivers all its text:
    when the lines before [data: [DONE]] are read to the end, the texts
    flushed are, joined in order, the texts of the upstream events, nothing
    is left in the buffer, and the sentinel is the last line yielded. *)
Theorem legacy_sentinel_delivers_all_text r disc lines t o :
  is_error r = false ->
  aiter_lines r = lines ++ [LDone t] ->
  handle_stream_response_for_legacy_completion r disc = (o, Exhausted) ->
  joined (legacy_flushed o) = joined (map legacy_text (payloads lines))
  /\ last o = Some (Legacy.Sentinel t).
Proof.
  unfold_legacy_handle. intros -> ->.
  pose proof (legacy_stream_loop_run apply_replacement_to_completion disc
                (lines ++ [LDone t]) 0 _ legacy_initial_open) as H.
  destruct (stream_loop _ _ _ _) as [[o' e] s'] eqn:Hrun.
  intros [= <- ->].
  destruct (legacy_stream_loop_done _ _ _ _ _ _ _ legacy_initial_open Hrun)
    as [Hb Hlast].
  split; [|done]. destruct H as (_ & _ & H & _).
  rewrite Hb, append_nil_r, payloads_app in H. cbn in H.
  by rewrite app_nil_r in H.
Qed.

End LegacyEnd.
(** ** The further properties on samples *)


Lemma flush_carries_rendered_call_witness :
  let c := CallArgs "read_file" "{}" "call_1" "look at the file" in
  exists carrier,
    In (Flush c carrier)
       (fst (handle_stream_response plain_parser unchanged
               (ok_stream leaking_lines) never))
    /\ ca_arguments c <> ""
    /\ delta_field carrier "content"
       = Some (JStr (render plain_parser unchanged c)).
Proof.
  intros c.
  assert (exists carrier pre rest,
            fst (handle_stream_response plain_parser unchanged
                   (ok_stream leaking_lines) never)
            = pre :: Flush c carrier :: rest)
    as (carrier & pre & rest & Ho) by (vm_compute; eauto).
  exists carrier. split; [rewrite Ho; right; by left|].
  apply (flush_carries_rendered_call plain_parser unchanged
           (ok_stream leaking_lines) never c carrier).
  rewrite Ho. right. by left.
Defined.

Lemma fragment_state_reachable :
  reachable plain_parser unchanged
    (state_after (LData (fragment_event 0 "call_1" "read_file" "{}"))).
Proof.
  eapply (reachable_next plain_parser unchanged initial_state
            (LData (fragment_event 0 "call_1" "read_file" "{}")));
    [constructor|reflexivity].
Defined.

Lemma flush_succeeds_when_reachable_witness :
  let s := state_after (LData (fragment_event 0 "call_1" "read_file" "{}")) in
  exists carrier s',
    create_tool_call plain_parser unchanged s
    = ([Flush (pending s) carrier], Some (tt, s'))
    /\ buffer s' = "" /\ tool_name s' = "" /\ tool_call_id s' = ""
    /\ reasoning_content_buffer s' = "".
Proof.
  intros s.
  apply (flush_succeeds_when_reachable plain_parser unchanged s).
  - exact fragment_state_reachable.
  - vm_compute. discriminate.
Defined.

Lemma sentinel_is_forwarded_witness :
  let s := state_after (LData (fragment_event 0 "call_1" "read_file" "{}")) in
  exists o s',
    on_line plain_parser unchanged done_line s = (o, Some (tt, s'))
    /\ buffer s' = ""
    /\ (buffer s = "" -> o = [Sentinel "data: [DONE]"])
    /\ (buffer s <> "" ->
        exists carrier,
          o = [Flush (pending s) carrier; Sentinel "data: [DONE]"]).
Proof.
  intros s.
  apply (sentinel_is_forwarded plain_parser unchanged s "data: [DONE]").
  exact fragment_state_reachable.
Defined.

Lemma plain_stream_passes_through_witness :
  handle_stream_response plain_parser unchanged
    (ok_stream (map LData content_events ++ [done_line])) never
  = (map (fun j => Data (forwarded j)) content_events
     ++ [Sentinel "data: [DONE]"], Exhausted).
Proof.
  apply (plain_stream_passes_through plain_parser unchanged
           (ok_stream (map LData content_events ++ [done_line]))
           "data: [DONE]" content_events); [reflexivity..|].
  repeat constructor; discriminate.
Defined.

Lemma fragment_without_function_raises_witness :
  snd (on_data plain_parser unchanged bare_fragment initial_state) = None
  /\ Forall (fun o => is_flush o = true)
            (fst (on_data plain_parser unchanged bare_fragment initial_state)).
Proof.
  eapply (fragment_without_function_raises plain_parser unchanged
            bare_fragment initial_state); reflexivity.
Defined.

Lemma legacy_events_are_emptied_witness :
  legacy_data_of
    (fst (Legacy.handle_stream_response_for_legacy_completion exclaim
            (ok_stream text_lines) never))
  = map Legacy.clear_text (payloads text_lines).
Proof.
  apply (legacy_events_are_emptied exclaim (ok_stream text_lines) never);
    reflexivity.
Defined.

Lemma legacy_text_is_conserved_witness :
  let run := Legacy.stream_loop exclaim never 0 (map LData text_events)
               Legacy.initial_state in
  joined (legacy_flushed (fst (fst run))) +:+ Legacy.buffer (snd run)
  = joined (map legacy_text (payloads (map LData text_events))).
Proof.
  intros run.
  apply (legacy_text_is_conserved exclaim never (map LData text_events)).
  reflexivity.
Defined.

Lemma legacy_flush_carries_replaced_text_witness :
  exists carrier,
    In (Legacy.Flush "Hello" carrier)
       (fst (Legacy.handle_stream_response_for_legacy_completion exclaim
               (ok_stream text_lines) never))
    /\ "Hello" <> ""
    /\ text_field carrier = Some (JStr (exclaim "Hello")).
Proof.
  assert (exists carrier pre rest,
            fst (Legacy.handle_stream_response_for_legacy_completion exclaim
                   (ok_stream text_lines) never)
            = pre ++ Legacy.Flush "Hello" carrier :: rest)
    as (carrier & pre & rest & Ho).
  { vm_compute. eexists _, [_; _], _. reflexivity. }
  exists carrier. split; [rewrite Ho; apply in_elt|].
  apply (legacy_flush_carries_replaced_text exclaim (ok_stream text_lines)
           never "Hello" carrier).
  rewrite Ho. apply in_elt.
Defined.

Lemma legacy_stream_raises_nothing_witness :
  snd (Legacy.handle_stream_response_for_legacy_completion exclaim
         (ok_stream text_lines) never) <> Crashed.
Proof.
  apply (legacy_stream_raises_nothing exclaim (ok_stream text_lines) never).
  reflexivity.
Defined.

Lemma legacy_sentinel_delivers_all_text_witness :
  joined (legacy_flushed
            (fst (Legacy.handle_stream_response_for_legacy_completion exclaim
                    (ok_stream text_lines) never)))
  = joined (map legacy_text (payloads (map LData text_events)))
  /\ last (fst (Legacy.handle_stream_response_for_legacy_completion exclaim
                  (ok_stream text_lines) never))
     = Some (Legacy.Sentinel "data: [DONE]").
Proof.
  apply (legacy_sentinel_delivers_all_text exclaim (ok_stream text_lines)
           never (map LData text_events) "data: [DONE]"); reflexivity.
Defined.

Lemma other_request_fields_are_kept_witness :
  Py.getitem (pr_request model_processed) "model"
  = Py.getitem model_request "model".
Proof.
  apply (other_request_fields_are_kept listing_build_tool_parser no_rules
           str_of_text any_path forcing_config model_request model_processed
           "model");
    reflexivity.
Defined.

Lemma tools_are_appended_witness :
  exists xs,
    Py.or_ (default JNull (Py.getitem model_request "tools")) (JArr [])
    = JArr xs
    /\ Py.getitem (pr_request model_processed) "tools"
       = Some (JArr (xs ++ [listing_schema])).
Proof.
  apply (tools_are_appended listing_build_tool_parser no_rules str_of_text
           any_path forcing_config model_request model_processed).
  reflexivity.
Defined.

Lemma tool_choice_is_forced_witness :
  Py.getitem (pr_request model_processed) "tool_choice"
  = if force_tool_calling forcing_config
       && Py.truthy (default JNull
                       (Py.getitem (pr_request model_processed) "tools"))
    then Some (JStr "required")
    else Py.getitem model_request "tool_choice".
Proof.
  apply (tool_choice_is_forced listing_build_tool_parser no_rules str_of_text
           any_path forcing_config model_request model_processed).
  reflexivity.
Defined.

Lemma dumps_show_the_rewritten_request_witness :
  exists msgs,
    Py.getitem (pr_request model_processed) "messages" = Some msgs
    /\ pr_dumps model_processed
       = dump_to (message_dump_path forcing_config) msgs
         ++ dump_to (tool_dump_path forcing_config)
              (Py.or_ (default JNull
                         (Py.getitem (pr_request model_processed) "tools"))
                      (JStr "[]"))
    /\ (default "" (message_dump_path forcing_config) = "" ->
        default "" (tool_dump_path forcing_config) = "" ->
        pr_dumps model_processed = []).
Proof.
  apply (dumps_show_the_rewritten_request listing_build_tool_parser no_rules
           str_of_text any_path forcing_config model_request model_processed).
  reflexivity.
Defined.

Lemma client_headers_are_forwarded_witness :
  In ("authorization", "Bearer k")
     (call_headers
        (BackendCall "http://backend/v1/chat/completions" hello_rewritten
           [("authorization", "Bearer k"); ("accept", "*/*")]))
  <-> In ("authorization", "Bearer k") client_headers
      /\ "authorization" <> "host" /\ "authorization" <> "content-length".
Proof.
  apply (client_headers_are_forwarded sample_config plain_build_tool_parser
           no_rules str_of_text any_path echo_backend [] None client_headers
           hello_request never
           (BackendCall "http://backend/v1/chat/completions" hello_rewritten
              [("authorization", "Bearer k"); ("accept", "*/*")])
           (JSONResponse 200
              (JObj [("url", JStr "http://backend/v1/chat/completions")]))
           (Some sample_config)).
  reflexivity.
Defined.

Lemma legacy_request_is_forwarded_witness :
  let call := BackendCall "http://backend/v1/completions" legacy_request
                [("authorization", "Bearer k"); ("accept", "*/*")] in
  exists prompt prompt' f,
    Py.getitem legacy_request "prompt" = Some prompt
    /\ keep_prompt prompt = Some (prompt', f)
    /\ Py.setitem legacy_request "prompt" prompt' = Some (call_json call)
    /\ (forall k, k <> "prompt" ->
          Py.getitem (call_json call) k = Py.getitem legacy_request k)
    /\ call_url call
       = target_base_url
           (fold_left model_copy [] (fst (get_config sample_config None)))
         +:+ "/completions"
    /\ call_headers call = forwarded_headers client_headers.
Proof.
  intros call.
  apply (legacy_request_is_forwarded sample_config keep_prompt any_path
           completion_backend [] None client_headers legacy_request never
           call (Legacy.JSONResponse 200 completion_document)
           (Some sample_config)).
  reflexivity.
Defined.

Lemma legacy_request_needs_a_prompt_witness :
  Legacy.create_legacy_completion sample_config keep_prompt
    completion_backend any_path [] None client_headers hello_request never
  = (None, None).
Proof.
  apply (legacy_request_needs_a_prompt sample_config keep_prompt any_path
           completion_backend [] None client_headers hello_request never).
  reflexivity.
Defined.

Lemma legacy_choices_are_rewritten_witness :
  let p := Legacy.Prepared legacy_request exclaim [] [] in
  exists document' chs',
    Legacy.JSONResponse 200
      (JObj [("id", JStr "cmpl-1");
             ("choices",
              JArr [JObj [("index", JNum 0); ("text", JStr "hi!")]])])
    = Legacy.JSONResponse 200 document'
    /\ Py.getitem document' "choices" = Some (JArr chs')
    /\ Forall2 (choice_rewritten exclaim)
               [JObj [("index", JNum 0); ("text", JStr "hi")]] chs'
    /\ forall k, k <> "choices" ->
         Py.getitem document' k = Py.getitem completion_document k.
Proof.
  intros p.
  apply (legacy_choices_are_rewritten sample_config completion_backend None p
           never
           (BackendCall "http://backend/v1/completions" legacy_request [])
           _ (Some sample_config) JNull completion_document
           [JObj [("index", JNum 0); ("text", JStr "hi")]]); reflexivity.
Defined.

Lemma unchanged_text_keeps_the_document_witness :
  Legacy.rewrite_choices (fun t => t) completion_document
  = Some completion_document.
Proof.
  apply (unchanged_text_keeps_the_document completion_document
           [JObj [("index", JNum 0); ("text", JStr "hi")]]);
    [reflexivity|].
  repeat constructor. by exists "hi".
Defined.

(** ** The claims on further samples *)

Lemma forwarded_event_keeps_delta_fields_witness :
  exists j,
    payloads leaking_lines !! 0 = Some j
    /\ delta_field reasoned_fragment "tool_calls" = delta_field j "tool_calls"
    /\ delta_field reasoned_fragment "reasoning_content"
       = delta_field j "reasoning_content"
    /\ forall k, k <> "content" ->
         delta_field reasoned_fragment k = delta_field j k.
Proof.
  apply (forwarded_event_keeps_delta_fields plain_parser unchanged
           (ok_stream leaking_lines) never 0 reasoned_fragment).
  reflexivity.
Defined.


Lemma process_request_needs_first_message_witness :
  (exists request' dumps,
     process_request_with plain_build_tool_parser no_rules str_of_text
                          any_path sample_config hello_request
     = Some (Processed request' plain_parser (fun t => t) dumps)
     /\ Py.getitem request' "messages" = Py.getitem hello_rewritten "messages"
     /\ Py.getitem request' "tools" = None
     /\ Py.getitem request' "tool_choice" = None
     /\ (forall k, assigned_key k = false ->
           Py.getitem request' k = Py.getitem hello_request k)
     /\ dumps = [])
  /\ process_request_with plain_build_tool_parser no_rules str_of_text
                          any_path sample_config assistant_first_request
     = None
  /\ process_request_with plain_build_tool_parser no_rules str_of_text
                          any_path sample_config empty_request = None
  /\ process_request_with plain_build_tool_parser no_rules str_of_text
                          read_only forcing_config hello_request = None.
Proof.
  split; [|split; [|split]].
  - apply (proj1 (process_request_needs_first_message
                    plain_build_tool_parser no_rules str_of_text any_path
                    sample_config hello_request)
             [("messages",
               JArr [JObj [("role", JStr "user"); ("content", JStr "hello")]])]
             [("role", JStr "user"); ("content", JStr "hello")] [] "user"
             (JStr "hello") plain_parser "hello"
             (JArr [JObj [("role", JStr "system"); ("content", JStr "hello")]])
             (JArr [JObj [("role", JStr "system"); ("content", JStr "hello")]])
             (fun t => t)); try reflexivity.
    by right.
  - apply (proj1 (proj2 (proj2 (process_request_needs_first_message
                           plain_build_tool_parser no_rules str_of_text
                           any_path sample_config assistant_first_request)))
             (JObj [("role", JStr "assistant"); ("content", JStr "hi")]) []
             (JStr "assistant")).
    right. repeat split; reflexivity.
  - apply (proj1 (proj2 (proj2 (process_request_needs_first_message
                           plain_build_tool_parser no_rules str_of_text
                           any_path sample_config empty_request)))
             JNull [] JNull).
    left. reflexivity.
  - apply (proj2 (proj2 (proj2 (process_request_needs_first_message
                           plain_build_tool_parser no_rules str_of_text
                           read_only forcing_config hello_request)))).
    left. reflexivity.
Defined.

(** C10, as stated, fails: a request whose message list is not empty and
    whose first message has the role "user" meets the precondition, and
    [process_request] raises on it all the same, on line 92, because the
    message has no content. *)
Lemma first_message_needs_content :
  first_message_eligible contentless_request
  /\ process_request_with plain_build_tool_parser no_rules str_of_text
                          any_path sample_config contentless_request = None.
Proof.
  split; [|reflexivity].
  exists [("role", JStr "user")], [], "user". repeat split. by right.
Qed.
